(** * Wallet classification, state tracking, stream subscription and alerting

    A shallow embedding of the analysis core of the repository:
    - [wallet_classifier]  : [TransactionDetector.classify_wallets]
    - [wallet_analyzer]    : [WalletAnalyzer._calculate_classifications],
                             [store_initial_wallet_state], [_check_state_exists],
                             [process_realtime_transaction_simple_alert]
    - [transaction_parser] : [_calculate_balance_changes],
                             [parse_transaction_for_event]
    - [notification_system]: [queue_notification] and the consumer loop
    - [websocket_manager]  : [connect], [_update_helius_subscription] and friends

    Conventions.  Python [int] is [Z].  Python [float] is IEEE-754 binary64,
    computed with the reference operations of [SpecFloat] at precision 53 and
    maximal exponent 1024.  A [dict] whose iteration order is observable is an
    association list in insertion order; a [set] is a [gset].  An awaited
    collaborator either raises or returns ([py.outcome]).  Timestamps are
    instants in microseconds (the resolution of [datetime]). *)

From Stdlib Require Import ZArith List Bool Lia SpecFloat.
From stdpp Require Import gmap strings list fin_maps fin_sets pretty.

#[local] Set Warnings "-clear-no-such-hyp".
#[local] Open Scope string_scope.
#[local] Open Scope Z_scope.

(** ** Python values *)

Module py.

(** Result of awaiting a collaborator: an exception or a value. *)
Inductive outcome (A : Type) : Type :=
| Raised
| Returned (a : A).
Arguments Raised {A}.
Arguments Returned {A} a.

(** A JSON field that the code passes to [int(...)]: the key is absent (or
    [None] where the code tests [is None]), the value makes [int] raise,
    or it converts to an integer. *)
Inductive pyint : Type :=
| IntAbsent
| IntInvalid
| IntOk (z : Z).

(** Truth value of an optional string: [None] and the empty string are
    falsy. *)
Definition truthy (s : option string) : bool :=
  match s with
  | Some (String _ _) => true
  | Some EmptyString => false
  | None => false
  end.

(** *** binary64 *)

Definition prec : Z := 53.
Definition emax : Z := 1024.

(** An integer as an exact (unrounded) operand of a true division. *)
Definition exact (z : Z) : spec_float :=
  match z with
  | Z0 => S754_zero false
  | Zpos p => S754_finite false p 0
  | Zneg p => S754_finite true p 0
  end.

(** [float(z)] for a literal that is exactly representable. *)
Definition float_of_int (z : Z) : spec_float :=
  binary_normalize prec emax z 0 false.

(** [a / b] on integers: the correctly rounded quotient; [None] stands for
    [ZeroDivisionError] or [OverflowError]. *)
Definition int_truediv (a b : Z) : option spec_float :=
  if Z.eqb b 0 then None
  else match SFdiv prec emax (exact a) (exact b) with
       | S754_infinity _ => None
       | q => Some q
       end.

(** [x / y] on floats; [None] stands for [ZeroDivisionError]. *)
Definition float_truediv (x y : spec_float) : option spec_float :=
  match y with
  | S754_zero _ => None
  | _ => Some (SFdiv prec emax x y)
  end.

Definition float_mul (x y : spec_float) : spec_float := SFmul prec emax x y.
Definition float_add (x y : spec_float) : spec_float := SFadd prec emax x y.
Definition float_ge (x y : spec_float) : bool := SFleb y x.
Definition float_gt (x y : spec_float) : bool := SFltb y x.

Definition zero : spec_float := S754_zero false.

(** *** dict with observable insertion order *)

Fixpoint dict_get {V : Type} (d : list (string * V)) (k : string) : option V :=
  match d with
  | [] => None
  | (k', v) :: d' => if String.eqb k' k then Some v else dict_get d' k
  end.

(** [d[k] = v]: an existing key keeps its position, a new key goes last. *)
Fixpoint dict_set {V : Type} (d : list (string * V)) (k : string) (v : V)
  : list (string * V) :=
  match d with
  | [] => [(k, v)]
  | (k', v') :: d' =>
      if String.eqb k' k then (k, v) :: d' else (k', v') :: dict_set d' k v
  end.

Definition dict_keys {V : Type} (d : list (string * V)) : list string :=
  map fst d.

End py.

Import py.

(** ** Shapes returned by the upstream data providers *)

Module api.

(** Token metadata as consumed by the classifiers. *)
Record metadata : Type := {
  decimals : pyint;
  total_supply : pyint;
  mintAuthority : option string;
  freezeAuthority : option string
}.

(** One token account of the holder snapshot. *)
Record holder : Type := {
  owner : option string;
  amount : pyint
}.

(** One early transaction: [isinstance] failures are [None]. *)
Record early_tx : Type := {
  timestamp : option Z;
  wallet : option string;
  is_buy : option bool
}.

Definition seconds (n : Z) : Z := n * 1000000.
Definition minutes (n : Z) : Z := seconds (n * 60).

End api.

Import api.

(** ** wallet_classifier.py *)

Module wallet_classifier.

Definition TEAM_HOLDING_PERCENT_THRESHOLD : spec_float := float_of_int 5.
Definition INSIDER_WINDOW_MINUTES : Z := 10.
Definition SNIPER_WINDOW_SECONDS : Z := 10.
Definition MAX_HOLDERS_TO_PROCESS_FOR_TEAM : Z := 5000.

(** The collaborators awaited by [classify_wallets].  The two listing
    helpers are methods the source leaves to be implemented. *)
Record collaborators : Type := {
  get_token_metadata_das : string -> outcome (option metadata);
  get_token_holders_paginated : string -> Z -> outcome (option (list holder));
  get_dex_listing_timestamp : string -> outcome (option Z);
  get_transactions_around_listing : string -> Z -> outcome (list early_tx)
}.

Inductive error_marker : Type :=
| MissingCoreMetadata
| MetadataFetchOrProcessingError
| PartialInsiderSniperFailure.

Record classifications : Type := {
  team : list string;
  insider : list string;
  sniper : list string;
  error : option error_marker
}.

(** Step 1: [decimals], [total_supply_decimal]; [None] when [int] or the
    division raises. *)
Definition read_metadata (md : metadata) : option (Z * spec_float) :=
  match decimals md, total_supply md with
  | IntOk d, IntOk total_supply_raw =>
      if 0 <=? d
      then match int_truediv total_supply_raw (10 ^ d) with
           | Some tsd => Some (d, tsd)
           | None => None
           end
      else Some (d, zero)
  | _, _ => None
  end.

(** Step 2, first loop: decimal balances summed per owner; [None] when
    [int(acc.get("amount", 0))] or the division raises. *)
Fixpoint aggregate_balances (d : Z) (holders_raw : list holder)
    (owner_balances_decimal : list (string * spec_float))
  : option (list (string * spec_float)) :=
  match holders_raw with
  | [] => Some owner_balances_decimal
  | acc :: rest =>
      match amount acc with
      | IntInvalid => None
      | a =>
          let raw_amount := match a with IntOk z => z | _ => 0 end in
          match owner acc with
          | Some o =>
              if truthy (Some o) && (0 <? raw_amount)
              then match int_truediv raw_amount (10 ^ d) with
                   | None => None
                   | Some balance_decimal =>
                       let old := default zero (dict_get owner_balances_decimal o) in
                       aggregate_balances d rest
                         (dict_set owner_balances_decimal o (float_add old balance_decimal))
                   end
              else aggregate_balances d rest owner_balances_decimal
          | None => aggregate_balances d rest owner_balances_decimal
          end
      end
  end.

Definition percentage (balance total_supply_decimal : spec_float) : spec_float :=
  float_mul (SFdiv prec emax balance total_supply_decimal) (float_of_int 100).

(** Step 2, second loop. *)
Definition apply_threshold (total_supply_decimal : spec_float)
    (owner_balances_decimal : list (string * spec_float)) : list string :=
  map fst
    (filter (fun ob => float_ge (percentage (snd ob) total_supply_decimal)
                         TEAM_HOLDING_PERCENT_THRESHOLD = true)
       owner_balances_decimal).

Definition team_step (env : collaborators) (mint_address : string)
    (d : Z) (total_supply_decimal : spec_float) : list string :=
  if float_gt total_supply_decimal zero
  then match get_token_holders_paginated env mint_address
               (MAX_HOLDERS_TO_PROCESS_FOR_TEAM / 1000 + 1) with
       | Raised => []
       | Returned None => []
       | Returned (Some []) => []
       | Returned (Some holders_raw) =>
           match aggregate_balances d holders_raw [] with
           | None => []
           | Some balances => apply_threshold total_supply_decimal balances
           end
       end
  else [].

(** Step 3, the loop over the early transactions: the pair of candidate
    sets. *)
Fixpoint window_candidates (listing_time sniper_window_end insider_window_end : Z)
    (classified_wallets : gset string) (transactions : list early_tx)
    (sniper_candidates insider_candidates : gset string)
  : gset string * gset string :=
  match transactions with
  | [] => (sniper_candidates, insider_candidates)
  | tx :: rest =>
      match timestamp tx, wallet tx, is_buy tx with
      | Some tx_timestamp, Some tx_wallet, Some buy =>
          if truthy (Some tx_wallet)
          then
            if buy && negb (bool_decide (tx_wallet ∈ classified_wallets))
            then
              if (listing_time <? tx_timestamp) && (tx_timestamp <=? sniper_window_end)
              then window_candidates listing_time sniper_window_end insider_window_end
                     classified_wallets rest
                     ({[tx_wallet]} ∪ sniper_candidates) insider_candidates
              else if (sniper_window_end <? tx_timestamp) && (tx_timestamp <=? insider_window_end)
              then window_candidates listing_time sniper_window_end insider_window_end
                     classified_wallets rest
                     sniper_candidates ({[tx_wallet]} ∪ insider_candidates)
              else window_candidates listing_time sniper_window_end insider_window_end
                     classified_wallets rest sniper_candidates insider_candidates
            else window_candidates listing_time sniper_window_end insider_window_end
                   classified_wallets rest sniper_candidates insider_candidates
          else window_candidates listing_time sniper_window_end insider_window_end
                 classified_wallets rest sniper_candidates insider_candidates
      | _, _, _ =>
          window_candidates listing_time sniper_window_end insider_window_end
            classified_wallets rest sniper_candidates insider_candidates
      end
  end.

(** Step 3: [(sniper, insider, raised)]. *)
Definition timing_step (env : collaborators) (mint_address : string)
    (classified_wallets : gset string) : list string * list string * bool :=
  match get_dex_listing_timestamp env mint_address with
  | Raised => ([], [], true)
  | Returned None => ([], [], false)
  | Returned (Some listing_time) =>
      match get_transactions_around_listing env mint_address listing_time with
      | Raised => ([], [], true)
      | Returned [] => ([], [], false)
      | Returned transactions =>
          let sniper_window_end := listing_time + seconds SNIPER_WINDOW_SECONDS in
          let insider_window_end := listing_time + minutes INSIDER_WINDOW_MINUTES in
          let '(sniper_candidates, insider_candidates) :=
            window_candidates listing_time sniper_window_end insider_window_end
              classified_wallets transactions ∅ ∅ in
          let sniper_list := elements (sniper_candidates ∖ classified_wallets) in
          let classified_wallets' := classified_wallets ∪ list_to_set sniper_list in
          let insider_list := elements (insider_candidates ∖ classified_wallets') in
          (sniper_list, insider_list, false)
      end
  end.

Definition classify_wallets (env : collaborators) (mint_address : string)
  : classifications :=
  match get_token_metadata_das env mint_address with
  | Raised =>
      {| team := []; insider := []; sniper := [];
         error := Some MetadataFetchOrProcessingError |}
  | Returned None =>
      {| team := []; insider := []; sniper := [];
         error := Some MissingCoreMetadata |}
  | Returned (Some md) =>
      match decimals md, total_supply md with
      | IntAbsent, _ | _, IntAbsent =>
          {| team := []; insider := []; sniper := [];
             error := Some MissingCoreMetadata |}
      | _, _ =>
          match read_metadata md with
          | None =>
              {| team := []; insider := []; sniper := [];
                 error := Some MetadataFetchOrProcessingError |}
          | Some (d, total_supply_decimal) =>
              let team_wallets_found := team_step env mint_address d total_supply_decimal in
              let classified_wallets : gset string := list_to_set team_wallets_found in
              let '(sniper_list, insider_list, raised) :=
                timing_step env mint_address classified_wallets in
              {| team := team_wallets_found;
                 insider := insider_list;
                 sniper := sniper_list;
                 error := if raised then Some PartialInsiderSniperFailure else None |}
          end
      end
  end.

(** [TransactionDetector] as the source has it: the metadata and the holder
    snapshot come from the Helius client, [get_dex_listing_timestamp] returns
    [None] and [get_transactions_around_listing] returns [[]]. *)
Definition TransactionDetector
    (helius_get_token_metadata_das : string -> outcome (option metadata))
    (helius_get_token_holders_paginated :
       string -> Z -> outcome (option (list holder)))
  : collaborators :=
  {| get_token_metadata_das := helius_get_token_metadata_das;
     get_token_holders_paginated := helius_get_token_holders_paginated;
     get_dex_listing_timestamp := fun _ => Returned None;
     get_transactions_around_listing := fun _ _ => Returned [] |}.

End wallet_classifier.

(** ** transaction_parser.py *)

Module transaction_parser.

(** One entry of [preTokenBalances] / [postTokenBalances].  [amount] is
    [uiTokenAmount.amount]. *)
Record token_balance : Type := {
  accountIndex : option Z;
  mint : option string;
  owner : option string;
  amount : pyint
}.

Record meta_data : Type := {
  err : bool;
  preTokenBalances : list token_balance;
  postTokenBalances : list token_balance
}.

(** The raw transaction record.  [signatures] is
    [tx_data["transaction"]["signatures"]] when that key is present. *)
Record tx_data : Type := {
  meta : meta_data;
  signatures : option (list (option string));
  blockTime : option Z
}.

Record token_change : Type := {
  wallet : string;
  change_mint : string;
  raw_change : Z
}.

Record event : Type := {
  type : string;
  timestamp : Z;
  signature : string;
  involved_wallets : list string;
  token_changes : list token_change
}.

(** [None], an event, or the error dictionary of the handler. *)
Inductive parse_result : Type :=
| NoEvent
| Event (e : event)
| ParsingFailed.

(** [int(bal.get("uiTokenAmount", {}).get("amount", 0))]. *)
Definition int_amount (a : pyint) : option Z :=
  match a with
  | IntAbsent => Some 0
  | IntInvalid => None
  | IntOk z => Some z
  end.

(** First loop of [_calculate_balance_changes] over one balance list:
    [balances_by_idx_mint]; [None] when [int] raises. *)
Fixpoint index_balances (bal_list : list token_balance)
    (balances_by_idx_mint : gmap (Z * string) ((string * string) * Z))
  : option (gmap (Z * string) ((string * string) * Z)) :=
  match bal_list with
  | [] => Some balances_by_idx_mint
  | bal :: rest =>
      match int_amount (amount bal) with
      | None => None
      | Some raw_amount =>
          match accountIndex bal, mint bal, owner bal with
          | Some idx, Some mt, Some ow =>
              index_balances rest
                (<[(idx, mt) := ((ow, mt), raw_amount)]> balances_by_idx_mint)
          | _, _, _ => index_balances rest balances_by_idx_mint
          end
      end
  end.

(** The dict comprehension building [pre_map] / [post_map]: entries with a
    falsy owner or mint are left out, a later entry overwrites an earlier one
    with the same key. *)
Definition balance_map (bal_list : list token_balance) : gmap (string * string) Z :=
  fold_left
    (fun acc b =>
       match owner b, mint b with
       | Some ow, Some mt =>
           if truthy (Some ow) && truthy (Some mt)
           then <[(ow, mt) := default 0 (int_amount (amount b))]> acc
           else acc
       | _, _ => acc
       end)
    bal_list ∅.

(** The inner loop over [all_keys]. *)
Definition record_deltas (pre_map post_map : gmap (string * string) Z)
    (changes : gmap (string * string) Z) : gmap (string * string) Z :=
  set_fold
    (fun key acc =>
       let pre_amt := default 0 (pre_map !! key) in
       let post_amt := default 0 (post_map !! key) in
       let delta := post_amt - pre_amt in
       if Z.eqb delta 0 then acc else <[key := delta]> acc)
    changes (dom pre_map ∪ dom post_map : gset (string * string)).

(** One iteration of [for bal in post_balances]. *)
Definition diff_iteration (pre_balances post_balances : list token_balance)
    (balances_by_idx_mint : gmap (Z * string) ((string * string) * Z))
    (changes : gmap (string * string) Z) (bal : token_balance)
  : gmap (string * string) Z :=
  match accountIndex bal, mint bal with
  | Some idx, Some mt =>
      match balances_by_idx_mint !! (idx, mt) with
      | None => changes
      | Some _ =>
          record_deltas (balance_map pre_balances) (balance_map post_balances) changes
      end
  | _, _ => changes
  end.

Definition _calculate_balance_changes (m : meta_data) : outcome (list token_change) :=
  let pre_balances := preTokenBalances m in
  let post_balances := postTokenBalances m in
  match index_balances pre_balances ∅ with
  | None => Raised
  | Some by_idx =>
      match index_balances post_balances by_idx with
      | None => Raised
      | Some balances_by_idx_mint =>
          let changes :=
            fold_left (diff_iteration pre_balances post_balances balances_by_idx_mint)
              post_balances ∅ in
          Returned
            (map (fun kv => {| wallet := fst (fst kv);
                               change_mint := snd (fst kv);
                               raw_change := snd kv |})
               (map_to_list changes))
      end
  end.

Definition parse_transaction_for_event (tx : tx_data) : parse_result :=
  if err (meta tx) then NoEvent
  else
    match signatures tx with
    | Some [] => ParsingFailed
    | sigs =>
        let first_signature :=
          match sigs with
          | Some (s :: _) => s
          | _ => None
          end in
        match first_signature, blockTime tx with
        | Some sig, Some block_time_unix =>
            if truthy (Some sig)
            then
              match _calculate_balance_changes (meta tx) with
              | Raised => ParsingFailed
              | Returned changes =>
                  let wallets : gset string := list_to_set (map wallet changes) in
                  match changes with
                  | [] => NoEvent
                  | _ =>
                      Event {| type := "TOKEN_ACTIVITY";
                               timestamp := block_time_unix;
                               signature := sig;
                               involved_wallets := elements wallets;
                               token_changes := changes |}
                  end
              end
            else ParsingFailed
        | _, _ => ParsingFailed
        end
    end.

End transaction_parser.

(** ** notification_system.py *)

Module notification_system.

Record notification : Type := {
  chat_id : option Z;
  token_address : option string;
  type : string;
  content : option string;
  queued_at : option Z
}.

(** [sent] lists the calls of [bot.send_message], oldest first, each with
    its success. *)
Record state : Type := {
  running : bool;
  notification_queue : list (option notification);
  processor_alive : bool;
  bot : bool;
  sent : list (notification * bool)
}.

Definition maxsize : nat := 5000.

(** [__init__]. *)
Definition init : state :=
  {| running := false; notification_queue := []; processor_alive := false;
     bot := false; sent := [] |}.

(** How a call of [queue_notification] ends: it returns without queueing,
    it returns after queueing, or it stays suspended in [put] on a full
    queue. *)
Inductive put_outcome : Type :=
| Discarded
| Queued
| Suspended.

Definition stamp (now : Z) (n : notification) : notification :=
  match queued_at n with
  | Some _ => n
  | None =>
      {| chat_id := chat_id n; token_address := token_address n;
         type := type n; content := content n; queued_at := Some now |}
  end.

Definition queue_notification (now : Z) (n : notification) (s : state)
  : state * put_outcome :=
  if negb (running s) then (s, Discarded)
  else if (maxsize <=? length (notification_queue s))%nat then (s, Suspended)
  else ({| running := running s;
           notification_queue := notification_queue s ++ [Some (stamp now n)];
           processor_alive := processor_alive s;
           bot := bot s;
           sent := sent s |}, Queued).

Definition start (s : state) : state :=
  if running s then s
  else {| running := true; notification_queue := notification_queue s;
          processor_alive := true; bot := bot s; sent := sent s |}.

(** [stop]: the flag is cleared and the sentinel is queued. *)
Definition stop (s : state) : state :=
  if running s
  then {| running := false;
          notification_queue := notification_queue s ++ [None];
          processor_alive := processor_alive s; bot := bot s; sent := sent s |}
  else s.

(** [send_telegram_notification]; [telegram_ok] is whether
    [bot.send_message] returns rather than raises. *)
Definition send_telegram_notification (telegram_ok : bool) (n : notification)
    (s : state) : state :=
  if negb (bot s) then s
  else
    match chat_id n, content n with
    | Some c, Some text =>
        if negb (Z.eqb c 0) && truthy (Some text)
        then {| running := running s; notification_queue := notification_queue s;
                processor_alive := processor_alive s; bot := bot s;
                sent := sent s ++ [(n, telegram_ok)] |}
        else s
    | _, _ => s
    end.

(** One iteration of the loop of [_process_notification_queue]. *)
Definition process_one (telegram_ok : bool) (s : state) : state :=
  if processor_alive s && running s
  then
    match notification_queue s with
    | [] => s
    | None :: rest =>
        {| running := running s; notification_queue := rest;
           processor_alive := false; bot := bot s; sent := sent s |}
    | Some n :: rest =>
        send_telegram_notification telegram_ok n
          {| running := running s; notification_queue := rest;
             processor_alive := processor_alive s; bot := bot s; sent := sent s |}
    end
  else
    {| running := running s; notification_queue := notification_queue s;
       processor_alive := false; bot := bot s; sent := sent s |}.

(** What the rest of the program can do with the dispatcher. *)
Inductive action : Type :=
| Start
| Stop
| SetBot
| Queue (now : Z) (n : notification)
| ProcessOne (telegram_ok : bool).

Definition step (s : state) (a : action) : state :=
  match a with
  | Start => start s
  | Stop => stop s
  | SetBot =>
      {| running := running s; notification_queue := notification_queue s;
         processor_alive := processor_alive s; bot := true; sent := sent s |}
  | Queue now n => fst (queue_notification now n s)
  | ProcessOne ok => process_one ok s
  end.

Definition run (s : state) (actions : list action) : state :=
  fold_left step actions s.

(** The notifications handed to Telegram with success. *)
Definition delivered (s : state) : list notification :=
  map fst (filter (fun p => snd p = true) (sent s)).

End notification_system.

(** ** wallet_analyzer.py *)

Module wallet_analyzer.

Definition TEAM_HOLDING_PERCENT_THRESHOLD : spec_float := float_of_int 5.
Definition INSIDER_WINDOW_MINUTES : Z := 10.
Definition SNIPER_WINDOW_SECONDS : Z := 15.
Definition MAX_HOLDERS_FOR_TEAM_CLASSIFICATION : Z := 5000.

Definition KNOWN_PROGRAM_IDS : gset string :=
  {[ "TokenkegQfeZyiNwAJbNbGKPFXCWuBvf9Ss623VQ5DA";
     "TokenzQdBNbLqP5VEhdkAS6EPFLC1PHnBqCXEpPxuEb";
     "11111111111111111111111111111111";
     "ATokenGPvbdGVxr1b2hvZbsiqW5xWH25efTNsLJA8knL";
     "metaqbxxUerdq28cj1RbAWkYQm3ybzjb6a8bt518x1s";
     "BGUMAp9Gq7iTEuizy4pqaxsTyUCBK68MDfK752saRPUY";
     "SMPLecH534NA9acpos4G6x7uf3LWbCAwZQE9e8ZekMu";
     "Safe11111111111111111111111111111111111111" ]}.

Inductive error_marker : Type :=
| MetadataError
| PartialSniperInsiderFailure.

Record classifications : Type := {
  creator : list string;
  team : list string;
  insider : list string;
  sniper : list string;
  error : option error_marker
}.

(** A parser helper either raises [TransactionParsingError], raises
    something else, or returns. *)
Inductive parsed (A : Type) : Type :=
| ParsingError
| OtherError
| Parsed (a : A).
Arguments ParsingError {A}.
Arguments OtherError {A}.
Arguments Parsed {A} a.

(** The collaborators of [WalletAnalyzer].  The source leaves
    [_get_metadata], the two listing helpers, [get_classified_wallets],
    [_fetch_wallet_token_balance_raw] and the two parser helpers to be
    implemented, and refers to a key prefix it does not define; the text of
    an alert is produced by the formatting helpers. *)
Record services : Type := {
  _get_metadata : string -> outcome (option metadata);
  get_token_holders_paginated : string -> Z -> outcome (option (list holder));
  get_dex_listing_timestamp : string -> outcome (option Z);
  get_transactions_around_listing : string -> Z -> outcome (option (list early_tx));
  _fetch_wallet_token_balance_raw : string -> string -> outcome (option Z);
  get_classified_wallets : string -> outcome (option classifications);
  extract_mint_from_tx : transaction_parser.tx_data -> parsed (option string);
  detect_wallet_actions : transaction_parser.tx_data -> parsed (list (string * string));
  get_subscribers_for_token : string -> list Z;
  alert_content : string -> string -> string -> string -> string -> string;
  PROCESSED_REALTIME_TX_PREFIX : string;
  PROCESSED_TX_TTL : Z
}.

(** *** Classification *)

(** The test applied to each authority in the creator loop. *)
Definition creator_authority (auth : option string) : bool :=
  match auth with
  | Some a =>
      truthy (Some a) && (30 <? Z.of_nat (String.length a))
      && negb (bool_decide (a ∈ KNOWN_PROGRAM_IDS))
  | None => false
  end.

Definition creator_wallets (md : metadata) : gset string :=
  fold_left
    (fun acc auth =>
       match auth with
       | Some a => if creator_authority (Some a) then {[a]} ∪ acc else acc
       | None => acc
       end)
    [mintAuthority md; freezeAuthority md] ∅.

(** Step 1 up to the creator loop: [decimals], [total_supply_decimal];
    [None] when anything raises. *)
Definition read_metadata (m : outcome (option metadata))
  : option (metadata * Z * spec_float) :=
  match m with
  | Returned (Some md) =>
      match decimals md, total_supply md with
      | IntOk d, IntOk total_supply_raw =>
          if (d <? 0) || (total_supply_raw <? 0) then None
          else match int_truediv total_supply_raw (10 ^ d) with
               | Some tsd => Some (md, d, tsd)
               | None => None
               end
      | _, _ => None
      end
  | _ => None
  end.

(** Step 2, first loop: raw amounts summed per owner. *)
Fixpoint aggregate_raw (holders_raw : list holder)
    (owner_raw_balances : list (string * Z)) : list (string * Z) :=
  match holders_raw with
  | [] => owner_raw_balances
  | h :: rest =>
      match amount h with
      | IntInvalid => aggregate_raw rest owner_raw_balances
      | a =>
          let raw_amount := match a with IntOk z => z | _ => 0 end in
          match owner h with
          | Some o =>
              if truthy (Some o) && (0 <? raw_amount)
              then aggregate_raw rest
                     (dict_set owner_raw_balances o
                        (default 0 (dict_get owner_raw_balances o) + raw_amount))
              else aggregate_raw rest owner_raw_balances
          | None => aggregate_raw rest owner_raw_balances
          end
      end
  end.

Definition percentage (balance_decimal total_supply_decimal : spec_float)
  : spec_float :=
  float_mul (SFdiv prec emax balance_decimal total_supply_decimal) (float_of_int 100).

(** Step 2, second loop.  An [OverflowError] of the division leaves the
    loop through the handler, keeping what was found so far. *)
Fixpoint team_threshold (d : Z) (total_supply_decimal : spec_float)
    (items : list (string * Z)) (classified_wallets : gset string)
    (team_wallets_found : list string) : list string * gset string :=
  match items with
  | [] => (team_wallets_found, classified_wallets)
  | (o, total_raw) :: rest =>
      match int_truediv total_raw (10 ^ d) with
      | None => (team_wallets_found, classified_wallets)
      | Some balance_decimal =>
          if float_ge (percentage balance_decimal total_supply_decimal)
               TEAM_HOLDING_PERCENT_THRESHOLD
             && negb (bool_decide (o ∈ classified_wallets))
             && negb (bool_decide (o ∈ KNOWN_PROGRAM_IDS))
          then team_threshold d total_supply_decimal rest
                 ({[o]} ∪ classified_wallets) (team_wallets_found ++ [o])%list
          else team_threshold d total_supply_decimal rest
                 classified_wallets team_wallets_found
      end
  end.

Definition team_step (svc : services) (mint_address : string) (d : Z)
    (total_supply_decimal : spec_float) (classified_wallets : gset string)
  : list string * gset string :=
  if float_gt total_supply_decimal zero
  then match get_token_holders_paginated svc mint_address
               (MAX_HOLDERS_FOR_TEAM_CLASSIFICATION / 1000 + 1) with
       | Raised => ([], classified_wallets)
       | Returned None => ([], classified_wallets)
       | Returned (Some []) => ([], classified_wallets)
       | Returned (Some holders_raw) =>
           team_threshold d total_supply_decimal (aggregate_raw holders_raw [])
             classified_wallets []
       end
  else ([], classified_wallets).

(** Step 3: the source fetches the listing time and the transactions and
    then only logs; what remains observable is whether a fetch raised. *)
Definition timing_step (svc : services) (mint_address : string) : bool :=
  match get_dex_listing_timestamp svc mint_address with
  | Raised => true
  | Returned None => false
  | Returned (Some listing_time) =>
      match get_transactions_around_listing svc mint_address listing_time with
      | Raised => true
      | Returned _ => false
      end
  end.

(** Step 4: the category under which the initial state of a wallet is
    stored. *)
Definition cls_type (c : classifications) (w : string) : option string :=
  if bool_decide (w ∈ sniper c) then Some "sniper"
  else if bool_decide (w ∈ insider c) then Some "insider"
  else if bool_decide (w ∈ team c) then Some "team"
  else if bool_decide (w ∈ creator c) then Some "creator"
  else None.

(** A launched [store_initial_wallet_state(mint, wallet, classification)]. *)
Definition store_task : Type := (string * string * string)%type.

Definition store_tasks (mint_address : string) (c : classifications) : list store_task :=
  let all_classified_list := (creator c ++ team c ++ insider c ++ sniper c)%list in
  let unique_newly_classified : gset string := list_to_set all_classified_list in
  omap (fun w => match cls_type c w with
                 | Some t => Some (mint_address, w, t)
                 | None => None
                 end)
    (elements unique_newly_classified).

Definition _calculate_classifications (svc : services) (mint_address : string)
  : classifications * list store_task :=
  match read_metadata (_get_metadata svc mint_address) with
  | None =>
      ({| creator := []; team := []; insider := []; sniper := [];
          error := Some MetadataError |}, [])
  | Some (md, d, total_supply_decimal) =>
      let creators := creator_wallets md in
      let '(team_wallets_found, _) :=
        team_step svc mint_address d total_supply_decimal creators in
      let c :=
        {| creator := elements creators;
           team := team_wallets_found;
           insider := [];
           sniper := [];
           error := if timing_step svc mint_address
                    then Some PartialSniperInsiderFailure else None |} in
      (c, store_tasks mint_address c)
  end.

(** *** Stored wallet state (table [classified_wallet_token_states]) *)

(** A row, as [models.WalletState].  [initial_raw_balance] is stored as the
    decimal text of the integer. *)
Record WalletState : Type := {
  mint_address : string;
  wallet_address : string;
  classification : string;
  initial_raw_balance : Z;
  current_status : string;
  last_status_update : Z
}.

(** The mutable stores the analyzer works on.  A Redis entry carries its
    value and the second at which it expires. *)
Record world : Type := {
  redis : gmap string (string * Z);
  table : list WalletState;
  notifier : notification_system.state
}.

(** The circumstances of one call: the clock (seconds), whether Redis
    answers, and whether the store executes the select and the insert
    without an error. *)
Record conditions : Type := {
  now : Z;
  redis_up : bool;
  select_ok : bool;
  insert_ok : bool
}.

Definition matches (mint wallet : string) (row : WalletState) : bool :=
  String.eqb (mint_address row) mint && String.eqb (wallet_address row) wallet.

(** Number of rows of a (mint, wallet) pair. *)
Definition count_rows (rows : list WalletState) (mint wallet : string) : nat :=
  length (filter (fun row => matches mint wallet row = true) rows).

Definition _check_state_exists (cond : conditions) (w : world)
    (mint wallet : string) : bool :=
  select_ok cond && (0 <? count_rows (table w) mint wallet)%nat.

Definition store_initial_wallet_state (svc : services) (cond : conditions)
    (mint wallet cls : string) (w : world) : world :=
  if _check_state_exists cond w mint wallet then w
  else
    match _fetch_wallet_token_balance_raw svc wallet mint with
    | Raised => w
    | Returned None => w
    | Returned (Some initial_raw) =>
        if initial_raw <=? 0 then w
        else if insert_ok cond
        then {| redis := redis w;
                table := table w ++
                  [ {| mint_address := mint;
                       wallet_address := wallet;
                       classification := cls;
                       initial_raw_balance := initial_raw;
                       current_status := "GREEN";
                       last_status_update := now cond |} ];
                notifier := notifier w |}
        else w
    end.

(** *** Real-time processing *)

(** What a call does to its collaborators, in order. *)
Inductive effect : Type :=
| redis_exists (key : string)
| redis_setex (key : string) (ttl : Z) (value : string)
| queue_notification (n : notification_system.notification).

Definition _redis_exists (cond : conditions) (w : world) (key : string) : bool :=
  redis_up cond &&
  match redis w !! key with
  | Some (_, expires) => now cond <? expires
  | None => false
  end.

Definition _redis_setex (cond : conditions) (key : string) (ttl : Z)
    (value : string) (w : world) : world :=
  if redis_up cond
  then {| redis := <[key := (value, now cond + ttl)]> (redis w);
          table := table w; notifier := notifier w |}
  else w.

(** The dict comprehension: a later category overwrites an earlier one. *)
Definition wallet_type_map (c : classifications) : gmap string string :=
  let add (t : string) (wl : list string) (m : gmap string string) :=
    fold_left (fun acc w => <[w := t]> acc) wl m in
  add "sniper" (sniper c)
    (add "insider" (insider c)
       (add "team" (team c)
          (add "creator" (creator c) ∅))).

Definition alerts_for (svc : services) (involved_mint sig : string)
    (types : gmap string string) (wallet_actions : list (string * string))
  : list notification_system.notification :=
  flat_map
    (fun wa =>
       match types !! fst wa with
       | Some classification_type =>
           if truthy (Some classification_type)
           then map (fun chat =>
                       {| notification_system.chat_id := Some chat;
                          notification_system.token_address := Some involved_mint;
                          notification_system.type :=
                            classification_type +:+ "_activity_alert";
                          notification_system.content :=
                            Some (alert_content svc classification_type (fst wa)
                                    (snd wa) involved_mint sig);
                          notification_system.queued_at := None |})
                  (get_subscribers_for_token svc involved_mint)
           else []
       | None => []
       end)
    wallet_actions.

Definition queue_all (cond : conditions)
    (alerts : list notification_system.notification) (w : world) : world :=
  {| redis := redis w; table := table w;
     notifier :=
       fold_left
         (fun s n => fst (notification_system.queue_notification (now cond) n s))
         alerts (notifier w) |}.

Definition process_realtime_transaction_simple_alert (svc : services)
    (cond : conditions) (tx : transaction_parser.tx_data) (w : world)
  : world * list effect :=
  match transaction_parser.signatures tx with
  | Some [] => (w, [])
  | sigs =>
      let first_signature :=
        match sigs with
        | Some (s :: _) => s
        | _ => None
        end in
      match first_signature with
      | None => (w, [])
      | Some sig =>
          if negb (truthy (Some sig)) then (w, [])
          else
            let processed_key := PROCESSED_REALTIME_TX_PREFIX svc +:+ sig in
            if _redis_exists cond w processed_key
            then (w, [redis_exists processed_key])
            else
              let w1 := _redis_setex cond processed_key (PROCESSED_TX_TTL svc)
                          "processed" w in
              let done := [redis_exists processed_key;
                           redis_setex processed_key (PROCESSED_TX_TTL svc) "processed"] in
              match extract_mint_from_tx svc tx with
              | ParsingError =>
                  (_redis_setex cond processed_key 60 "parse_error" w1,
                   (done ++ [redis_setex processed_key 60 "parse_error"])%list)
              | OtherError => (w1, done)
              | Parsed involved_mint =>
                  match detect_wallet_actions svc tx with
                  | ParsingError =>
                      (_redis_setex cond processed_key 60 "parse_error" w1,
                       (done ++ [redis_setex processed_key 60 "parse_error"])%list)
                  | OtherError => (w1, done)
                  | Parsed wallet_actions =>
                      match involved_mint, wallet_actions with
                      | Some m, _ :: _ =>
                          if truthy (Some m)
                          then
                            match get_classified_wallets svc m with
                            | Returned (Some c) =>
                                let alerts_to_queue :=
                                  alerts_for svc m sig (wallet_type_map c) wallet_actions in
                                (queue_all cond alerts_to_queue w1,
                                 (done ++ map queue_notification alerts_to_queue)%list)
                            | _ => (w1, done)
                            end
                          else (w1, done)
                      | _, _ => (w1, done)
                      end
                  end
              end
      end
  end.

End wallet_analyzer.

(** ** websocket_manager.py *)

Module websocket_manager.

Definition PING_INTERVAL_SECONDS : Z := 30.
Definition PING_TIMEOUT_SECONDS : Z := 20.
Definition RECEIVE_TIMEOUT_SECONDS : Z := PING_INTERVAL_SECONDS * 2 + 10.
Definition MAX_ACCOUNTS_PER_SUBSCRIPTION : Z := 45000.

(** A frame written to the socket. *)
Inductive payload : Type :=
| transactionSubscribe (id : string) (accountInclude : list string)
| transactionUnsubscribe (id : string) (helius_id : Z).

Record subscription_details : Type := {
  helius_id : option Z;
  local_request_id : option string;
  active_filter_accounts : gset string
}.

(** The attributes of a [WebSocketManager].  [connect] reads the attribute
    [rpc_wss_url], which [__init__] never sets; [outbox] lists the frames
    written to the socket, oldest first. *)
Record manager : Type := {
  wss_url : string;
  rpc_wss_url : option string;
  websocket_open : bool;
  running : bool;
  intended_accounts_to_monitor : gset string;
  helius_subscription_details : subscription_details;
  outbox : list payload
}.

(** The circumstances of one call: the clock, whether the upstream accepts
    the connection, and whether a write to the socket succeeds. *)
Record conditions : Type := {
  now : Z;
  dial_ok : bool;
  send_ok : bool
}.

Definition cleared : subscription_details :=
  {| helius_id := None; local_request_id := None; active_filter_accounts := ∅ |}.

(** [__init__]. *)
Definition init (api_key : string) : manager :=
  {| wss_url := "wss://atlas-mainnet.helius-rpc.com/?api-key=" +:+ api_key;
     rpc_wss_url := None;
     websocket_open := false;
     running := false;
     intended_accounts_to_monitor := ∅;
     helius_subscription_details := cleared;
     outbox := [] |}.

Definition with_details (d : subscription_details) (m : manager) : manager :=
  {| wss_url := wss_url m; rpc_wss_url := rpc_wss_url m;
     websocket_open := websocket_open m; running := running m;
     intended_accounts_to_monitor := intended_accounts_to_monitor m;
     helius_subscription_details := d; outbox := outbox m |}.

Definition with_websocket (open : bool) (m : manager) : manager :=
  {| wss_url := wss_url m; rpc_wss_url := rpc_wss_url m;
     websocket_open := open; running := running m;
     intended_accounts_to_monitor := intended_accounts_to_monitor m;
     helius_subscription_details := helius_subscription_details m;
     outbox := outbox m |}.

Definition with_intended (accounts : gset string) (m : manager) : manager :=
  {| wss_url := wss_url m; rpc_wss_url := rpc_wss_url m;
     websocket_open := websocket_open m; running := running m;
     intended_accounts_to_monitor := accounts;
     helius_subscription_details := helius_subscription_details m;
     outbox := outbox m |}.

Definition send (p : payload) (m : manager) : manager :=
  {| wss_url := wss_url m; rpc_wss_url := rpc_wss_url m;
     websocket_open := websocket_open m; running := running m;
     intended_accounts_to_monitor := intended_accounts_to_monitor m;
     helius_subscription_details := helius_subscription_details m;
     outbox := outbox m ++ [p] |}.

Definition with_active (accounts : gset string) (m : manager) : manager :=
  with_details
    {| helius_id := helius_id (helius_subscription_details m);
       local_request_id := local_request_id (helius_subscription_details m);
       active_filter_accounts := accounts |} m.

(** The socket closes (ping timeout, receive timeout, peer close): the only
    attribute that changes is the one the loops test. *)
Definition connection_lost (m : manager) : manager := with_websocket false m.

Definition id_truthy (i : option Z) : bool :=
  match i with
  | Some z => negb (Z.eqb z 0)
  | None => false
  end.

Definition unsubscribe_current_transaction_subscription (cond : conditions)
    (m : manager) : manager :=
  if negb (websocket_open m) then m
  else
    match helius_id (helius_subscription_details m) with
    | Some h =>
        if id_truthy (Some h) && send_ok cond
        then send (transactionUnsubscribe
                     ("unsub_tx_" +:+ pretty h +:+ "_" +:+ pretty (now cond)) h) m
        else m
    | None => m
    end.

Definition _update_helius_subscription (cond : conditions) (m : manager) : manager :=
  if negb (websocket_open m) then m
  else
    let current_intended := intended_accounts_to_monitor m in
    let currently_active := active_filter_accounts (helius_subscription_details m) in
    if bool_decide (current_intended = currently_active) then m
    else if bool_decide (current_intended = ∅)
    then
      with_active ∅
        (if id_truthy (helius_id (helius_subscription_details m))
         then unsubscribe_current_transaction_subscription cond m
         else m)
    else
      let new_account_list :=
        take (Z.to_nat MAX_ACCOUNTS_PER_SUBSCRIPTION) (elements current_intended) in
      let local_sub_id := "sub_tx_main_" +:+ pretty (now cond) in
      let m1 :=
        with_details
          {| helius_id := helius_id (helius_subscription_details m);
             local_request_id := Some local_sub_id;
             active_filter_accounts := list_to_set new_account_list |} m in
      if send_ok cond
      then send (transactionSubscribe local_sub_id new_account_list) m1
      else with_active currently_active m1.

Definition _resubscribe_all_intended (cond : conditions) (m : manager) : manager :=
  _update_helius_subscription cond m.

Definition connect (cond : conditions) (m : manager) : manager * bool :=
  if websocket_open m then (m, true)
  else
    let m0 := with_details cleared m in
    match rpc_wss_url m0 with
    | Some _ =>
        if dial_ok cond
        then (_update_helius_subscription cond (with_websocket true m0), true)
        else (with_websocket false m0, false)
    | None => (with_websocket false m0, false)
    end.

(** [_load_initial_intended_subscriptions]; the argument is what
    [get_all_unique_tracked_mints] gives. *)
Definition _load_initial_intended_subscriptions (mints : outcome (list string))
    (m : manager) : manager :=
  match mints with
  | Returned mints_to_track => with_intended (list_to_set mints_to_track) m
  | Raised => m
  end.

Definition add_account_to_monitor (cond : conditions) (account_address : string)
    (m : manager) : manager :=
  if bool_decide (account_address ∈ intended_accounts_to_monitor m) then m
  else
    let m1 := with_intended ({[account_address]} ∪ intended_accounts_to_monitor m) m in
    if running m1 then _update_helius_subscription cond m1 else m1.

Definition remove_account_to_monitor (cond : conditions) (account_address : string)
    (m : manager) : manager :=
  if bool_decide (account_address ∈ intended_accounts_to_monitor m)
  then
    let m1 := with_intended (intended_accounts_to_monitor m ∖ {[account_address]}) m in
    if running m1 then _update_helius_subscription cond m1 else m1
  else m.

(** The subscribe requests among the frames, oldest first. *)
Definition subscribe_requests (frames : list payload) : list (list string) :=
  omap (fun p => match p with
                 | transactionSubscribe _ accounts => Some accounts
                 | transactionUnsubscribe _ _ => None
                 end) frames.

End websocket_manager.

(** ** Operations on the stored state, in sequence *)

Module tracker.

Import wallet_analyzer.

(** The calls that reach the stores: a classification run (which launches
    one [store_initial_wallet_state] per classified wallet), a direct store
    call, and the handling of a streamed transaction. *)
Inductive operation : Type :=
| Classify (cond : conditions) (mint : string)
| StoreInitial (cond : conditions) (mint wallet cls : string)
| ProcessRealtime (cond : conditions) (tx : transaction_parser.tx_data).

Definition run_store_tasks (svc : services) (cond : conditions)
    (tasks : list store_task) (w : world) : world :=
  fold_left
    (fun acc t => store_initial_wallet_state svc cond (fst (fst t)) (snd (fst t)) (snd t) acc)
    tasks w.

Definition step (svc : services) (w : world) (o : operation) : world :=
  match o with
  | Classify cond mint =>
      run_store_tasks svc cond (snd (_calculate_classifications svc mint)) w
  | StoreInitial cond mint wallet cls =>
      store_initial_wallet_state svc cond mint wallet cls w
  | ProcessRealtime cond tx =>
      fst (process_realtime_transaction_simple_alert svc cond tx w)
  end.

Definition run (svc : services) (w : world) (ops : list operation) : world :=
  fold_left (step svc) ops w.

End tracker.

(** ** The behaviour the specification asks of the state tracker *)

Module intended.

(** Modelled from the spec: [apply_balance_change] of the state tracker,
    which the source does not contain (section 4.3: retained fraction is the
    new raw balance over the initial raw balance; YELLOW at or below 0.5, RED
    at or below 0.1 or at zero; a computed status that is not more severe
    than the current one changes nothing). *)
Definition severity (status : string) : Z :=
  if String.eqb status "RED" then 2
  else if String.eqb status "YELLOW" then 1
  else 0.

Definition computed_status (initial_raw_balance new_raw_balance : Z) : string :=
  if (new_raw_balance <=? 0) || (10 * new_raw_balance <=? initial_raw_balance)
  then "RED"
  else if 2 * new_raw_balance <=? initial_raw_balance then "YELLOW"
  else "GREEN".

Definition apply_balance_change (current_status : string)
    (initial_raw_balance new_raw_balance : Z) : string :=
  let computed := computed_status initial_raw_balance new_raw_balance in
  if severity current_status <? severity computed then computed else current_status.

End intended.

(** ** helius.py *)

Module helius.

(** What [_rpc_request("getTokenAccounts", ...)] gives for one page: it
    raises, it returns something without a [token_accounts] list, or it
    returns the list. *)
Inductive page_result : Type :=
| RpcRaised
| NoTokenAccounts
| TokenAccounts (fetched_accounts : list holder).

(** The loop [while page <= max_pages] of [get_token_holders_paginated];
    [remaining] counts the iterations left, [None] is the [None] of the
    exception handlers. *)
Fixpoint fetch_pages (rpc : Z -> page_result) (remaining : nat) (page : Z)
    (all_token_accounts : list holder) : option (list holder) :=
  match remaining with
  | O => Some all_token_accounts
  | S remaining' =>
      match rpc page with
      | RpcRaised => None
      | NoTokenAccounts => Some all_token_accounts
      | TokenAccounts [] => Some all_token_accounts
      | TokenAccounts fetched_accounts =>
          fetch_pages rpc remaining' (page + 1)
            (all_token_accounts ++ fetched_accounts)
      end
  end.

Definition get_token_holders_paginated (rpc : string -> Z -> page_result)
    (mint_address : string) (max_pages : Z) : outcome (option (list holder)) :=
  Returned (fetch_pages (rpc mint_address) (Z.to_nat max_pages) 1 []).

End helius.

(** ** formatting.py *)

Module formatting.

(** [shorten_address], for an address that is [None] or a string of
    one-byte characters. *)
Definition shorten_address (address : option string) (chars : Z) : string :=
  match address with
  | None => "N/A"
  | Some address =>
      if chars <=? 0 then address
      else if Z.of_nat (String.length address) <=? chars * 2 then address
      else
        String.substring 0 (Z.to_nat chars) address +:+ "..." +:+
        String.substring (String.length address - Z.to_nat chars)%nat
          (Z.to_nat chars) address
  end.

End formatting.

(** ** The calls made on a subscription manager, in sequence *)

Module session.

Import websocket_manager.

(** [start] up to the launch of the reconnect loop, whose body the source
    leaves out. *)
Definition start (mints : outcome (list string)) (m : manager) : manager :=
  if running m then m
  else
    _load_initial_intended_subscriptions mints
      {| wss_url := wss_url m; rpc_wss_url := rpc_wss_url m;
         websocket_open := websocket_open m; running := true;
         intended_accounts_to_monitor := intended_accounts_to_monitor m;
         helius_subscription_details := helius_subscription_details m;
         outbox := outbox m |}.

Inductive operation : Type :=
| Start (mints : outcome (list string))
| Connect (cond : conditions)
| ConnectionLost
| Add (cond : conditions) (account_address : string)
| Remove (cond : conditions) (account_address : string)
| Resubscribe (cond : conditions)
| Unsubscribe (cond : conditions).

Definition step (m : manager) (o : operation) : manager :=
  match o with
  | Start mints => start mints m
  | Connect cond => fst (connect cond m)
  | ConnectionLost => connection_lost m
  | Add cond account_address => add_account_to_monitor cond account_address m
  | Remove cond account_address => remove_account_to_monitor cond account_address m
  | Resubscribe cond => _resubscribe_all_intended cond m
  | Unsubscribe cond => unsubscribe_current_transaction_subscription cond m
  end.

Definition run (m : manager) (ops : list operation) : manager :=
  fold_left step ops m.

End session.

(** ** Reference notions used to state properties *)

Module reference.

(** What one token account contributes to the aggregated raw balance of
    wallet [w]: its amount when the account is owned by [w], the owner is a
    non-empty string and the amount converts to a positive integer. *)
Definition contribution (w : string) (h : holder) : Z :=
  match owner h, amount h with
  | Some o, IntOk z =>
      if truthy (Some o) && String.eqb o w && (0 <? z) then z else 0
  | _, _ => 0
  end.

(** The sum of the contributions of a holder snapshot. *)
Definition owner_total (holders : list holder) (w : string) : Z :=
  fold_right (fun h acc => contribution w h + acc) 0 holders.

(** No aggregated balance overflows when divided by [10 ** decimals]. *)
Definition divisions_defined (d : Z) (items : list (string * Z)) : bool :=
  forallb (fun it => match int_truediv (snd it) (10 ^ d) with
                     | Some _ => true
                     | None => false
                     end) items.

(** The test of the threshold loop on one aggregated balance, for a given
    set of already classified wallets. *)
Definition team_eligible (d : Z) (tsd : spec_float) (cl : gset string)
    (it : string * Z) : bool :=
  match int_truediv (snd it) (10 ^ d) with
  | Some bd =>
      float_ge (wallet_analyzer.percentage bd tsd)
        wallet_analyzer.TEAM_HOLDING_PERCENT_THRESHOLD
      && negb (bool_decide (fst it ∈ cl))
      && negb (bool_decide (fst it ∈ wallet_analyzer.KNOWN_PROGRAM_IDS))
  | None => false
  end.

(** [tx] is a well-formed buy of the non-empty wallet [w] at instant [t]. *)
Definition buy_at (tx : early_tx) (w : string) (t : Z) : Prop :=
  timestamp tx = Some t /\ wallet tx = Some w /\ is_buy tx = Some true /\
  truthy (Some w) = true.

(** The difference loop of the event extractor runs: some post-balance
    entry carries an account index and a mint under which an entry with an
    owner was indexed. *)
Definition diff_runs (m : transaction_parser.meta_data) : Prop :=
  exists bal idx mt b,
    bal ∈ transaction_parser.postTokenBalances m /\
    transaction_parser.accountIndex bal = Some idx /\
    transaction_parser.mint bal = Some mt /\
    b ∈ (transaction_parser.preTokenBalances m
         ++ transaction_parser.postTokenBalances m)%list /\
    transaction_parser.accountIndex b = Some idx /\
    transaction_parser.mint b = Some mt /\
    is_Some (transaction_parser.owner b).

(** The balance difference of a (wallet, mint) pair between the two maps
    of the difference loop. *)
Definition delta (m : transaction_parser.meta_data) (key : string * string) : Z :=
  default 0 (transaction_parser.balance_map (transaction_parser.postTokenBalances m) !! key)
  - default 0 (transaction_parser.balance_map (transaction_parser.preTokenBalances m) !! key).

(** [send_telegram_notification] hands the notification to the bot: the
    chat id and the content are both truthy. *)
Definition sendable (n : notification_system.notification) : bool :=
  match notification_system.chat_id n, notification_system.content n with
  | Some c, Some text => negb (Z.eqb c 0) && truthy (Some text)
  | _, _ => false
  end.

(** No (mint, wallet) pair has two rows. *)
Definition unique_rows (rows : list wallet_analyzer.WalletState) : Prop :=
  forall mint wallet, (wallet_analyzer.count_rows rows mint wallet <= 1)%nat.

(** The existence check of the operation gets an answer from the store. *)
Definition select_works (o : tracker.operation) : bool :=
  match o with
  | tracker.Classify cond _ => wallet_analyzer.select_ok cond
  | tracker.StoreInitial cond _ _ _ => wallet_analyzer.select_ok cond
  | tracker.ProcessRealtime _ _ => true
  end.

(** The stores after the dispatcher has been started. *)
Definition dispatcher_started (w : wallet_analyzer.world) : wallet_analyzer.world :=
  {| wallet_analyzer.redis := wallet_analyzer.redis w;
     wallet_analyzer.table := wallet_analyzer.table w;
     wallet_analyzer.notifier := notification_system.start (wallet_analyzer.notifier w) |}.

(** The accounts of the first [k] pages, in order. *)
Definition first_pages (rpc : Z -> helius.page_result) (k : nat) : list holder :=
  flat_map (fun i : nat =>
              match rpc (1 + Z.of_nat i) with
              | helius.TokenAccounts fetched_accounts => fetched_accounts
              | _ => []
              end) (seq 0 k).

(** Page [p] came back with at least one account. *)
Definition page_filled (rpc : Z -> helius.page_result) (p : Z) : Prop :=
  exists fetched_accounts,
    rpc p = helius.TokenAccounts fetched_accounts /\ fetched_accounts <> [].

End reference.

(** ** Concrete inputs *)

Module examples.

Definition MINT : string := "So1anaM1ntSo1anaM1ntSo1anaM1ntSo1anaM1nt0001".
Definition AUTHORITY : string := "AuthorityAuthorityAuthorityAuthority00000001".
Definition WALLET_A : string := "Wa11etWa11etWa11etWa11etWa11etWa11etWa11et0A".
Definition WALLET_B : string := "Wa11etWa11etWa11etWa11etWa11etWa11etWa11et0B".
Definition SIGNATURE : string := "5igNature5igNature5igNature5igNature5igNature".

(** Collaborators that answer nothing. *)
Definition quiet : wallet_analyzer.services :=
  {| wallet_analyzer._get_metadata := fun _ => Returned None;
     wallet_analyzer.get_token_holders_paginated := fun _ _ => Returned None;
     wallet_analyzer.get_dex_listing_timestamp := fun _ => Returned None;
     wallet_analyzer.get_transactions_around_listing := fun _ _ => Returned None;
     wallet_analyzer._fetch_wallet_token_balance_raw := fun _ _ => Returned None;
     wallet_analyzer.get_classified_wallets := fun _ => Returned None;
     wallet_analyzer.extract_mint_from_tx := fun _ => wallet_analyzer.Parsed None;
     wallet_analyzer.detect_wallet_actions := fun _ => wallet_analyzer.Parsed [];
     wallet_analyzer.get_subscribers_for_token := fun _ => [];
     wallet_analyzer.alert_content := fun _ _ _ _ _ => "alert";
     wallet_analyzer.PROCESSED_REALTIME_TX_PREFIX := "processed_rt_tx:";
     wallet_analyzer.PROCESSED_TX_TTL := 86400 |}.

(** Collaborators that know one token: its metadata and its holders. *)
Definition with_token (md : metadata) (holders : list holder)
  : wallet_analyzer.services :=
  {| wallet_analyzer._get_metadata := fun _ => Returned (Some md);
     wallet_analyzer.get_token_holders_paginated := fun _ _ => Returned (Some holders);
     wallet_analyzer.get_dex_listing_timestamp :=
       wallet_analyzer.get_dex_listing_timestamp quiet;
     wallet_analyzer.get_transactions_around_listing :=
       wallet_analyzer.get_transactions_around_listing quiet;
     wallet_analyzer._fetch_wallet_token_balance_raw :=
       wallet_analyzer._fetch_wallet_token_balance_raw quiet;
     wallet_analyzer.get_classified_wallets :=
       wallet_analyzer.get_classified_wallets quiet;
     wallet_analyzer.extract_mint_from_tx := wallet_analyzer.extract_mint_from_tx quiet;
     wallet_analyzer.detect_wallet_actions := wallet_analyzer.detect_wallet_actions quiet;
     wallet_analyzer.get_subscribers_for_token :=
       wallet_analyzer.get_subscribers_for_token quiet;
     wallet_analyzer.alert_content := wallet_analyzer.alert_content quiet;
     wallet_analyzer.PROCESSED_REALTIME_TX_PREFIX :=
       wallet_analyzer.PROCESSED_REALTIME_TX_PREFIX quiet;
     wallet_analyzer.PROCESSED_TX_TTL := wallet_analyzer.PROCESSED_TX_TTL quiet |}.

(** Supply 1,000,000,000,000 raw at 6 decimals; the mint authority holds
    60%, wallet A exactly 5% over two token accounts, wallet B 4.99%. *)
Definition token_6 : metadata :=
  {| decimals := IntOk 6; total_supply := IntOk 1000000000000;
     mintAuthority := Some AUTHORITY; freezeAuthority := None |}.

Definition holders_6 : list holder :=
  [ {| owner := Some AUTHORITY; amount := IntOk 600000000000 |};
    {| owner := Some WALLET_A; amount := IntOk 30000000000 |};
    {| owner := Some WALLET_B; amount := IntOk 49900000000 |};
    {| owner := Some WALLET_A; amount := IntOk 20000000000 |};
    {| owner := Some WALLET_B; amount := IntOk 0 |} ].

(** Supply 2,260 raw at 2 decimals; wallet A holds 113 raw, exactly 5%. *)
Definition token_2 : metadata :=
  {| decimals := IntOk 2; total_supply := IntOk 2260;
     mintAuthority := None; freezeAuthority := None |}.

Definition holders_2 : list holder :=
  [ {| owner := Some WALLET_A; amount := IntOk 113 |} ].

(** A token whose metadata reports negative decimals. *)
Definition token_negative : metadata :=
  {| decimals := IntOk (-1); total_supply := IntOk 1000;
     mintAuthority := Some AUTHORITY; freezeAuthority := None |}.


(** A buy of [w] at instant [t]. *)
Definition buy (w : string) (t : Z) : early_tx :=
  {| timestamp := Some t; wallet := Some w; is_buy := Some true |}.

(** Collaborators of the detector for a token listed at [listing_time] with
    the given early transactions, metadata [token_6] and no holder data. *)
Definition listing_env (listing_time : Z) (transactions : list early_tx)
  : wallet_classifier.collaborators :=
  {| wallet_classifier.get_token_metadata_das := fun _ => Returned (Some token_6);
     wallet_classifier.get_token_holders_paginated := fun _ _ => Returned None;
     wallet_classifier.get_dex_listing_timestamp := fun _ => Returned (Some listing_time);
     wallet_classifier.get_transactions_around_listing := fun _ _ => Returned transactions |}.

(** A transaction that empties and closes the only token account of wallet
    A: 100 raw units before, no entry after. *)
Definition burn_and_close : transaction_parser.tx_data :=
  {| transaction_parser.meta :=
       {| transaction_parser.err := false;
          transaction_parser.preTokenBalances :=
            [ {| transaction_parser.accountIndex := Some 1;
                 transaction_parser.mint := Some MINT;
                 transaction_parser.owner := Some WALLET_A;
                 transaction_parser.amount := IntOk 100 |} ];
          transaction_parser.postTokenBalances := [] |};
     transaction_parser.signatures := Some [Some SIGNATURE];
     transaction_parser.blockTime := Some 1700000000 |}.

(** Wallet A sells its 1,000 raw units to wallet B. *)
Definition sell_all : transaction_parser.tx_data :=
  {| transaction_parser.meta :=
       {| transaction_parser.err := false;
          transaction_parser.preTokenBalances :=
            [ {| transaction_parser.accountIndex := Some 1;
                 transaction_parser.mint := Some MINT;
                 transaction_parser.owner := Some WALLET_A;
                 transaction_parser.amount := IntOk 1000 |} ];
          transaction_parser.postTokenBalances :=
            [ {| transaction_parser.accountIndex := Some 1;
                 transaction_parser.mint := Some MINT;
                 transaction_parser.owner := Some WALLET_A;
                 transaction_parser.amount := IntOk 0 |};
              {| transaction_parser.accountIndex := Some 2;
                 transaction_parser.mint := Some MINT;
                 transaction_parser.owner := Some WALLET_B;
                 transaction_parser.amount := IntOk 1000 |} ] |};
     transaction_parser.signatures := Some [Some SIGNATURE];
     transaction_parser.blockTime := Some 1700000000 |}.

Definition alert : notification_system.notification :=
  {| notification_system.chat_id := Some 42;
     notification_system.token_address := Some MINT;
     notification_system.type := "team_activity_alert";
     notification_system.content := Some "alert";
     notification_system.queued_at := None |}.

(** The analyzer's stores at start-up, with the dispatcher started or not. *)
Definition world_0 (dispatcher_running : bool) : wallet_analyzer.world :=
  {| wallet_analyzer.redis := ∅;
     wallet_analyzer.table := [];
     wallet_analyzer.notifier :=
       if dispatcher_running
       then notification_system.start notification_system.init
       else notification_system.init |}.

(** Everything answers. *)
Definition fair (t : Z) : wallet_analyzer.conditions :=
  {| wallet_analyzer.now := t; wallet_analyzer.redis_up := true;
     wallet_analyzer.select_ok := true; wallet_analyzer.insert_ok := true |}.

(** Collaborators for a token whose team is wallet A, holding [balance] raw
    units, with one subscriber; the parser helpers report a sale by A. *)
Definition alerting (balance : Z) : wallet_analyzer.services :=
  {| wallet_analyzer._get_metadata := wallet_analyzer._get_metadata quiet;
     wallet_analyzer.get_token_holders_paginated :=
       wallet_analyzer.get_token_holders_paginated quiet;
     wallet_analyzer.get_dex_listing_timestamp :=
       wallet_analyzer.get_dex_listing_timestamp quiet;
     wallet_analyzer.get_transactions_around_listing :=
       wallet_analyzer.get_transactions_around_listing quiet;
     wallet_analyzer._fetch_wallet_token_balance_raw :=
       fun _ _ => Returned (Some balance);
     wallet_analyzer.get_classified_wallets :=
       fun _ => Returned (Some {| wallet_analyzer.creator := [];
                                  wallet_analyzer.team := [WALLET_A];
                                  wallet_analyzer.insider := [];
                                  wallet_analyzer.sniper := [];
                                  wallet_analyzer.error := None |});
     wallet_analyzer.extract_mint_from_tx := fun _ => wallet_analyzer.Parsed (Some MINT);
     wallet_analyzer.detect_wallet_actions :=
       fun _ => wallet_analyzer.Parsed [(WALLET_A, "sell")];
     wallet_analyzer.get_subscribers_for_token := fun _ => [42];
     wallet_analyzer.alert_content := wallet_analyzer.alert_content quiet;
     wallet_analyzer.PROCESSED_REALTIME_TX_PREFIX :=
       wallet_analyzer.PROCESSED_REALTIME_TX_PREFIX quiet;
     wallet_analyzer.PROCESSED_TX_TTL := wallet_analyzer.PROCESSED_TX_TTL quiet |}.

(** The stores once wallet A's initial state, 1,000 raw units, is recorded. *)
Definition world_tracking : wallet_analyzer.world :=
  wallet_analyzer.store_initial_wallet_state (alerting 1000) (fair 1699999000)
    MINT WALLET_A "team" (world_0 true).

(** The tracked accounts [0], [1], ..., [n - 1], written in decimal. *)
Definition accounts (n : Z) : gset string :=
  list_to_set (map (fun i : nat => pretty i) (seq 0 (Z.to_nat n))).

(** The upstream accepts the connection and the writes. *)
Definition online : websocket_manager.conditions :=
  {| websocket_manager.now := 1700000000;
     websocket_manager.dial_ok := true;
     websocket_manager.send_ok := true |}.

(** A running manager that tracks [intended], has the address [connect]
    reads, and holds a confirmed subscription [7] on an open socket. *)
Definition subscribed (intended : gset string) : websocket_manager.manager :=
  {| websocket_manager.wss_url := "wss://atlas-mainnet.helius-rpc.com/?api-key=k";
     websocket_manager.rpc_wss_url :=
       Some "wss://atlas-mainnet.helius-rpc.com/?api-key=k";
     websocket_manager.websocket_open := true;
     websocket_manager.running := true;
     websocket_manager.intended_accounts_to_monitor := intended;
     websocket_manager.helius_subscription_details :=
       {| websocket_manager.helius_id := Some 7;
          websocket_manager.local_request_id := Some "sub_tx_main_1699990000";
          websocket_manager.active_filter_accounts := intended |};
     websocket_manager.outbox := [] |}.

(** The holder snapshot of [holders_6] in the opposite order. *)
Definition holders_6_reordered : list holder := reverse holders_6.

(** The instant 2023-11-14 22:13:20 UTC, in microseconds. *)
Definition T_0 : Z := seconds 1700000000.

(** A holder snapshot in which one amount does not convert. *)
Definition holders_invalid : list holder :=
  [ {| owner := Some WALLET_A; amount := IntOk 600000000000 |};
    {| owner := Some WALLET_B; amount := IntInvalid |} ].

(** Collaborators of the detector with metadata [md], the given holders and
    no listing time. *)
Definition holding_env (md : metadata) (holders : list holder)
  : wallet_classifier.collaborators :=
  {| wallet_classifier.get_token_metadata_das := fun _ => Returned (Some md);
     wallet_classifier.get_token_holders_paginated := fun _ _ => Returned (Some holders);
     wallet_classifier.get_dex_listing_timestamp := fun _ => Returned None;
     wallet_classifier.get_transactions_around_listing := fun _ _ => Returned [] |}.

(** The sale of [sell_all] with one more post-balance entry, which has no
    owner and an amount that does not convert. *)
Definition unreadable_amount : transaction_parser.tx_data :=
  {| transaction_parser.meta :=
       {| transaction_parser.err := false;
          transaction_parser.preTokenBalances :=
            transaction_parser.preTokenBalances (transaction_parser.meta sell_all);
          transaction_parser.postTokenBalances :=
            (transaction_parser.postTokenBalances (transaction_parser.meta sell_all)
             ++ [ {| transaction_parser.accountIndex := Some 3;
                     transaction_parser.mint := None;
                     transaction_parser.owner := None;
                     transaction_parser.amount := IntInvalid |} ])%list |};
     transaction_parser.signatures := Some [Some SIGNATURE];
     transaction_parser.blockTime := Some 1700000000 |}.

(** A started dispatcher without a bot, holding one queued alert. *)
Definition botless : notification_system.state :=
  notification_system.run notification_system.init
    [notification_system.Start; notification_system.Queue 1700000000 alert].

(** A started dispatcher with a bot, holding two queued alerts. *)
Definition loaded : notification_system.state :=
  notification_system.run notification_system.init
    [notification_system.Start; notification_system.SetBot;
     notification_system.Queue 1700000000 alert;
     notification_system.Queue 1700000001 alert].

(** A dispatcher stopped with one alert pending, started again and run
    until its processor has read the sentinel left by the stop. *)
Definition restarted : notification_system.state :=
  notification_system.run notification_system.init
    [notification_system.Start; notification_system.SetBot;
     notification_system.Queue 1700000000 alert;
     notification_system.Stop; notification_system.Start;
     notification_system.ProcessOne true; notification_system.ProcessOne true].

(** Redis does not answer; the store does. *)
Definition redis_down (t : Z) : wallet_analyzer.conditions :=
  {| wallet_analyzer.now := t; wallet_analyzer.redis_up := false;
     wallet_analyzer.select_ok := true; wallet_analyzer.insert_ok := true |}.

(** The upstream accepts the connection; the writes fail. *)
Definition write_fails : websocket_manager.conditions :=
  {| websocket_manager.now := 1700000000;
     websocket_manager.dial_ok := true;
     websocket_manager.send_ok := false |}.

(** A manager on an open socket that tracks [intended] and has no active
    filter yet. *)
Definition unsubscribed (intended : gset string) : websocket_manager.manager :=
  {| websocket_manager.wss_url := "wss://atlas-mainnet.helius-rpc.com/?api-key=k";
     websocket_manager.rpc_wss_url :=
       Some "wss://atlas-mainnet.helius-rpc.com/?api-key=k";
     websocket_manager.websocket_open := true;
     websocket_manager.running := true;
     websocket_manager.intended_accounts_to_monitor := intended;
     websocket_manager.helius_subscription_details := websocket_manager.cleared;
     websocket_manager.outbox := [] |}.

(** The manager of [subscribed] after the last tracked account was
    removed from the intended set, before the filter is updated. *)
Definition emptied : websocket_manager.manager :=
  websocket_manager.with_intended ∅ (subscribed {[ MINT ]}).

(** An upstream with two pages of holders. *)
Definition two_pages (mint : string) (page : Z) : helius.page_result :=
  if Z.eqb page 1 then helius.TokenAccounts (firstn 3 holders_6)
  else if Z.eqb page 2 then helius.TokenAccounts (skipn 3 holders_6)
  else helius.TokenAccounts [].



(** The analyzer's helpers as the source has them: the helpers whose body
    is [pass] return [None], the listing helpers return [None], and the two
    parser helpers are not methods of [TransactionParser], so calling them
    raises.  One chat subscribes to every token. *)
Definition unimplemented : wallet_analyzer.services :=
  {| wallet_analyzer._get_metadata := fun _ => Returned None;
     wallet_analyzer.get_token_holders_paginated := fun _ _ => Returned None;
     wallet_analyzer.get_dex_listing_timestamp := fun _ => Returned None;
     wallet_analyzer.get_transactions_around_listing := fun _ _ => Returned None;
     wallet_analyzer._fetch_wallet_token_balance_raw := fun _ _ => Returned None;
     wallet_analyzer.get_classified_wallets := fun _ => Returned None;
     wallet_analyzer.extract_mint_from_tx := fun _ => wallet_analyzer.OtherError;
     wallet_analyzer.detect_wallet_actions := fun _ => wallet_analyzer.OtherError;
     wallet_analyzer.get_subscribers_for_token := fun _ => [42];
     wallet_analyzer.alert_content := wallet_analyzer.alert_content quiet;
     wallet_analyzer.PROCESSED_REALTIME_TX_PREFIX :=
       wallet_analyzer.PROCESSED_REALTIME_TX_PREFIX quiet;
     wallet_analyzer.PROCESSED_TX_TTL := wallet_analyzer.PROCESSED_TX_TTL quiet |}.

End examples.

(** * Properties *)

(** ** Dictionaries *)

Lemma dict_get_set_eq {V : Type} (d : list (string * V)) k v :
  dict_get (dict_set d k v) k = Some v.
Proof.
  induction d as [ | [k' v'] d IH ]; simpl.
  - by rewrite String.eqb_refl.
  - destruct (String.eqb k' k) eqn:E; simpl.
    + by rewrite String.eqb_refl.
    + by rewrite E.
Qed.

Lemma dict_get_set_ne {V : Type} (d : list (string * V)) k k' v :
  k <> k' -> dict_get (dict_set d k v) k' = dict_get d k'.
Proof.
  intros Hne. induction d as [ | [k0 v0] d IH ]; simpl.
  - destruct (String.eqb k k') eqn:E; [ | done ].
    apply String.eqb_eq in E. done.
  - destruct (String.eqb k0 k) eqn:E; simpl.
    + apply String.eqb_eq in E as ->.
      destruct (String.eqb k k') eqn:E'; [ | done ].
      apply String.eqb_eq in E'. done.
    + by rewrite IH.
Qed.

Lemma dict_set_keys {V : Type} (d : list (string * V)) k v :
  forall x, x ∈ map fst (dict_set d k v) <-> x = k \/ x ∈ map fst d.
Proof.
  intros x. induction d as [ | [k' v'] d IH ]; simpl.
  - set_solver.
  - destruct (String.eqb k' k) eqn:E; simpl.
    + apply String.eqb_eq in E as ->. set_solver.
    + set_solver.
Qed.

Lemma dict_set_NoDup {V : Type} (d : list (string * V)) k v :
  NoDup (map fst d) -> NoDup (map fst (dict_set d k v)).
Proof.
  induction d as [ | [k' v'] d IH ]; simpl; intros Hnd.
  - repeat constructor. set_solver.
  - apply NoDup_cons in Hnd as [Hk' Hnd].
    destruct (String.eqb k' k) eqn:E; simpl.
    + apply String.eqb_eq in E as ->. by constructor.
    + constructor; [ | by apply IH ].
      rewrite dict_set_keys. intros [-> | Hin]; [ | done ].
      by rewrite String.eqb_refl in E.
Qed.

Lemma dict_get_Some_elem {V : Type} (d : list (string * V)) k v :
  dict_get d k = Some v -> (k, v) ∈ d.
Proof.
  induction d as [ | [k' v'] d IH ]; simpl; [ done | ].
  destruct (String.eqb k' k) eqn:E.
  - apply String.eqb_eq in E as ->. intros [= ->]. by left.
  - intros H. right. by apply IH.
Qed.

Lemma dict_elem_get {V : Type} (d : list (string * V)) k v :
  NoDup (map fst d) -> (k, v) ∈ d -> dict_get d k = Some v.
Proof.
  induction d as [ | [k' v'] d IH ]; simpl; intros Hnd Hin.
  - by apply elem_of_nil in Hin.
  - apply NoDup_cons in Hnd as [Hk' Hnd].
    apply elem_of_cons in Hin as [ [= <- <-] | Hin ].
    + by rewrite String.eqb_refl.
    + destruct (String.eqb k' k) eqn:E; [ | by apply IH ].
      apply String.eqb_eq in E as ->. exfalso. apply Hk'.
      apply list_elem_of_fmap. by exists (k, v).
Qed.

(** ** Classification by the analyzer *)

Lemma read_metadata_unusable (m : outcome (option metadata)) :
  match m with
  | Raised | Returned None => True
  | Returned (Some md) =>
      decimals md = IntAbsent \/ total_supply md = IntAbsent \/
      (exists d, decimals md = IntOk d /\ d < 0) \/
      (exists s, total_supply md = IntOk s /\ s < 0)
  end ->
  wallet_analyzer.read_metadata m = None.
Proof.
  destruct m as [ | [ md | ] ]; simpl; try done.
  intros H.
  destruct (decimals md) as [ | | d ], (total_supply md) as [ | | s ]; try done.
  assert ((d < 0) \/ (s < 0)) as Hneg.
  { destruct H as [ H | [ H | [ (d' & H & Hd) | (s' & H & Hs) ] ] ];
      try discriminate; injection H as ->; lia. }
  assert (((d <? 0) || (s <? 0)) = true) as ->; [ | done ].
  apply orb_true_iff. rewrite !Z.ltb_lt. done.
Qed.

(** What the threshold loop adds: wallets that were not classified before,
    are no known program, and are keys of the aggregated balances. *)
Lemma team_threshold_spec d tsd items cl found found' cl' :
  wallet_analyzer.team_threshold d tsd items cl found = (found', cl') ->
  exists new,
    found' = (found ++ new)%list /\ NoDup new /\
    (forall w, w ∈ new ->
       (w ∉ cl) /\ (w ∉ wallet_analyzer.KNOWN_PROGRAM_IDS) /\ (w ∈ map fst items)) /\
    cl' = cl ∪ list_to_set new.
Proof.
  revert cl found found' cl'.
  induction items as [ | [o total] rest IH ]; intros cl found found' cl' H; simpl in H.
  - inversion H; subst. exists []. rewrite app_nil_r. split_and!; try done.
    + constructor.
    + intros w Hw. by apply elem_of_nil in Hw.
    + set_solver.
  - destruct (int_truediv total (10 ^ d)) as [ bd | ].
    2:{ inversion H; subst. exists []. rewrite app_nil_r. split_and!; try done.
        - constructor.
        - intros w Hw. by apply elem_of_nil in Hw.
        - set_solver. }
    destruct (float_ge _ _ && negb (bool_decide (o ∈ cl))
              && negb (bool_decide (o ∈ wallet_analyzer.KNOWN_PROGRAM_IDS))) eqn:E.
    + apply IH in H as (new & -> & Hnd & Hnew & ->).
      apply andb_prop in E as [E E3]. apply andb_prop in E as [E1 E2].
      apply negb_true_iff, bool_decide_eq_false in E2, E3.
      exists (o :: new). split_and!.
      * by rewrite <- app_assoc.
      * constructor; [ | done ]. intros Ho. apply Hnew in Ho as [Ho _]. set_solver.
      * intros w [ -> | Hw ]%elem_of_cons.
        -- split_and!; try done. simpl. set_solver.
        -- apply Hnew in Hw as (? & ? & ?).
           split_and!; [ set_solver | done | ]. simpl. set_solver.
      * set_solver.
    + apply IH in H as (new & -> & Hnd & Hnew & ->).
      exists new. split_and!; try done.
      intros w Hw. apply Hnew in Hw as (? & ? & ?).
      split_and!; try done. simpl. set_solver.
Qed.

Lemma team_step_disjoint svc mint d tsd cl found cl' :
  wallet_analyzer.team_step svc mint d tsd cl = (found, cl') ->
  NoDup found /\
  forall w, w ∈ found -> (w ∉ cl) /\ (w ∉ wallet_analyzer.KNOWN_PROGRAM_IDS).
Proof.
  unfold wallet_analyzer.team_step. intros H.
  assert ((found = []) \/
          exists items, wallet_analyzer.team_threshold d tsd items cl [] = (found, cl'))
    as [ -> | [items Hi] ].
  { destruct (float_gt tsd zero); [ | left; congruence ].
    destruct (wallet_analyzer.get_token_holders_paginated _ _ _)
      as [ | [ [ | h hs ] | ] ]; try (left; congruence).
    right. eauto. }
  - split; [ constructor | ]. intros w Hw. by apply elem_of_nil in Hw.
  - apply team_threshold_spec in Hi as (new & -> & Hnd & Hnew & _). simpl.
    split; [ done | ]. intros w Hw. apply Hnew in Hw. tauto.
Qed.


(** The result of a run that got past the metadata. *)
Lemma calculate_classifications_ok svc mint md d tsd :
  wallet_analyzer.read_metadata (wallet_analyzer._get_metadata svc mint)
    = Some (md, d, tsd) ->
  let c := fst (wallet_analyzer._calculate_classifications svc mint) in
  wallet_analyzer.creator c = elements (wallet_analyzer.creator_wallets md) /\
  wallet_analyzer.team c
    = fst (wallet_analyzer.team_step svc mint d tsd (wallet_analyzer.creator_wallets md)) /\
  wallet_analyzer.insider c = [] /\ wallet_analyzer.sniper c = [].
Proof.
  intros H. unfold wallet_analyzer._calculate_classifications. rewrite H.
  destruct (wallet_analyzer.team_step _ _ _ _ _) as [found cl'] eqn:E. done.
Qed.

Lemma calculate_classifications_aborted svc mint :
  wallet_analyzer.read_metadata (wallet_analyzer._get_metadata svc mint) = None ->
  wallet_analyzer._calculate_classifications svc mint
  = ({| wallet_analyzer.creator := []; wallet_analyzer.team := [];
        wallet_analyzer.insider := []; wallet_analyzer.sniper := [];
        wallet_analyzer.error := Some wallet_analyzer.MetadataError |}, []).
Proof.
  intros H. unfold wallet_analyzer._calculate_classifications. by rewrite H.
Qed.


(** ** Classification by the detector *)








(** C5.  When the metadata is absent, or its decimals or total supply is
    absent or negative, the analyzer's classification stops at once: the
    four role lists are empty, the error marker is set, no initial state is
    stored, and nothing but the metadata answer influences the result. *)
Theorem C5_metadata_failure_aborts :
  forall (svc : wallet_analyzer.services) (mint : string),
    (wallet_analyzer._get_metadata svc mint = Returned None \/
     exists md,
       wallet_analyzer._get_metadata svc mint = Returned (Some md) /\
       (decimals md = IntAbsent \/ total_supply md = IntAbsent \/
        (exists d, decimals md = IntOk d /\ d < 0) \/
        (exists s, total_supply md = IntOk s /\ s < 0))) ->
    wallet_analyzer._calculate_classifications svc mint
    = ({| wallet_analyzer.creator := []; wallet_analyzer.team := [];
          wallet_analyzer.insider := []; wallet_analyzer.sniper := [];
          wallet_analyzer.error := Some wallet_analyzer.MetadataError |}, []) /\
    forall svc' : wallet_analyzer.services,
      wallet_analyzer._get_metadata svc' mint = wallet_analyzer._get_metadata svc mint ->
      wallet_analyzer._calculate_classifications svc' mint
      = wallet_analyzer._calculate_classifications svc mint.
Proof.
  intros svc mint H.
  assert (wallet_analyzer.read_metadata (wallet_analyzer._get_metadata svc mint) = None)
    as Hnone.
  { apply read_metadata_unusable.
    destruct H as [ -> | (md & -> & H) ]; done. }
  split.
  - by apply calculate_classifications_aborted.
  - intros svc' Heq.
    rewrite (calculate_classifications_aborted svc mint Hnone).
    apply calculate_classifications_aborted. by rewrite Heq.
Qed.

Lemma C5_metadata_failure_aborts_witness :
  wallet_analyzer._calculate_classifications
    (examples.with_token examples.token_negative examples.holders_6) examples.MINT
  = ({| wallet_analyzer.creator := []; wallet_analyzer.team := [];
        wallet_analyzer.insider := []; wallet_analyzer.sniper := [];
        wallet_analyzer.error := Some wallet_analyzer.MetadataError |}, []).
Proof.
  refine (proj1 (C5_metadata_failure_aborts
                   (examples.with_token examples.token_negative examples.holders_6)
                   examples.MINT _)).
  right. exists examples.token_negative. split; [ reflexivity | ].
  right. right. left. exists (-1). split; [ reflexivity | lia ].
Defined.

(** ** The timing windows of the detector *)

(** The candidate sets after the loop over the early transactions. *)
Lemma window_candidates_spec T0 swe iwe cl txs : forall sc ic,
  let r := wallet_classifier.window_candidates T0 swe iwe cl txs sc ic in
  (forall w, w ∈ fst r <->
     w ∈ sc \/
     ((w ∉ cl) /\ exists tx t, tx ∈ txs /\ reference.buy_at tx w t /\ T0 < t <= swe)) /\
  (forall w, w ∈ snd r <->
     w ∈ ic \/
     ((w ∉ cl) /\ exists tx t, tx ∈ txs /\ reference.buy_at tx w t /\
        ~ (T0 < t <= swe) /\ swe < t <= iwe)).
Proof.
  induction txs as [ | tx txs IH ]; intros sc ic r; subst r.
  - simpl. split; intros w; split; try tauto;
      intros [ H | (_ & tx & t & Hin & _) ]; try done; by apply elem_of_nil in Hin.
  - cbn [wallet_classifier.window_candidates].
    assert (forall sc' ic',
              (forall w, w ∈ sc' <-> w ∈ sc \/
                 ((w ∉ cl) /\ exists t, reference.buy_at tx w t /\ T0 < t <= swe)) ->
              (forall w, w ∈ ic' <-> w ∈ ic \/
                 ((w ∉ cl) /\ exists t, reference.buy_at tx w t /\
                    ~ (T0 < t <= swe) /\ swe < t <= iwe)) ->
              let r := wallet_classifier.window_candidates T0 swe iwe cl txs sc' ic' in
              (forall w, w ∈ fst r <->
                 w ∈ sc \/
                 ((w ∉ cl) /\ exists tx' t, tx' ∈ tx :: txs /\ reference.buy_at tx' w t /\ T0 < t <= swe)) /\
              (forall w, w ∈ snd r <->
                 w ∈ ic \/
                 ((w ∉ cl) /\ exists tx' t, tx' ∈ tx :: txs /\ reference.buy_at tx' w t /\
                    ~ (T0 < t <= swe) /\ swe < t <= iwe))) as Hstep.
    { intros sc' ic' Hsc Hic r. subst r.
      destruct (IH sc' ic') as [IHs IHi]. split; intros w.
      - rewrite IHs, Hsc. split.
        + intros [ [ H | (Hcl & t & Hb & Ht) ] | (Hcl & tx' & t & Hin & Hb & Ht) ].
          * by left.
          * right. split; [ done | ]. exists tx, t. split_and!; first [ done | by left | by right | tauto | lia ].
          * right. split; [ done | ]. exists tx', t. split_and!; first [ done | by left | by right | tauto | lia ].
        + intros [ H | (Hcl & tx' & t & Hin & Hb & Ht) ]; [ by left; left | ].
          apply elem_of_cons in Hin as [ -> | Hin ].
          * left. right. split; [ done | ]. by exists t.
          * right. split; [ done | ]. by exists tx', t.
      - rewrite IHi, Hic. split.
        + intros [ [ H | (Hcl & t & Hb & Ht) ] | (Hcl & tx' & t & Hin & Hb & Ht) ].
          * by left.
          * right. split; [ done | ]. exists tx, t. split_and!; first [ done | by left | by right | tauto | lia ].
          * right. split; [ done | ]. exists tx', t. split_and!; first [ done | by left | by right | tauto | lia ].
        + intros [ H | (Hcl & tx' & t & Hin & Hb & Ht) ]; [ by left; left | ].
          apply elem_of_cons in Hin as [ -> | Hin ].
          * left. right. split; [ done | ]. by exists t.
          * right. split; [ done | ]. by exists tx', t. }
    (* the iteration on [tx] *)
    destruct (timestamp tx) as [ t | ] eqn:Et;
      [ destruct (wallet tx) as [ w0 | ] eqn:Ew;
        [ destruct (is_buy tx) as [ b | ] eqn:Eb | ] | ].
    2-4: (apply Hstep; intros w; (split; [ by left | ]);
          (intros [ H | (_ & t' & (Ht' & Hw' & Hb' & _) & _) ]; [ done | congruence ])).
    destruct (truthy (Some w0)) eqn:Etr.
    2:{ apply Hstep; intros w; (split; [ by left | ]);
          (intros [ H | (_ & t' & (Ht' & Hw' & Hb' & Htr') & _) ]; [ done | congruence ]). }
    destruct b.
    2:{ cbn [andb]. apply Hstep; intros w; (split; [ by left | ]);
          (intros [ H | (_ & t' & (Ht' & Hw' & Hb' & Htr') & _) ]; [ done | congruence ]). }
    cbn [andb].
    destruct (bool_decide (w0 ∈ cl)) eqn:Ecl; cbn [negb].
    { apply bool_decide_eq_true in Ecl.
      apply Hstep; intros w; (split; [ by left | ]);
        (intros [ H | (Hcl & t' & (Ht' & Hw' & Hb' & Htr') & _) ]; [ done | congruence ]). }
    apply bool_decide_eq_false in Ecl.
    assert (forall w t', reference.buy_at tx w t' <-> w = w0 /\ t' = t) as Hbuy.
    { intros w t'. unfold reference.buy_at. rewrite Et, Ew, Eb. split.
      - intros (? & ? & _ & _). split; congruence.
      - intros [-> ->]. done. }
    destruct ((T0 <? t) && (t <=? swe)) eqn:Es.
    + apply andb_prop in Es as [Es1 Es2]. apply Z.ltb_lt in Es1. apply Z.leb_le in Es2.
      apply Hstep; intros w.
      * rewrite elem_of_union, elem_of_singleton. split.
        -- intros [ -> | H ]; [ | by left ]. right. split; [ done | ].
           exists t. split; [ by apply Hbuy | lia ].
        -- intros [ H | (_ & t' & [-> ->]%Hbuy & _) ]; [ by right | by left ].
      * split; [ by left | ].
        intros [ H | (_ & t' & [-> ->]%Hbuy & Hn & _) ]; [ done | ].
        exfalso. apply Hn. lia.
    + assert (~ (T0 < t <= swe)) as Hns.
      { intros [H1 H2]. apply Z.ltb_lt in H1. apply Z.leb_le in H2.
        by rewrite H1, H2 in Es. }
      destruct ((swe <? t) && (t <=? iwe)) eqn:Ei.
      * apply andb_prop in Ei as [Ei1 Ei2]. apply Z.ltb_lt in Ei1. apply Z.leb_le in Ei2.
        apply Hstep; intros w.
        -- split; [ by left | ].
           intros [ H | (_ & t' & [-> ->]%Hbuy & Hc) ]; [ done | tauto ].
        -- rewrite elem_of_union, elem_of_singleton. split.
           ++ intros [ -> | H ]; [ | by left ]. right. split; [ done | ].
              exists t. split; [ by apply Hbuy | ]. split; [ done | lia ].
           ++ intros [ H | (_ & t' & [-> ->]%Hbuy & _) ]; [ by right | by left ].
      * assert (~ (swe < t <= iwe)) as Hni.
        { intros [H1 H2]. apply Z.ltb_lt in H1. apply Z.leb_le in H2.
          by rewrite H1, H2 in Ei. }
        apply Hstep; intros w; (split; [ by left | ]).
        -- intros [ H | (_ & t' & [-> ->]%Hbuy & Hc) ]; [ done | tauto ].
        -- intros [ H | (_ & t' & [-> ->]%Hbuy & _ & Hc) ]; [ done | tauto ].
Qed.

(** The two timing lists are empty unless the metadata is usable, the
    listing time is known and the early transactions were fetched. *)
Lemma classify_wallets_timing_cases env mint :
  let k := wallet_classifier.classify_wallets env mint in
  (wallet_classifier.sniper k = [] /\ wallet_classifier.insider k = []) \/
  exists md d tsd T0 txs,
    wallet_classifier.get_token_metadata_das env mint = Returned (Some md) /\
    decimals md <> IntAbsent /\ total_supply md <> IntAbsent /\
    wallet_classifier.read_metadata md = Some (d, tsd) /\
    wallet_classifier.get_dex_listing_timestamp env mint = Returned (Some T0) /\
    wallet_classifier.get_transactions_around_listing env mint T0 = Returned txs.
Proof.
  intros k. subst k. unfold wallet_classifier.classify_wallets.
  destruct (wallet_classifier.get_token_metadata_das env mint) as [ | [ md | ] ] eqn:Hmd;
    [ by left | | by left ].
  destruct (wallet_classifier.read_metadata md) as [ [d tsd] | ] eqn:Hread.
  2:{ left. by destruct (decimals md), (total_supply md). }
  unfold wallet_classifier.timing_step.
  destruct (wallet_classifier.get_dex_listing_timestamp env mint) as [ | [ T0 | ] ] eqn:HT0.
  1,3: left; by destruct (decimals md), (total_supply md).
  destruct (wallet_classifier.get_transactions_around_listing env mint T0)
    as [ | txs ] eqn:Htxs.
  { left. by destruct (decimals md), (total_supply md). }
  destruct (decimals md) eqn:Hd; [ by left | | ];
    (destruct (total_supply md) eqn:Hs; [ by left | | ]);
    right; exists md, d, tsd, T0, txs; rewrite Hd, Hs; split_and!; done.
Qed.

(** Membership in the two timing lists, when the detector gets usable
    metadata, a listing time and the early transactions. *)
Lemma classify_wallets_timing_lists env mint md d tsd T0 txs :
  wallet_classifier.get_token_metadata_das env mint = Returned (Some md) ->
  decimals md <> IntAbsent -> total_supply md <> IntAbsent ->
  wallet_classifier.read_metadata md = Some (d, tsd) ->
  wallet_classifier.get_dex_listing_timestamp env mint = Returned (Some T0) ->
  wallet_classifier.get_transactions_around_listing env mint T0 = Returned txs ->
  let k := wallet_classifier.classify_wallets env mint in
  let sniper_window_end := T0 + seconds wallet_classifier.SNIPER_WINDOW_SECONDS in
  let insider_window_end := T0 + minutes wallet_classifier.INSIDER_WINDOW_MINUTES in
  forall w,
    (w ∈ wallet_classifier.sniper k <->
       (w ∉ wallet_classifier.team k) /\
       exists tx t, tx ∈ txs /\ reference.buy_at tx w t /\ T0 < t <= sniper_window_end) /\
    (w ∈ wallet_classifier.insider k <->
       (w ∉ wallet_classifier.team k) /\ (w ∉ wallet_classifier.sniper k) /\
       exists tx t, tx ∈ txs /\ reference.buy_at tx w t /\
                    sniper_window_end < t <= insider_window_end).
Proof.
  intros Hmd Hdec Hsup Hread HT0 Htxs k swe iwe w. subst k.
  unfold wallet_classifier.classify_wallets.
  rewrite Hmd.
  assert (forall A (x y : A),
            match decimals md, total_supply md with
            | IntAbsent, _ | _, IntAbsent => x
            | _, _ => y
            end = y) as Hmatch.
  { intros A x y. destruct (decimals md), (total_supply md); done. }
  rewrite Hmatch, Hread. clear Hmatch.
  set (team := wallet_classifier.team_step env mint d tsd).
  unfold wallet_classifier.timing_step. rewrite HT0, Htxs.
  set (cl := list_to_set team : gset string).
  assert (forall x, x ∉ team <-> x ∉ cl) as Hcl.
  { intros x. unfold cl. by rewrite elem_of_list_to_set. }
  destruct txs as [ | tx0 txs0 ].
  { cbn. split; split; try (intros H; by apply elem_of_nil in H).
    - intros (_ & tx & t & Hin & _). by apply elem_of_nil in Hin.
    - intros (_ & _ & tx & t & Hin & _). by apply elem_of_nil in Hin. }
  set (txs := tx0 :: txs0).
  pose proof (window_candidates_spec T0 swe iwe cl txs ∅ ∅) as Hspec.
  cbv zeta in Hspec. fold swe iwe.
  destruct (wallet_classifier.window_candidates T0 swe iwe cl txs ∅ ∅)
    as [sc ic] eqn:Ewc.
  cbn [fst snd] in Hspec. destruct Hspec as [Hsc Hic].
  cbn [wallet_classifier.team wallet_classifier.sniper wallet_classifier.insider].
  rewrite !elem_of_elements, !elem_of_difference, elem_of_union,
    elem_of_list_to_set, elem_of_elements, elem_of_difference.
  rewrite Hsc, Hic, Hcl. rewrite !elem_of_empty.
  split.
  - split.
    + intros [ [ [] | (Hn & Hex) ] _ ]. done.
    + intros (Hn & Hex). split; [ | done ]. right. done.
  - split.
    + intros [ [ [] | (Hn & tx & t & Hin & Hb & Hns & Hi) ] Hnot ].
      split_and!; [ done | | by exists tx, t ].
      intros [ [ [] | Hs ] _ ]. apply Hnot. right. split; [ | done ].
      by right.
    + intros (Hn & Hns & tx & t & Hin & Hb & Hi). split.
      * right. split; [ done | ]. exists tx, t. split_and!; try done; try lia.
      * intros [ Hc | [ [ [] | Hs ] _ ] ]; [ done | ].
        apply Hns. split; [ | done ]. by right.
Qed.

(** C2 (as stated) fails: the sniper window of the detector is 10 seconds,
    not 15.  Whatever the collaborators answer, a wallet whose buys were all
    made 14 seconds after the listing time is not in the sniper list.  With
    the two listing helpers as the source has them, and in the analyzer,
    whose timing step only logs, both lists are empty for every mint. *)
Lemma C2_counterexample :
  wallet_classifier.SNIPER_WINDOW_SECONDS = 10 /\
  (forall (env : wallet_classifier.collaborators) (mint W : string),
     (forall T0 txs tx t,
        wallet_classifier.get_dex_listing_timestamp env mint = Returned (Some T0) ->
        wallet_classifier.get_transactions_around_listing env mint T0 = Returned txs ->
        tx ∈ txs -> reference.buy_at tx W t -> t = T0 + seconds 14) ->
     W ∉ wallet_classifier.sniper (wallet_classifier.classify_wallets env mint)) /\
  (forall get_token_metadata_das get_token_holders_paginated (mint : string),
     let k := wallet_classifier.classify_wallets
                (wallet_classifier.TransactionDetector get_token_metadata_das
                   get_token_holders_paginated) mint in
     wallet_classifier.sniper k = [] /\ wallet_classifier.insider k = []) /\
  (forall (svc : wallet_analyzer.services) (mint : string),
     let c := fst (wallet_analyzer._calculate_classifications svc mint) in
     wallet_analyzer.sniper c = [] /\ wallet_analyzer.insider c = []).
Proof.
  split_and!.
  - reflexivity.
  - intros env mint W Honly Hin.
    destruct (classify_wallets_timing_cases env mint)
      as [ [Hs _] | (md & d & tsd & T0 & txs & Hmd & Hdec & Hsup & Hread & HT0 & Htxs) ].
    + rewrite Hs in Hin. by apply elem_of_nil in Hin.
    + destruct (classify_wallets_timing_lists env mint md d tsd T0 txs
                  Hmd Hdec Hsup Hread HT0 Htxs W) as [Hsn _].
      apply Hsn in Hin as (_ & tx & t & Htx & Hbuy & Ht).
      rewrite (Honly T0 txs tx t HT0 Htxs Htx Hbuy) in Ht.
      unfold wallet_classifier.SNIPER_WINDOW_SECONDS, seconds in Ht. lia.
  - intros das holders mint k.
    destruct (classify_wallets_timing_cases (wallet_classifier.TransactionDetector das holders) mint)
      as [ H | (md & d & tsd & T0 & txs & _ & _ & _ & _ & HT0 & _) ]; [ exact H | ].
    discriminate HT0.
  - intros svc mint c. subst c.
    unfold wallet_analyzer._calculate_classifications.
    destruct (wallet_analyzer.read_metadata _) as [ [[md d] tsd] | ]; [ | done ].
    by destruct (wallet_analyzer.team_step svc mint d tsd _).
Qed.

(** C2 (amended).  The detector's windows are 10 seconds and 10 minutes.
    When it gets usable metadata, a listing time [T0] and the early
    transactions, a wallet outside the team list that has a well-formed buy
    among them, all its buys carrying the timestamp [t], is in the sniper
    list exactly when [T0 < t <= T0 + 10 s] and in the insider list exactly
    when [T0 + 10 s < t <= T0 + 10 min]: a buy 14 or 16 seconds after the
    listing puts it in the insider list and not in the sniper list, a buy 11
    minutes after in neither.  No wallet is in both lists. *)
Theorem C2_detector_windows_are_ten_seconds_and_ten_minutes :
  forall (env : wallet_classifier.collaborators) (mint : string) (md : metadata)
         (d : Z) (tsd : spec_float) (T0 : Z) (txs : list early_tx)
         (W : string) (t : Z),
    wallet_classifier.get_token_metadata_das env mint = Returned (Some md) ->
    decimals md <> IntAbsent -> total_supply md <> IntAbsent ->
    wallet_classifier.read_metadata md = Some (d, tsd) ->
    wallet_classifier.get_dex_listing_timestamp env mint = Returned (Some T0) ->
    wallet_classifier.get_transactions_around_listing env mint T0 = Returned txs ->
    (exists tx, tx ∈ txs /\ reference.buy_at tx W t) ->
    (forall tx t', tx ∈ txs -> reference.buy_at tx W t' -> t' = t) ->
    W ∉ wallet_classifier.team (wallet_classifier.classify_wallets env mint) ->
    let k := wallet_classifier.classify_wallets env mint in
    (W ∈ wallet_classifier.sniper k <-> T0 < t <= T0 + seconds 10) /\
    (W ∈ wallet_classifier.insider k <-> T0 + seconds 10 < t <= T0 + minutes 10) /\
    (t = T0 + seconds 14 \/ t = T0 + seconds 16 ->
     (W ∉ wallet_classifier.sniper k) /\ W ∈ wallet_classifier.insider k) /\
    (t = T0 + minutes 11 ->
     (W ∉ wallet_classifier.sniper k) /\ (W ∉ wallet_classifier.insider k)) /\
    (forall w, w ∈ wallet_classifier.sniper k -> w ∉ wallet_classifier.insider k).
Proof.
  intros env mint md d tsd T0 txs W t Hmd Hdec Hsup Hread HT0 Htxs
    (tx0 & Htx0 & Hbuy0) Honly Hteam k.
  pose proof (classify_wallets_timing_lists env mint md d tsd T0 txs
                Hmd Hdec Hsup Hread HT0 Htxs) as Hlists.
  cbv zeta in Hlists. fold k in Hlists, Hteam.
  change (seconds wallet_classifier.SNIPER_WINDOW_SECONDS) with (seconds 10) in Hlists.
  change (minutes wallet_classifier.INSIDER_WINDOW_MINUTES) with (minutes 10) in Hlists.
  assert (W ∈ wallet_classifier.sniper k <-> T0 < t <= T0 + seconds 10) as Hsn.
  { destruct (Hlists W) as [-> _]. split.
    - intros (_ & tx & t' & Htx & Hbuy & Ht). by rewrite <- (Honly tx t' Htx Hbuy).
    - intros Ht. split; [ done | ]. by exists tx0, t. }
  assert (W ∈ wallet_classifier.insider k <-> T0 + seconds 10 < t <= T0 + minutes 10)
    as Hin.
  { destruct (Hlists W) as [_ ->]. split.
    - intros (_ & _ & tx & t' & Htx & Hbuy & Ht). by rewrite <- (Honly tx t' Htx Hbuy).
    - intros Ht. split_and!; [ done | | by exists tx0, t ].
      rewrite Hsn. lia. }
  split_and!.
  - exact Hsn.
  - exact Hin.
  - intros Ht. rewrite Hsn, Hin. unfold minutes, seconds in *. lia.
  - intros Ht. rewrite Hsn, Hin. unfold minutes, seconds in *. lia.
  - intros w Hw Hi. destruct (Hlists w) as [_ Hiw].
    apply Hiw in Hi as (_ & Hns & _). done.
Qed.

Lemma C2_detector_windows_are_ten_seconds_and_ten_minutes_witness :
  let k := wallet_classifier.classify_wallets
             (examples.listing_env examples.T_0
                [examples.buy examples.WALLET_A (examples.T_0 + seconds 14)])
             examples.MINT in
  (examples.WALLET_A ∉ wallet_classifier.sniper k) /\
  examples.WALLET_A ∈ wallet_classifier.insider k.
Proof.
  refine (proj1 (proj2 (proj2
            (C2_detector_windows_are_ten_seconds_and_ten_minutes
               (examples.listing_env examples.T_0
                  [examples.buy examples.WALLET_A (examples.T_0 + seconds 14)])
               examples.MINT examples.token_6 6 (float_of_int 1000000)
               examples.T_0
               [examples.buy examples.WALLET_A (examples.T_0 + seconds 14)]
               examples.WALLET_A (examples.T_0 + seconds 14)
               _ _ _ _ _ _ _ _ _))) _).
  - reflexivity.
  - discriminate.
  - discriminate.
  - vm_compute. reflexivity.
  - reflexivity.
  - reflexivity.
  - exists (examples.buy examples.WALLET_A (examples.T_0 + seconds 14)).
    split; [ by left | by repeat split ].
  - intros tx t' Htx Hbuy. apply list_elem_of_singleton in Htx as ->.
    destruct Hbuy as (Ht & _). by injection Ht as <-.
  - apply (bool_decide_unpack _). vm_compute. exact I.
  - by left.
Defined.

(** ** The team threshold of the analyzer *)

(** C4.  With a supply of 2,260 raw units at 2 decimals, a wallet whose
    only token account holds 113 raw units owns exactly 5% of the supply
    (20 * 113 = 2260); the percentage the analyzer computes for it in binary64
    is 5629499534213119 * 2^-50, one unit in the last place below 5.0, and
    the wallet is left out of the team list. *)
Theorem C4_exact_five_percent_rounded_below_threshold :
  20 * 113 = 2260 /\
  (exists balance_decimal total_supply_decimal,
     int_truediv 113 (10 ^ 2) = Some balance_decimal /\
     int_truediv 2260 (10 ^ 2) = Some total_supply_decimal /\
     wallet_analyzer.percentage balance_decimal total_supply_decimal
       = S754_finite false 5629499534213119 (-50) /\
     wallet_analyzer.TEAM_HOLDING_PERCENT_THRESHOLD
       = S754_finite false 5629499534213120 (-50)) /\
  wallet_analyzer._calculate_classifications
    (examples.with_token examples.token_2 examples.holders_2) examples.MINT
  = ({| wallet_analyzer.creator := []; wallet_analyzer.team := [];
        wallet_analyzer.insider := []; wallet_analyzer.sniper := [];
        wallet_analyzer.error := None |}, []).
Proof.
  split_and!.
  - reflexivity.
  - eexists _, _. split_and!; vm_compute; reflexivity.
  - vm_compute. reflexivity.
Qed.

(** ** The transaction event extractor *)

(** C9.  For the transaction that empties and closes the only token account
    of a wallet (100 raw units before, no entry after), the balance of the
    wallet changes by -100, yet the extractor computes no change and
    produces no event: the differences are computed inside the loop over the
    post-balances, which has no iteration. *)
Theorem C9_closed_account_change_is_lost :
  transaction_parser.balance_map
    (transaction_parser.preTokenBalances
       (transaction_parser.meta examples.burn_and_close))
    !! (examples.WALLET_A, examples.MINT) = Some 100 /\
  transaction_parser.balance_map
    (transaction_parser.postTokenBalances
       (transaction_parser.meta examples.burn_and_close))
    !! (examples.WALLET_A, examples.MINT) = None /\
  transaction_parser._calculate_balance_changes
    (transaction_parser.meta examples.burn_and_close) = Returned [] /\
  transaction_parser.parse_transaction_for_event examples.burn_and_close
  = transaction_parser.NoEvent.
Proof. split_and!; vm_compute; reflexivity. Qed.

(** ** The alert dispatcher *)

(** C10.  While the dispatcher is not running, [queue_notification]
    returns without queueing and without an error, leaves the dispatcher as
    it was, and whatever happens afterwards happens as if the call had never
    been made: the notification is not delivered. *)
Theorem C10_queue_while_stopped_discards :
  forall (now : Z) (n : notification_system.notification)
         (s : notification_system.state),
    notification_system.running s = false ->
    notification_system.queue_notification now n s
      = (s, notification_system.Discarded) /\
    forall actions : list notification_system.action,
      notification_system.run
        (fst (notification_system.queue_notification now n s)) actions
      = notification_system.run s actions.
Proof.
  intros now n s Hstopped.
  assert (notification_system.queue_notification now n s
          = (s, notification_system.Discarded)) as Heq.
  { unfold notification_system.queue_notification. by rewrite Hstopped. }
  split; [ done | ]. intros actions. by rewrite Heq.
Qed.

Lemma C10_queue_while_stopped_discards_witness :
  notification_system.queue_notification 0 examples.alert notification_system.init
  = (notification_system.init, notification_system.Discarded).
Proof.
  refine (proj1 (C10_queue_while_stopped_discards 0 examples.alert
                   notification_system.init _)).
  reflexivity.
Defined.

(** ** The stored wallet state *)

Lemma count_rows_app rows rows' mint wallet :
  wallet_analyzer.count_rows (rows ++ rows') mint wallet
  = (wallet_analyzer.count_rows rows mint wallet
     + wallet_analyzer.count_rows rows' mint wallet)%nat.
Proof.
  unfold wallet_analyzer.count_rows. by rewrite filter_app, length_app.
Qed.

(** What one call of [store_initial_wallet_state] can do: nothing, or add
    the GREEN row of the fetched balance when no row was seen. *)
Lemma store_initial_cases svc cond mint wallet cls w :
  let w' := wallet_analyzer.store_initial_wallet_state svc cond mint wallet cls w in
  w' = w \/
  exists b,
    wallet_analyzer._fetch_wallet_token_balance_raw svc wallet mint = Returned (Some b) /\
    0 < b /\
    wallet_analyzer.insert_ok cond = true /\
    wallet_analyzer._check_state_exists cond w mint wallet = false /\
    w' = {| wallet_analyzer.redis := wallet_analyzer.redis w;
            wallet_analyzer.table :=
              wallet_analyzer.table w ++
                [ {| wallet_analyzer.mint_address := mint;
                     wallet_analyzer.wallet_address := wallet;
                     wallet_analyzer.classification := cls;
                     wallet_analyzer.initial_raw_balance := b;
                     wallet_analyzer.current_status := "GREEN";
                     wallet_analyzer.last_status_update := wallet_analyzer.now cond |} ];
            wallet_analyzer.notifier := wallet_analyzer.notifier w |}.
Proof.
  cbv zeta. unfold wallet_analyzer.store_initial_wallet_state.
  destruct (wallet_analyzer._check_state_exists cond w mint wallet) eqn:Ex;
    [ by left | ].
  destruct (wallet_analyzer._fetch_wallet_token_balance_raw svc wallet mint)
    as [ | [ b | ] ]; [ by left | | by left ].
  destruct (b <=? 0) eqn:Eb; [ by left | ].
  destruct (wallet_analyzer.insert_ok cond) eqn:Ei; [ | by left ].
  right. exists b. split_and!; try done. apply Z.leb_gt in Eb. lia.
Qed.

Lemma count_rows_singleton row mint wallet :
  wallet_analyzer.count_rows [row] mint wallet
  = if wallet_analyzer.matches mint wallet row then 1%nat else 0%nat.
Proof.
  unfold wallet_analyzer.count_rows. rewrite filter_cons, filter_nil.
  destruct (wallet_analyzer.matches mint wallet row) eqn:E.
  - by rewrite decide_True.
  - rewrite decide_False; [ done | congruence ].
Qed.




(** ** Real-time processing *)

Ltac case_split_process :=
  repeat match goal with
         | |- context [match ?x with _ => _ end] =>
             lazymatch x with
             | context [match _ with _ => _ end] => fail
             | _ => destruct x eqn:?
             end
         end.

Lemma redis_setex_table cond key ttl v w :
  wallet_analyzer.table (wallet_analyzer._redis_setex cond key ttl v w)
  = wallet_analyzer.table w.
Proof. unfold wallet_analyzer._redis_setex. by destruct (wallet_analyzer.redis_up cond). Qed.

(** Handling a streamed transaction leaves the state table as it is. *)
Lemma process_realtime_table svc cond tx w :
  wallet_analyzer.table
    (fst (wallet_analyzer.process_realtime_transaction_simple_alert svc cond tx w))
  = wallet_analyzer.table w.
Proof.
  unfold wallet_analyzer.process_realtime_transaction_simple_alert.
  case_split_process;
    cbn [fst wallet_analyzer.queue_all wallet_analyzer.table];
    rewrite ?redis_setex_table; done.
Qed.

(** A transaction seen for the first time: the marker is looked up and
    written before anything else, and it is alive afterwards. *)
Lemma process_realtime_first_sighting svc cond tx w sig rest :
  transaction_parser.signatures tx = Some (Some sig :: rest) ->
  truthy (Some sig) = true ->
  wallet_analyzer.redis_up cond = true ->
  wallet_analyzer._redis_exists cond w
    (wallet_analyzer.PROCESSED_REALTIME_TX_PREFIX svc +:+ sig) = false ->
  let key := wallet_analyzer.PROCESSED_REALTIME_TX_PREFIX svc +:+ sig in
  let r := wallet_analyzer.process_realtime_transaction_simple_alert svc cond tx w in
  (exists tail,
     snd r = wallet_analyzer.redis_exists key
             :: wallet_analyzer.redis_setex key (wallet_analyzer.PROCESSED_TX_TTL svc)
                  "processed"
             :: tail) /\
  (exists v expires,
     wallet_analyzer.redis (fst r) !! key = Some (v, expires) /\
     wallet_analyzer.now cond + Z.min 60 (wallet_analyzer.PROCESSED_TX_TTL svc)
       <= expires).
Proof.
  intros Hsig Htr Hup Hex key r. subst r key.
  unfold wallet_analyzer.process_realtime_transaction_simple_alert.
  rewrite Hsig, Htr. cbn [negb]. rewrite Hex.
  set (key := wallet_analyzer.PROCESSED_REALTIME_TX_PREFIX svc +:+ sig).
  assert (forall v ttl w0,
            60 <= ttl \/ wallet_analyzer.PROCESSED_TX_TTL svc <= ttl ->
            exists v' expires,
              wallet_analyzer.redis (wallet_analyzer._redis_setex cond key ttl v w0)
                !! key = Some (v', expires) /\
              wallet_analyzer.now cond
                + Z.min 60 (wallet_analyzer.PROCESSED_TX_TTL svc) <= expires) as Hset.
  { intros v ttl w0 Httl. unfold wallet_analyzer._redis_setex. rewrite Hup.
    cbn [wallet_analyzer.redis]. rewrite lookup_insert_eq.
    eexists _, _. split; [ done | ]. lia. }
  case_split_process;
    cbn [fst snd wallet_analyzer.queue_all wallet_analyzer.redis];
    (split; [ eexists; reflexivity | ]);
    try (apply Hset; lia).
Qed.

(** A transaction whose marker is alive: nothing happens. *)
Lemma process_realtime_suppressed svc cond tx w sig rest :
  transaction_parser.signatures tx = Some (Some sig :: rest) ->
  truthy (Some sig) = true ->
  wallet_analyzer._redis_exists cond w
    (wallet_analyzer.PROCESSED_REALTIME_TX_PREFIX svc +:+ sig) = true ->
  wallet_analyzer.process_realtime_transaction_simple_alert svc cond tx w
  = (w, [wallet_analyzer.redis_exists
           (wallet_analyzer.PROCESSED_REALTIME_TX_PREFIX svc +:+ sig)]).
Proof.
  intros Hsig Htr Hex.
  unfold wallet_analyzer.process_realtime_transaction_simple_alert.
  rewrite Hsig, Htr. cbn [negb]. by rewrite Hex.
Qed.

Lemma queue_all_stopped cond alerts w :
  notification_system.running (wallet_analyzer.notifier w) = false ->
  wallet_analyzer.queue_all cond alerts w = w.
Proof.
  intros Hr. unfold wallet_analyzer.queue_all.
  assert (fold_left
            (fun s n =>
               fst (notification_system.queue_notification (wallet_analyzer.now cond) n s))
            alerts (wallet_analyzer.notifier w) = wallet_analyzer.notifier w) as ->.
  { generalize dependent (wallet_analyzer.notifier w). intros s Hr.
    induction alerts as [ | n alerts IH ]; [ done | ]. cbn [fold_left].
    unfold notification_system.queue_notification at 2. rewrite Hr. cbn [negb fst].
    apply IH. }
  by destruct w.
Qed.

Lemma redis_setex_notifier cond key ttl v w :
  wallet_analyzer.notifier (wallet_analyzer._redis_setex cond key ttl v w)
  = wallet_analyzer.notifier w.
Proof. unfold wallet_analyzer._redis_setex. by destruct (wallet_analyzer.redis_up cond). Qed.

Lemma process_realtime_stopped svc cond tx w :
  notification_system.running (wallet_analyzer.notifier w) = false ->
  wallet_analyzer.notifier
    (fst (wallet_analyzer.process_realtime_transaction_simple_alert svc cond tx w))
  = wallet_analyzer.notifier w.
Proof.
  intros Hr.
  unfold wallet_analyzer.process_realtime_transaction_simple_alert.
  case_split_process; cbn [fst];
    rewrite ?queue_all_stopped by (by rewrite ?redis_setex_notifier);
    rewrite ?redis_setex_notifier; done.
Qed.

(** The first two effects of a handling that finds no marker, whether
    Redis answers or not. *)
Lemma process_realtime_marker_first svc cond tx w sig rest :
  transaction_parser.signatures tx = Some (Some sig :: rest) ->
  truthy (Some sig) = true ->
  wallet_analyzer._redis_exists cond w
    (wallet_analyzer.PROCESSED_REALTIME_TX_PREFIX svc +:+ sig) = false ->
  let key := wallet_analyzer.PROCESSED_REALTIME_TX_PREFIX svc +:+ sig in
  exists tail,
    snd (wallet_analyzer.process_realtime_transaction_simple_alert svc cond tx w)
    = wallet_analyzer.redis_exists key
      :: wallet_analyzer.redis_setex key (wallet_analyzer.PROCESSED_TX_TTL svc)
           "processed"
      :: tail.
Proof.
  intros Hsig Htr Hex key. subst key.
  unfold wallet_analyzer.process_realtime_transaction_simple_alert.
  rewrite Hsig, Htr. cbn [negb]. rewrite Hex.
  case_split_process; cbn [snd]; eexists; reflexivity.
Qed.

(** A handling in which a parser helper raises, or the classification of
    the token is not available, queues nothing. *)
Lemma process_realtime_nothing_to_queue svc cond tx w :
  wallet_analyzer.extract_mint_from_tx svc tx = wallet_analyzer.OtherError \/
  wallet_analyzer.detect_wallet_actions svc tx = wallet_analyzer.OtherError \/
  (forall m, wallet_analyzer.get_classified_wallets svc m = Returned None) ->
  wallet_analyzer.notifier
    (fst (wallet_analyzer.process_realtime_transaction_simple_alert svc cond tx w))
  = wallet_analyzer.notifier w /\
  forall n,
    wallet_analyzer.queue_notification n
      ∉ snd (wallet_analyzer.process_realtime_transaction_simple_alert svc cond tx w).
Proof.
  intros H.
  unfold wallet_analyzer.process_realtime_transaction_simple_alert.
  case_split_process; cbn [fst snd app];
    try (destruct H as [ H | [ H | H ] ]; congruence);
    rewrite ?redis_setex_notifier;
    (split; [ done | ]);
    intros n Hin;
    repeat (apply elem_of_cons in Hin as [ Hin | Hin ]; [ discriminate | ]);
    by apply elem_of_nil in Hin.
Qed.

(** C3.  The marker of a streamed transaction is keyed by the prefix and
    the signature alone, and on the first sighting it is written right after
    the lookup, before parsing and before any alert is queued, whatever the
    collaborators answer.  When the handling then queues nothing (the
    dispatcher is stopped, a parser helper raises, or the classification is
    not available), nothing was delivered, and yet, with Redis answering, a
    second handling of the transaction while the marker is alive (within 60
    seconds, or within the configured time to live if that is shorter) only
    looks the marker up, on any stores that hold the same Redis entries: the
    two handlings together deliver no notification. *)
Theorem C3_marker_is_written_before_any_delivery_attempt :
  forall (svc : wallet_analyzer.services) (cond cond' : wallet_analyzer.conditions)
         (tx : transaction_parser.tx_data) (w : wallet_analyzer.world)
         (sig : string) (rest : list (option string)),
    transaction_parser.signatures tx = Some (Some sig :: rest) ->
    truthy (Some sig) = true ->
    wallet_analyzer._redis_exists cond w
      (wallet_analyzer.PROCESSED_REALTIME_TX_PREFIX svc +:+ sig) = false ->
    let key := wallet_analyzer.PROCESSED_REALTIME_TX_PREFIX svc +:+ sig in
    let first := wallet_analyzer.process_realtime_transaction_simple_alert svc cond tx w in
    (exists tail,
       snd first
       = wallet_analyzer.redis_exists key
         :: wallet_analyzer.redis_setex key (wallet_analyzer.PROCESSED_TX_TTL svc)
              "processed"
         :: tail) /\
    (notification_system.running (wallet_analyzer.notifier w) = false \/
     wallet_analyzer.extract_mint_from_tx svc tx = wallet_analyzer.OtherError \/
     wallet_analyzer.detect_wallet_actions svc tx = wallet_analyzer.OtherError \/
     (forall m, wallet_analyzer.get_classified_wallets svc m = Returned None) ->
     wallet_analyzer.notifier (fst first) = wallet_analyzer.notifier w) /\
    (wallet_analyzer.redis_up cond = true ->
     wallet_analyzer.redis_up cond' = true ->
     wallet_analyzer.now cond' <
       wallet_analyzer.now cond + Z.min 60 (wallet_analyzer.PROCESSED_TX_TTL svc) ->
     forall later : wallet_analyzer.world,
       wallet_analyzer.redis later = wallet_analyzer.redis (fst first) ->
       wallet_analyzer.process_realtime_transaction_simple_alert svc cond' tx later
       = (later, [wallet_analyzer.redis_exists key])).
Proof.
  intros svc cond cond' tx w sig rest Hsig Htr Hex key first.
  split_and!.
  - by apply (process_realtime_marker_first svc cond tx w sig rest).
  - intros [ Hrun | Hnone ].
    + by apply process_realtime_stopped.
    + by apply process_realtime_nothing_to_queue.
  - intros Hup Hup' Hnow later Hredis.
    destruct (process_realtime_first_sighting svc cond tx w sig rest Hsig Htr Hup Hex)
      as (_ & v & expires & Hlook & Hexp).
    apply (process_realtime_suppressed svc cond' tx later sig rest Hsig Htr).
    unfold wallet_analyzer._redis_exists. rewrite Hup'. cbn [andb].
    rewrite Hredis. unfold first. cbv zeta in Hlook. rewrite Hlook.
    apply Z.ltb_lt. lia.
Qed.

Lemma C3_marker_is_written_before_any_delivery_attempt_witness :
  let first :=
    wallet_analyzer.process_realtime_transaction_simple_alert
      examples.unimplemented (examples.fair 1700000000) examples.sell_all
      (examples.world_0 true) in
  wallet_analyzer.notifier (fst first) = wallet_analyzer.notifier (examples.world_0 true) /\
  wallet_analyzer.process_realtime_transaction_simple_alert
    examples.unimplemented (examples.fair 1700000030) examples.sell_all (fst first)
  = (fst first,
     [wallet_analyzer.redis_exists
        (wallet_analyzer.PROCESSED_REALTIME_TX_PREFIX examples.unimplemented
         +:+ examples.SIGNATURE)]).
Proof.
  intros first.
  destruct (C3_marker_is_written_before_any_delivery_attempt
              examples.unimplemented (examples.fair 1700000000)
              (examples.fair 1700000030) examples.sell_all
              (examples.world_0 true) examples.SIGNATURE [] eq_refl eq_refl eq_refl)
    as (_ & Hnone & Hrepeat).
  split.
  - apply Hnone. right. left. reflexivity.
  - apply Hrepeat; [ reflexivity | reflexivity | vm_compute; reflexivity | reflexivity ].
Defined.

(** ** The status of a stored wallet state *)

Lemma store_initial_table svc cond mint wallet cls w :
  exists added,
    wallet_analyzer.table
      (wallet_analyzer.store_initial_wallet_state svc cond mint wallet cls w)
    = (wallet_analyzer.table w ++ added)%list /\
    Forall (fun row => wallet_analyzer.current_status row = "GREEN") added.
Proof.
  destruct (store_initial_cases svc cond mint wallet cls w)
    as [ -> | (b & _ & _ & _ & _ & ->) ].
  - exists []. by rewrite app_nil_r.
  - eexists [_]. split; [ reflexivity | ]. by repeat constructor.
Qed.

Lemma run_store_tasks_table svc cond tasks w :
  exists added,
    wallet_analyzer.table (tracker.run_store_tasks svc cond tasks w)
    = (wallet_analyzer.table w ++ added)%list /\
    Forall (fun row => wallet_analyzer.current_status row = "GREEN") added.
Proof.
  unfold tracker.run_store_tasks. revert w.
  induction tasks as [ | t tasks IH ]; intros w; simpl.
  - exists []. by rewrite app_nil_r.
  - destruct (IH (wallet_analyzer.store_initial_wallet_state svc cond
                    (fst (fst t)) (snd (fst t)) (snd t) w)) as (added2 & -> & H2).
    destruct (store_initial_table svc cond (fst (fst t)) (snd (fst t)) (snd t) w)
      as (added1 & -> & H1).
    exists (added1 ++ added2)%list. split; [ by rewrite app_assoc | ].
    by apply Forall_app.
Qed.

Lemma tracker_step_table svc w o :
  exists added,
    wallet_analyzer.table (tracker.step svc w o)
    = (wallet_analyzer.table w ++ added)%list /\
    Forall (fun row => wallet_analyzer.current_status row = "GREEN") added.
Proof.
  destruct o as [ cond mint | cond mint wallet cls | cond tx ]; simpl.
  - apply run_store_tasks_table.
  - apply store_initial_table.
  - exists []. rewrite process_realtime_table. by rewrite app_nil_r.
Qed.

(** C6 (as stated) fails: wallet A is tracked with 1,000 raw units and then
    sells all of them; after the handling of that transaction the stored
    status is not the one a balance of 0 asks for (RED): it is still GREEN. *)
Lemma C6_counterexample :
  let w' :=
    tracker.run (examples.alerting 0) examples.world_tracking
      [tracker.ProcessRealtime (examples.fair 1700000000) examples.sell_all] in
  let new_raw_balance :=
    default 0
      (transaction_parser.balance_map
         (transaction_parser.postTokenBalances
            (transaction_parser.meta examples.sell_all))
       !! (examples.WALLET_A, examples.MINT)) in
  ~ (forall row,
       row ∈ wallet_analyzer.table w' ->
       wallet_analyzer.current_status row
       = intended.apply_balance_change "GREEN"
           (wallet_analyzer.initial_raw_balance row) new_raw_balance).
Proof.
  intros w' new_raw_balance H.
  assert (exists row,
            wallet_analyzer.table w' = [row] /\
            wallet_analyzer.current_status row = "GREEN" /\
            intended.apply_balance_change "GREEN"
              (wallet_analyzer.initial_raw_balance row) new_raw_balance = "RED")
    as (row & Ht & Hs & Hi).
  { eexists. split_and!; vm_compute; reflexivity. }
  specialize (H row). rewrite Ht, Hs, Hi in H.
  discriminate H. by left.
Qed.

(** C6 (amended).  Through any sequence of classification runs, store calls
    and handled transactions, the rows already in the state table stay as
    they are and every row that is added has status GREEN; the handling of a
    streamed transaction does not touch the table at all.  So a status never
    moves back, and it never moves to YELLOW or RED either. *)
Theorem C6_status_only_ever_written_green :
  forall (svc : wallet_analyzer.services) (ops : list tracker.operation)
         (w : wallet_analyzer.world),
    (exists added,
       wallet_analyzer.table (tracker.run svc w ops)
       = (wallet_analyzer.table w ++ added)%list /\
       Forall (fun row => wallet_analyzer.current_status row = "GREEN") added) /\
    (forall cond tx,
       wallet_analyzer.table (tracker.step svc w (tracker.ProcessRealtime cond tx))
       = wallet_analyzer.table w).
Proof.
  intros svc ops w. split.
  - unfold tracker.run. revert w.
    induction ops as [ | o ops IH ]; intros w; simpl.
    + exists []. by rewrite app_nil_r.
    + destruct (IH (tracker.step svc w o)) as (added2 & -> & H2).
      destruct (tracker_step_table svc w o) as (added1 & -> & H1).
      exists (added1 ++ added2)%list. split; [ by rewrite app_assoc | ].
      by apply Forall_app.
  - intros cond tx. simpl. apply process_realtime_table.
Qed.

(** ** The stream subscription manager *)

Lemma unsubscribe_frame cond m :
  websocket_manager.intended_accounts_to_monitor
    (websocket_manager.unsubscribe_current_transaction_subscription cond m)
  = websocket_manager.intended_accounts_to_monitor m /\
  websocket_manager.helius_subscription_details
    (websocket_manager.unsubscribe_current_transaction_subscription cond m)
  = websocket_manager.helius_subscription_details m /\
  websocket_manager.subscribe_requests
    (websocket_manager.outbox
       (websocket_manager.unsubscribe_current_transaction_subscription cond m))
  = websocket_manager.subscribe_requests (websocket_manager.outbox m).
Proof.
  unfold websocket_manager.unsubscribe_current_transaction_subscription.
  destruct (negb (websocket_manager.websocket_open m)); [ done | ].
  destruct (websocket_manager.helius_id _) as [ h | ]; [ | done ].
  destruct (websocket_manager.id_truthy (Some h) && websocket_manager.send_ok cond);
    [ | done ].
  split_and!; try done.
  cbn [websocket_manager.send websocket_manager.outbox].
  unfold websocket_manager.subscribe_requests. rewrite omap_app. simpl.
  by rewrite app_nil_r.
Qed.

(** The filter update never changes the intended set. *)
Lemma update_intended cond m :
  websocket_manager.intended_accounts_to_monitor
    (websocket_manager._update_helius_subscription cond m)
  = websocket_manager.intended_accounts_to_monitor m.
Proof.
  unfold websocket_manager._update_helius_subscription.
  destruct (negb (websocket_manager.websocket_open m)); [ done | ].
  destruct (bool_decide _); [ done | ].
  destruct (bool_decide _).
  - destruct (websocket_manager.id_truthy _); [ | done ].
    cbn [websocket_manager.with_active websocket_manager.with_details
         websocket_manager.intended_accounts_to_monitor].
    apply unsubscribe_frame.
  - by destruct (websocket_manager.send_ok cond).
Qed.

(** The request sent for a non-empty intended set that differs from the
    active filter. *)
Lemma update_sends_truncated_set cond m :
  websocket_manager.websocket_open m = true ->
  websocket_manager.send_ok cond = true ->
  websocket_manager.intended_accounts_to_monitor m <> ∅ ->
  websocket_manager.intended_accounts_to_monitor m
    <> websocket_manager.active_filter_accounts
         (websocket_manager.helius_subscription_details m) ->
  let accounts :=
    take (Z.to_nat websocket_manager.MAX_ACCOUNTS_PER_SUBSCRIPTION)
      (elements (websocket_manager.intended_accounts_to_monitor m)) in
  let m' := websocket_manager._update_helius_subscription cond m in
  websocket_manager.outbox m'
  = (websocket_manager.outbox m
     ++ [websocket_manager.transactionSubscribe
           ("sub_tx_main_" +:+ pretty (websocket_manager.now cond)) accounts])%list /\
  websocket_manager.active_filter_accounts
    (websocket_manager.helius_subscription_details m') = list_to_set accounts /\
  websocket_manager.helius_id (websocket_manager.helius_subscription_details m')
  = websocket_manager.helius_id (websocket_manager.helius_subscription_details m).
Proof.
  intros Hopen Hsend Hne Hdiff accounts m'. subst m'.
  unfold websocket_manager._update_helius_subscription.
  rewrite Hopen, Hsend. cbn [negb].
  rewrite (bool_decide_eq_false_2 _ Hdiff), (bool_decide_eq_false_2 _ Hne).
  done.
Qed.

Lemma take_elements_set (X : gset string) (n : nat) :
  NoDup (take n (elements X)) /\
  (list_to_set (take n (elements X)) : gset string) ⊆ X /\
  ((size X <= n)%nat -> (list_to_set (take n (elements X)) : gset string) = X) /\
  size (list_to_set (take n (elements X)) : gset string) = Nat.min n (size X).
Proof.
  assert (NoDup (take n (elements X))) as Hnd.
  { apply (sublist_NoDup _ (elements X)); [ apply NoDup_elements | apply sublist_take ]. }
  split_and!.
  - done.
  - intros x Hx. apply elem_of_list_to_set in Hx.
    apply elem_of_elements. by apply (subseteq_take n).
  - intros Hsize. rewrite take_ge by exact Hsize. apply list_to_set_elements_L.
  - rewrite size_list_to_set by done. by rewrite length_take.
Qed.

Lemma update_helius_id cond m :
  websocket_manager.helius_id
    (websocket_manager.helius_subscription_details
       (websocket_manager._update_helius_subscription cond m))
  = websocket_manager.helius_id (websocket_manager.helius_subscription_details m).
Proof.
  unfold websocket_manager._update_helius_subscription.
  destruct (negb (websocket_manager.websocket_open m)); [ done | ].
  destruct (bool_decide _); [ done | ].
  destruct (bool_decide _).
  - destruct (websocket_manager.id_truthy _); [ | done ].
    cbn [websocket_manager.with_active websocket_manager.with_details
         websocket_manager.helius_subscription_details websocket_manager.helius_id].
    by destruct (unsubscribe_frame cond m) as (_ & -> & _).
  - by destruct (websocket_manager.send_ok cond).
Qed.

(** Nothing is sent when the active filter already is the intended set. *)
Lemma update_noop cond m :
  websocket_manager.intended_accounts_to_monitor m
  = websocket_manager.active_filter_accounts
      (websocket_manager.helius_subscription_details m) ->
  websocket_manager._update_helius_subscription cond m = m.
Proof.
  intros H. unfold websocket_manager._update_helius_subscription.
  destruct (negb (websocket_manager.websocket_open m)); [ done | ].
  by rewrite bool_decide_eq_true_2.
Qed.

Lemma accounts_size (n : Z) : 0 <= n -> size (examples.accounts n) = Z.to_nat n.
Proof.
  intros Hn. unfold examples.accounts.
  rewrite size_list_to_set.
  - by rewrite length_map, length_seq.
  - apply (NoDup_fmap_2 _). apply NoDup_seq.
Qed.

Lemma update_closed cond m :
  websocket_manager.websocket_open m = false ->
  websocket_manager._update_helius_subscription cond m = m.
Proof.
  intros H. unfold websocket_manager._update_helius_subscription. by rewrite H.
Qed.

Lemma session_step_never_connects m o :
  websocket_manager.rpc_wss_url m = None ->
  websocket_manager.websocket_open m = false ->
  websocket_manager.rpc_wss_url (session.step m o) = None /\
  websocket_manager.websocket_open (session.step m o) = false /\
  websocket_manager.outbox (session.step m o) = websocket_manager.outbox m.
Proof.
  intros Hurl Hopen.
  destruct o as [ mints | cond | | cond a | cond a | cond | cond ]; cbn [session.step].
  - unfold session.start. destruct (websocket_manager.running m); [ done | ].
    by destruct mints.
  - unfold websocket_manager.connect. rewrite Hopen.
    cbn [websocket_manager.with_details websocket_manager.rpc_wss_url].
    by rewrite Hurl.
  - done.
  - unfold websocket_manager.add_account_to_monitor.
    destruct (bool_decide _); [ done | ]. cbv zeta.
    destruct (websocket_manager.running _); [ | done ].
    by rewrite update_closed.
  - unfold websocket_manager.remove_account_to_monitor.
    destruct (bool_decide _); [ | done ]. cbv zeta.
    destruct (websocket_manager.running _); [ | done ].
    by rewrite update_closed.
  - unfold websocket_manager._resubscribe_all_intended. by rewrite update_closed.
  - unfold websocket_manager.unsubscribe_current_transaction_subscription.
    by rewrite Hopen.
Qed.

(** Whatever calls are made on a manager built by [__init__], the address
    [connect] reads stays unset, the socket stays closed and nothing is
    written. *)
Lemma session_run_never_connects api_key ops :
  let m := session.run (websocket_manager.init api_key) ops in
  websocket_manager.rpc_wss_url m = None /\
  websocket_manager.websocket_open m = false /\
  websocket_manager.outbox m = [].
Proof.
  intros m. subst m. unfold session.run.
  assert (forall m0,
            websocket_manager.rpc_wss_url m0 = None ->
            websocket_manager.websocket_open m0 = false ->
            websocket_manager.outbox m0 = [] ->
            websocket_manager.rpc_wss_url (fold_left session.step ops m0) = None /\
            websocket_manager.websocket_open (fold_left session.step ops m0) = false /\
            websocket_manager.outbox (fold_left session.step ops m0) = []) as Hinv.
  { induction ops as [ | o ops IH ]; intros m0 H1 H2 H3; [ done | ].
    cbn [fold_left].
    destruct (session_step_never_connects m0 o H1 H2) as (H1' & H2' & H3').
    apply IH; congruence. }
  by apply Hinv.
Qed.

(** C8.  On a manager built by [__init__], whatever calls were made on it
    before, losing the connection and calling [connect] leaves the intended
    set as it was and clears the subscription details, but the attempt
    fails: [connect] reads the attribute [rpc_wss_url], which nothing sets
    ([__init__] sets [wss_url]).  The socket stays closed and no frame is
    written, so no subscribe request carries the intended set, and the later
    updates of the filter send nothing either.  The intended set need not be
    empty: after [start] has loaded the tracked mints it is the set of those
    mints. *)
Theorem C8_reconnect_never_sends_the_intended_set :
  forall (api_key : string) (ops : list session.operation)
         (cond : websocket_manager.conditions),
    let m := session.run (websocket_manager.init api_key) ops in
    let r := websocket_manager.connect cond (websocket_manager.connection_lost m) in
    websocket_manager.intended_accounts_to_monitor (websocket_manager.connection_lost m)
    = websocket_manager.intended_accounts_to_monitor m /\
    websocket_manager.intended_accounts_to_monitor (fst r)
    = websocket_manager.intended_accounts_to_monitor m /\
    websocket_manager.helius_subscription_details (fst r) = websocket_manager.cleared /\
    snd r = false /\
    websocket_manager.websocket_open (fst r) = false /\
    websocket_manager.outbox (fst r) = [] /\
    (forall cond',
       websocket_manager.outbox
         (websocket_manager._resubscribe_all_intended cond' (fst r)) = []) /\
    (forall mints : list string,
       let started :=
         session.run (websocket_manager.init api_key)
           [session.Start (Returned mints); session.ConnectionLost;
            session.Connect cond] in
       websocket_manager.intended_accounts_to_monitor started = list_to_set mints /\
       websocket_manager.subscribe_requests (websocket_manager.outbox started) = []).
Proof.
  intros api_key ops cond m r.
  destruct (session_run_never_connects api_key ops) as (Hurl & Hopen & Hout).
  fold m in Hurl, Hopen, Hout.
  assert (r = (websocket_manager.with_websocket false
                 (websocket_manager.with_details websocket_manager.cleared m), false))
    as Hr.
  { subst r. unfold websocket_manager.connect, websocket_manager.connection_lost.
    cbn [websocket_manager.with_websocket websocket_manager.websocket_open
         websocket_manager.with_details websocket_manager.rpc_wss_url].
    by rewrite Hurl. }
  rewrite Hr. cbn [fst snd].
  split_and!; done.
Qed.

(** ** Aggregation and threshold of the analyzer's team step *)

Lemma contribution_nonneg w h : 0 <= reference.contribution w h.
Proof.
  unfold reference.contribution.
  destruct (owner h) as [ o | ], (amount h) as [ | | z ]; try lia.
  destruct (truthy (Some o) && String.eqb o w && (0 <? z)) eqn:E; [ | lia ].
  apply andb_prop in E as [_ E]. apply Z.ltb_lt in E. lia.
Qed.

Lemma owner_total_nonneg hs w : 0 <= reference.owner_total hs w.
Proof.
  induction hs as [ | h hs IH ]; simpl; [ lia | ].
  pose proof (contribution_nonneg w h). lia.
Qed.

(** The aggregated balance of a wallet after the first loop, from any
    starting dictionary. *)
Lemma aggregate_raw_lookup hs : forall acc w,
  dict_get (wallet_analyzer.aggregate_raw hs acc) w
  = match dict_get acc w with
    | Some t => Some (t + reference.owner_total hs w)
    | None => if 0 <? reference.owner_total hs w
              then Some (reference.owner_total hs w) else None
    end.
Proof.
  induction hs as [ | h hs IH ]; intros acc w.
  - simpl. destruct (dict_get acc w); [ f_equal; lia | done ].
  - cbn [wallet_analyzer.aggregate_raw reference.owner_total fold_right].
    fold (reference.owner_total hs w).
    pose proof (owner_total_nonneg hs w) as Hnn.
    assert (forall acc', dict_get acc' w = dict_get acc w ->
              reference.contribution w h = 0 ->
              dict_get (wallet_analyzer.aggregate_raw hs acc') w
              = match dict_get acc w with
                | Some t => Some (t + (reference.contribution w h + reference.owner_total hs w))
                | None =>
                    if 0 <? reference.contribution w h + reference.owner_total hs w
                    then Some (reference.contribution w h + reference.owner_total hs w)
                    else None
                end) as Hskip.
    { intros acc' Hacc' Hc. rewrite IH, Hacc', Hc. done. }
    unfold reference.contribution in *.
    destruct (amount h) as [ | | z ]; destruct (owner h) as [ o | ];
      try (apply Hskip; done).
    + replace (truthy (Some o) && (0 <? 0)) with false by (by rewrite andb_false_r).
      by apply Hskip.
    + destruct (truthy (Some o)) eqn:Et; cbn [andb] in *; [ | by apply Hskip ].
      destruct (0 <? z) eqn:Ez;
        [ | rewrite andb_false_r in *; by apply Hskip ].
      rewrite andb_true_r in *. apply Z.ltb_lt in Ez.
      destruct (String.eqb o w) eqn:Eo.
      * apply String.eqb_eq in Eo as ->. rewrite IH, dict_get_set_eq.
        destruct (dict_get acc w) as [ t | ]; simpl; [ f_equal; lia | ].
        assert ((0 <? z + reference.owner_total hs w) = true) as ->
          by (apply Z.ltb_lt; lia).
        done.
      * apply Hskip; [ | done ].
        apply String.eqb_neq in Eo. by rewrite dict_get_set_ne.
Qed.

Lemma aggregate_raw_NoDup hs : forall acc,
  NoDup (map fst acc) -> NoDup (map fst (wallet_analyzer.aggregate_raw hs acc)).
Proof.
  induction hs as [ | h hs IH ]; intros acc Hnd; [ done | ].
  cbn [wallet_analyzer.aggregate_raw].
  destruct (amount h) as [ | | z ]; destruct (owner h) as [ o | ];
    try (by apply IH);
    match goal with
    | |- context [if ?b then _ else _] => destruct b
    end; apply IH; try done; by apply dict_set_NoDup.
Qed.

Lemma filter_ext_in {A : Type} (P Q : A -> Prop)
    `{forall x, Decision (P x)} `{forall x, Decision (Q x)} (l : list A) :
  (forall x, x ∈ l -> P x <-> Q x) -> filter P l = filter Q l.
Proof.
  induction l as [ | x l IH ]; intros Hext; [ done | ].
  rewrite !filter_cons.
  assert (P x <-> Q x) as Hx by (apply Hext; by left).
  rewrite IH by (intros y Hy; apply Hext; by right).
  destruct (decide (P x)), (decide (Q x)); tauto.
Qed.

Lemma team_threshold_filter d tsd items : forall cl found,
  reference.divisions_defined d items = true ->
  NoDup (map fst items) ->
  (forall o, o ∈ map fst items -> o ∉ found) ->
  fst (wallet_analyzer.team_threshold d tsd items cl found)
  = (found ++ map fst (filter (fun it => reference.team_eligible d tsd cl it = true) items))%list.
Proof.
  induction items as [ | [o t] items IH ]; intros cl found Hdef Hnd Hfresh.
  - simpl. by rewrite app_nil_r.
  - cbn [reference.divisions_defined forallb snd] in Hdef.
    apply andb_prop in Hdef as [Hd Hdef].
    cbn [map fst] in Hnd. apply NoDup_cons in Hnd as [Ho Hnd].
    cbn [wallet_analyzer.team_threshold].
    destruct (int_truediv t (10 ^ d)) as [ bd | ] eqn:Ed; [ | done ].
    assert (forall cl' : gset string,
              (forall x, x ∈ cl' -> x ∈ cl \/ x = o) ->
              cl ⊆ cl' ->
              filter (fun it => reference.team_eligible d tsd cl' it = true) items
              = filter (fun it => reference.team_eligible d tsd cl it = true) items) as Hsame.
    { intros cl' Hcl' Hsub. apply filter_ext_in. intros [o' t'] Hin.
      unfold reference.team_eligible. cbn [fst snd].
      destruct (int_truediv t' (10 ^ d)); [ | done ].
      assert (o' <> o).
      { intros ->. apply Ho. apply list_elem_of_fmap. by exists (o, t'). }
      assert (bool_decide (o' ∈ cl') = bool_decide (o' ∈ cl)) as ->; [ | done ].
      apply bool_decide_ext. split; [ | by apply Hsub ].
      intros Hx. destruct (Hcl' _ Hx); done. }
    destruct (float_ge _ _ && negb (bool_decide (o ∈ cl))
              && negb (bool_decide (o ∈ wallet_analyzer.KNOWN_PROGRAM_IDS))) eqn:E.
    + rewrite filter_cons_True
        by (unfold reference.team_eligible; cbn [fst snd]; rewrite Ed; exact E).
      rewrite IH; try done.
      * rewrite Hsame; [ | set_solver | set_solver ].
        cbn [map fst]. by rewrite <- app_assoc.
      * intros x Hx [Hx' | ->%list_elem_of_singleton]%elem_of_app.
        -- eapply Hfresh; [ | done ]. cbn [map fst]. by right.
        -- done.
    + rewrite filter_cons_False
        by (unfold reference.team_eligible; cbn [fst snd]; rewrite Ed, E; done).
      apply IH; try done.
      intros x Hx. apply Hfresh. cbn [map fst]. by right.
Qed.

Lemma owner_total_perm hs hs' w :
  hs ≡ₚ hs' -> reference.owner_total hs w = reference.owner_total hs' w.
Proof.
  induction 1 as [ | h l l' _ IH | h1 h2 l | l1 l2 l3 _ IH1 _ IH2 ]; simpl; lia.
Qed.

Lemma aggregate_raw_elem hs w t :
  (w, t) ∈ wallet_analyzer.aggregate_raw hs []
  <-> 0 < reference.owner_total hs w /\ t = reference.owner_total hs w.
Proof.
  pose proof (aggregate_raw_lookup hs [] w) as Hl. simpl in Hl.
  pose proof (aggregate_raw_NoDup hs [] (NoDup_nil_2)) as Hnd.
  split.
  - intros Hin. apply (dict_elem_get _ _ _ Hnd) in Hin. rewrite Hin in Hl.
    destruct (0 <? reference.owner_total hs w) eqn:E; [ | done ].
    apply Z.ltb_lt in E. by injection Hl as ->.
  - intros [Hpos ->]. apply dict_get_Some_elem. rewrite Hl.
    by apply Z.ltb_lt in Hpos as ->.
Qed.

(** Membership in the list found by the team step, for a given set of
    wallets classified before it. *)
Lemma team_step_membership svc mint d tsd cl hs w :
  float_gt tsd zero = true ->
  wallet_analyzer.get_token_holders_paginated svc mint
    (wallet_analyzer.MAX_HOLDERS_FOR_TEAM_CLASSIFICATION / 1000 + 1)
    = Returned (Some hs) ->
  reference.divisions_defined d (wallet_analyzer.aggregate_raw hs []) = true ->
  w ∈ fst (wallet_analyzer.team_step svc mint d tsd cl) <->
  0 < reference.owner_total hs w /\
  (exists balance_decimal,
     int_truediv (reference.owner_total hs w) (10 ^ d) = Some balance_decimal /\
     float_ge (wallet_analyzer.percentage balance_decimal tsd)
       wallet_analyzer.TEAM_HOLDING_PERCENT_THRESHOLD = true) /\
  (w ∉ cl) /\
  (w ∉ wallet_analyzer.KNOWN_PROGRAM_IDS).
Proof.
  intros Hpos Hhs Hdef.
  unfold wallet_analyzer.team_step. rewrite Hpos, Hhs.
  assert (fst (match hs with
               | [] => ([], cl)
               | _ :: _ =>
                   wallet_analyzer.team_threshold d tsd
                     (wallet_analyzer.aggregate_raw hs []) cl []
               end)
          = map fst (filter (fun it => reference.team_eligible d tsd cl it = true)
                       (wallet_analyzer.aggregate_raw hs []))) as ->.
  { destruct hs as [ | h hs' ]; [ done | ].
    rewrite team_threshold_filter; try done.
    - by apply aggregate_raw_NoDup, NoDup_nil_2.
    - intros o _ Ho. by apply elem_of_nil in Ho. }
  rewrite list_elem_of_fmap. setoid_rewrite list_elem_of_filter.
  split.
  - intros ([o t] & -> & Hel & Hin). cbn [fst].
    apply aggregate_raw_elem in Hin as [Hp ->].
    unfold reference.team_eligible in Hel. cbn [fst snd] in Hel.
    destruct (int_truediv _ _) as [ bd | ]; [ | done ].
    apply andb_prop in Hel as [Hel H3]. apply andb_prop in Hel as [H1 H2].
    apply negb_true_iff, bool_decide_eq_false in H2, H3.
    split_and!; try done. by exists bd.
  - intros (Hp & (bd & Hbd & Hge) & Hcr & Hk).
    exists (w, reference.owner_total hs w). split_and!; [ done | | ].
    + unfold reference.team_eligible. cbn [fst snd]. rewrite Hbd, Hge.
      by rewrite !bool_decide_eq_false_2.
    + by apply aggregate_raw_elem.
Qed.

(** X2.  For usable metadata with a positive decimal supply and a holder
    snapshot none of whose aggregated balances overflows the division, a
    wallet is in the team list exactly when its aggregated raw balance is
    positive, the percentage computed from it is at least the threshold, and
    it is neither a creator nor a known program id. *)
Theorem analyzer_team_membership svc mint md d tsd hs w :
  wallet_analyzer.read_metadata (wallet_analyzer._get_metadata svc mint)
    = Some (md, d, tsd) ->
  float_gt tsd zero = true ->
  wallet_analyzer.get_token_holders_paginated svc mint
    (wallet_analyzer.MAX_HOLDERS_FOR_TEAM_CLASSIFICATION / 1000 + 1)
    = Returned (Some hs) ->
  reference.divisions_defined d (wallet_analyzer.aggregate_raw hs []) = true ->
  let c := fst (wallet_analyzer._calculate_classifications svc mint) in
  w ∈ wallet_analyzer.team c <->
  0 < reference.owner_total hs w /\
  (exists balance_decimal,
     int_truediv (reference.owner_total hs w) (10 ^ d) = Some balance_decimal /\
     float_ge (wallet_analyzer.percentage balance_decimal tsd)
       wallet_analyzer.TEAM_HOLDING_PERCENT_THRESHOLD = true) /\
  (w ∉ wallet_analyzer.creator c) /\
  (w ∉ wallet_analyzer.KNOWN_PROGRAM_IDS).
Proof.
  intros Hmd Hpos Hhs Hdef c. subst c.
  destruct (calculate_classifications_ok svc mint md d tsd Hmd) as (-> & -> & _).
  rewrite (team_step_membership svc mint d tsd _ hs w Hpos Hhs Hdef).
  by setoid_rewrite elem_of_elements.
Qed.

(** X1.  The first loop of the team step gives every wallet the sum of the
    positive, convertible amounts of the token accounts it owns, and gives no
    entry to a wallet for which that sum is zero: accounts without owner, with
    an empty owner, with an absent or unconvertible amount, or with an amount
    that is not positive count for nothing.  No wallet gets two entries. *)
Theorem analyzer_aggregates_positive_amounts_by_owner :
  forall (holders_raw : list holder) (w : string),
    dict_get (wallet_analyzer.aggregate_raw holders_raw []) w
    = (if 0 <? reference.owner_total holders_raw w
       then Some (reference.owner_total holders_raw w) else None) /\
    NoDup (map fst (wallet_analyzer.aggregate_raw holders_raw [])).
Proof.
  intros hs w. split.
  - by rewrite aggregate_raw_lookup.
  - apply aggregate_raw_NoDup, NoDup_nil_2.
Qed.

Lemma analyzer_team_membership_witness :
  examples.WALLET_A
    ∈ wallet_analyzer.team
        (fst (wallet_analyzer._calculate_classifications
                (examples.with_token examples.token_6 examples.holders_6)
                examples.MINT)).
Proof.
  refine (proj2 (analyzer_team_membership
                   (examples.with_token examples.token_6 examples.holders_6)
                   examples.MINT examples.token_6 6 (float_of_int 1000000)
                   examples.holders_6 examples.WALLET_A _ _ _ _) _).
  - vm_compute. reflexivity.
  - vm_compute. reflexivity.
  - reflexivity.
  - vm_compute. reflexivity.
  - split_and!.
    + vm_compute. reflexivity.
    + eexists. split; [ vm_compute; reflexivity | ]. vm_compute. reflexivity.
    + apply (bool_decide_unpack _). vm_compute. exact I.
    + apply (bool_decide_unpack _). vm_compute. exact I.
Defined.

(** X3.  The team list does not depend on the order of the holder
    snapshot: two runs that see the same metadata and two orderings of the
    same token accounts (none of whose aggregated balances overflows) put the
    same wallets in the team list. *)
Theorem analyzer_team_invariant_under_reordering :
  forall (svc svc' : wallet_analyzer.services) (mint : string)
         (md : metadata) (d : Z) (tsd : spec_float) (hs hs' : list holder),
    wallet_analyzer.read_metadata (wallet_analyzer._get_metadata svc mint)
      = Some (md, d, tsd) ->
    wallet_analyzer.read_metadata (wallet_analyzer._get_metadata svc' mint)
      = Some (md, d, tsd) ->
    float_gt tsd zero = true ->
    wallet_analyzer.get_token_holders_paginated svc mint
      (wallet_analyzer.MAX_HOLDERS_FOR_TEAM_CLASSIFICATION / 1000 + 1)
      = Returned (Some hs) ->
    wallet_analyzer.get_token_holders_paginated svc' mint
      (wallet_analyzer.MAX_HOLDERS_FOR_TEAM_CLASSIFICATION / 1000 + 1)
      = Returned (Some hs') ->
    hs ≡ₚ hs' ->
    reference.divisions_defined d (wallet_analyzer.aggregate_raw hs []) = true ->
    reference.divisions_defined d (wallet_analyzer.aggregate_raw hs' []) = true ->
    forall w,
      w ∈ wallet_analyzer.team
            (fst (wallet_analyzer._calculate_classifications svc mint))
      <-> w ∈ wallet_analyzer.team
                (fst (wallet_analyzer._calculate_classifications svc' mint)).
Proof.
  intros svc svc' mint md d tsd hs hs' Hmd Hmd' Hpos Hhs Hhs' Hperm Hdef Hdef' w.
  destruct (calculate_classifications_ok svc mint md d tsd Hmd) as (_ & -> & _).
  destruct (calculate_classifications_ok svc' mint md d tsd Hmd') as (_ & -> & _).
  rewrite (team_step_membership svc mint d tsd _ hs w Hpos Hhs Hdef).
  rewrite (team_step_membership svc' mint d tsd _ hs' w Hpos Hhs' Hdef').
  by rewrite (owner_total_perm hs hs' w Hperm).
Qed.

Lemma analyzer_team_invariant_under_reordering_witness :
  examples.WALLET_A
    ∈ wallet_analyzer.team
        (fst (wallet_analyzer._calculate_classifications
                (examples.with_token examples.token_6 examples.holders_6)
                examples.MINT))
  <-> examples.WALLET_A
        ∈ wallet_analyzer.team
            (fst (wallet_analyzer._calculate_classifications
                    (examples.with_token examples.token_6 examples.holders_6_reordered)
                    examples.MINT)).
Proof.
  refine (analyzer_team_invariant_under_reordering
            (examples.with_token examples.token_6 examples.holders_6)
            (examples.with_token examples.token_6 examples.holders_6_reordered)
            examples.MINT examples.token_6 6 (float_of_int 1000000)
            examples.holders_6 examples.holders_6_reordered
            _ _ _ _ _ _ _ _ examples.WALLET_A).
  - vm_compute. reflexivity.
  - vm_compute. reflexivity.
  - vm_compute. reflexivity.
  - reflexivity.
  - reflexivity.
  - symmetry. apply reverse_Permutation.
  - vm_compute. reflexivity.
  - vm_compute. reflexivity.
Defined.

(** ** Timing windows and error paths of the detector *)

(** X4.  When the detector gets usable metadata, a listing time and the
    early transactions, a wallet is in the sniper list exactly when it is not
    in the team list and some well-formed buy of it falls in the sniper window
    (after the listing time, at most 10 seconds later); it is in the insider
    list exactly when it is in neither of those lists and some well-formed buy
    of it falls in the insider window (more than 10 seconds and at most 10
    minutes after the listing time). *)
Theorem detector_timing_membership env mint md d tsd T0 txs :
  wallet_classifier.get_token_metadata_das env mint = Returned (Some md) ->
  decimals md <> IntAbsent -> total_supply md <> IntAbsent ->
  wallet_classifier.read_metadata md = Some (d, tsd) ->
  wallet_classifier.get_dex_listing_timestamp env mint = Returned (Some T0) ->
  wallet_classifier.get_transactions_around_listing env mint T0 = Returned txs ->
  let k := wallet_classifier.classify_wallets env mint in
  let sniper_window_end := T0 + seconds wallet_classifier.SNIPER_WINDOW_SECONDS in
  let insider_window_end := T0 + minutes wallet_classifier.INSIDER_WINDOW_MINUTES in
  forall w,
    (w ∈ wallet_classifier.sniper k <->
       (w ∉ wallet_classifier.team k) /\
       exists tx t, tx ∈ txs /\ reference.buy_at tx w t /\ T0 < t <= sniper_window_end) /\
    (w ∈ wallet_classifier.insider k <->
       (w ∉ wallet_classifier.team k) /\ (w ∉ wallet_classifier.sniper k) /\
       exists tx t, tx ∈ txs /\ reference.buy_at tx w t /\
                    sniper_window_end < t <= insider_window_end).
Proof.
  intros Hmd Hdec Hsup Hread HT0 Htxs k swe iwe w. subst k.
  unfold wallet_classifier.classify_wallets.
  rewrite Hmd.
  assert (forall A (x y : A),
            match decimals md, total_supply md with
            | IntAbsent, _ | _, IntAbsent => x
            | _, _ => y
            end = y) as Hmatch.
  { intros A x y. destruct (decimals md), (total_supply md); done. }
  rewrite Hmatch, Hread. clear Hmatch.
  set (team := wallet_classifier.team_step env mint d tsd).
  unfold wallet_classifier.timing_step. rewrite HT0, Htxs.
  set (cl := list_to_set team : gset string).
  assert (forall x, x ∉ team <-> x ∉ cl) as Hcl.
  { intros x. unfold cl. by rewrite elem_of_list_to_set. }
  destruct txs as [ | tx0 txs0 ].
  { cbn. split; split; try (intros H; by apply elem_of_nil in H).
    - intros (_ & tx & t & Hin & _). by apply elem_of_nil in Hin.
    - intros (_ & _ & tx & t & Hin & _). by apply elem_of_nil in Hin. }
  set (txs := tx0 :: txs0).
  pose proof (window_candidates_spec T0 swe iwe cl txs ∅ ∅) as Hspec.
  cbv zeta in Hspec. fold swe iwe.
  destruct (wallet_classifier.window_candidates T0 swe iwe cl txs ∅ ∅)
    as [sc ic] eqn:Ewc.
  cbn [fst snd] in Hspec. destruct Hspec as [Hsc Hic].
  cbn [wallet_classifier.team wallet_classifier.sniper wallet_classifier.insider].
  rewrite !elem_of_elements, !elem_of_difference, elem_of_union,
    elem_of_list_to_set, elem_of_elements, elem_of_difference.
  rewrite Hsc, Hic, Hcl. rewrite !elem_of_empty.
  split.
  - split.
    + intros [ [ [] | (Hn & Hex) ] _ ]. done.
    + intros (Hn & Hex). split; [ | done ]. right. done.
  - split.
    + intros [ [ [] | (Hn & tx & t & Hin & Hb & Hns & Hi) ] Hnot ].
      split_and!; [ done | | by exists tx, t ].
      intros [ [ [] | Hs ] _ ]. apply Hnot. right. split; [ | done ].
      by right.
    + intros (Hn & Hns & tx & t & Hin & Hb & Hi). split.
      * right. split; [ done | ]. exists tx, t. split_and!; try done; try lia.
      * intros [ Hc | [ [ [] | Hs ] _ ] ]; [ done | ].
        apply Hns. split; [ | done ]. by right.
Qed.

Lemma binary_round_aux_negative mx ex lx :
  float_gt (binary_round_aux prec emax true mx ex lx) zero = false.
Proof.
  unfold binary_round_aux.
  destruct (shr_fexp prec emax mx ex lx) as [mrs' e'].
  destruct (shr_fexp prec emax _ e' loc_Exact) as [mrs'' e''].
  destruct (shr_m mrs'') as [ | m | m ]; try done.
  by destruct (e'' <=? emax - prec).
Qed.

Lemma int_truediv_nonpositive s p tsd :
  s <= 0 -> int_truediv s (Zpos p) = Some tsd -> float_gt tsd zero = false.
Proof.
  intros Hs. unfold int_truediv. cbn [Z.eqb].
  destruct s as [ | q | q ]; [ | lia | ].
  - cbn. by intros [= <-].
  - cbn [exact SFdiv xorb].
    destruct (SFdiv_core_binary prec emax (Z.pos q) 0 (Z.pos p) 0) as [[mz ez] lz].
    pose proof (binary_round_aux_negative mz ez lz) as Hneg.
    destruct (binary_round_aux prec emax true mz ez lz); intros [= <-]; done.
Qed.

Lemma detector_read_metadata_unusable_supply md d s :
  decimals md = IntOk d -> total_supply md = IntOk s ->
  d < 0 \/ s <= 0 ->
  forall d' tsd, wallet_classifier.read_metadata md = Some (d', tsd) ->
                 float_gt tsd zero = false.
Proof.
  intros Hd Hs Hbad d' tsd. unfold wallet_classifier.read_metadata.
  rewrite Hd, Hs.
  destruct (0 <=? d) eqn:E.
  - apply Z.leb_le in E. destruct Hbad as [ | Hbad ]; [ lia | ].
    assert (exists p, 10 ^ d = Zpos p) as [p ->].
    { pose proof (Z.pow_pos_nonneg 10 d ltac:(lia) E).
      destruct (10 ^ d) as [ | p | p ]; try lia. by exists p. }
    destruct (int_truediv s (Z.pos p)) as [ x | ] eqn:Ex; [ | done ].
    intros [= <- <-]. by eapply int_truediv_nonpositive.
  - by intros [= <- <-].
Qed.

Lemma detector_timing_membership_witness :
  examples.WALLET_A
    ∈ wallet_classifier.insider
        (wallet_classifier.classify_wallets
           (examples.listing_env examples.T_0
              [examples.buy examples.WALLET_A (examples.T_0 + seconds 16)])
           examples.MINT).
Proof.
  refine (proj2 (proj2 (detector_timing_membership
                          (examples.listing_env examples.T_0
                             [examples.buy examples.WALLET_A
                                (examples.T_0 + seconds 16)])
                          examples.MINT examples.token_6 6 (float_of_int 1000000)
                          examples.T_0
                          [examples.buy examples.WALLET_A (examples.T_0 + seconds 16)]
                          _ _ _ _ _ _ examples.WALLET_A)) _).
  - reflexivity.
  - discriminate.
  - discriminate.
  - vm_compute. reflexivity.
  - reflexivity.
  - reflexivity.
  - split_and!.
    + apply (bool_decide_unpack _). vm_compute. exact I.
    + apply (bool_decide_unpack _). vm_compute. exact I.
    + exists (examples.buy examples.WALLET_A (examples.T_0 + seconds 16)),
        (examples.T_0 + seconds 16).
      split; [ by left | ]. split; [ by repeat split | ].
      vm_compute. split; [ reflexivity | discriminate ].
Defined.

(** X5.  Unlike the analyzer, the detector does not stop on negative
    decimals or on a supply that is zero or negative: as long as the metadata
    converts, the team step is skipped (empty team list), the timing step
    still runs on an empty set of classified wallets, and no metadata error
    is reported. *)
Theorem detector_continues_on_unusable_supply :
  forall (env : wallet_classifier.collaborators) (mint : string)
         (md : metadata) (d s : Z),
    wallet_classifier.get_token_metadata_das env mint = Returned (Some md) ->
    decimals md = IntOk d -> total_supply md = IntOk s ->
    d < 0 \/ s <= 0 ->
    is_Some (wallet_classifier.read_metadata md) ->
    wallet_classifier.classify_wallets env mint
    = let '(sn, ins, raised) := wallet_classifier.timing_step env mint ∅ in
      {| wallet_classifier.team := [];
         wallet_classifier.insider := ins;
         wallet_classifier.sniper := sn;
         wallet_classifier.error :=
           if raised then Some wallet_classifier.PartialInsiderSniperFailure
           else None |}.
Proof.
  intros env mint md d s Hmd Hd Hs Hbad [[d' tsd] Hread].
  pose proof (detector_read_metadata_unusable_supply md d s Hd Hs Hbad d' tsd Hread)
    as Hnot.
  unfold wallet_classifier.classify_wallets. rewrite Hmd, Hd, Hs.
  cbv iota. rewrite Hread.
  assert (wallet_classifier.team_step env mint d' tsd = []) as ->.
  { unfold wallet_classifier.team_step. by rewrite Hnot. }
  done.
Qed.

Lemma detector_continues_on_unusable_supply_witness :
  wallet_classifier.error
    (wallet_classifier.classify_wallets
       (examples.holding_env examples.token_negative examples.holders_6)
       examples.MINT) = None.
Proof.
  rewrite (detector_continues_on_unusable_supply
             (examples.holding_env examples.token_negative examples.holders_6)
             examples.MINT examples.token_negative (-1) 1000).
  - reflexivity.
  - reflexivity.
  - reflexivity.
  - reflexivity.
  - left. lia.
  - eexists. vm_compute. reflexivity.
Defined.

Lemma aggregate_balances_invalid d hs : forall acc,
  (exists h, h ∈ hs /\ amount h = IntInvalid) ->
  wallet_classifier.aggregate_balances d hs acc = None.
Proof.
  induction hs as [ | h0 hs IH ]; intros acc (h & Hin & Hinv).
  - by apply elem_of_nil in Hin.
  - cbn [wallet_classifier.aggregate_balances].
    apply elem_of_cons in Hin as [ <- | Hin ].
    + by rewrite Hinv.
    + assert (forall acc', wallet_classifier.aggregate_balances d hs acc' = None)
        as Hrest by (intros acc'; apply IH; by exists h).
      destruct (amount h0); [ | done | ];
        (destruct (owner h0); [ | apply Hrest ]);
        match goal with
        | |- context [if ?b then _ else _] => destruct b; [ | apply Hrest ]
        end;
        by destruct (int_truediv _ _).
Qed.

(** X6.  An amount that does not convert to an integer is handled in two
    ways.  In the detector it ends the team step: one such token account in
    the holder snapshot leaves the team list empty, whatever the other
    accounts hold.  In the analyzer the account is skipped: the aggregated
    balances are those of the snapshot without it. *)
Theorem unconvertible_amount_detector_drops_team_analyzer_skips :
  forall (env : wallet_classifier.collaborators) (mint : string)
         (hs1 hs2 : list holder) (h : holder),
    amount h = IntInvalid ->
    (forall pages,
       wallet_classifier.get_token_holders_paginated env mint pages
       = Returned (Some (hs1 ++ h :: hs2)%list)) ->
    wallet_classifier.team (wallet_classifier.classify_wallets env mint) = [] /\
    forall w,
      dict_get (wallet_analyzer.aggregate_raw (hs1 ++ h :: hs2)%list []) w
      = dict_get (wallet_analyzer.aggregate_raw (hs1 ++ hs2)%list []) w.
Proof.
  intros env mint hs1 hs2 h Hinv Hhs. split.
  - unfold wallet_classifier.classify_wallets.
    destruct (wallet_classifier.get_token_metadata_das env mint) as [ | [ md | ] ];
      try done.
    assert (forall d tsd, wallet_classifier.team_step env mint d tsd = []) as Hteam.
    { intros d tsd. unfold wallet_classifier.team_step.
      destruct (float_gt tsd zero); [ | done ]. rewrite Hhs.
      rewrite aggregate_balances_invalid.
      - by destruct (hs1 ++ h :: hs2)%list.
      - exists h. split; [ | done ]. apply elem_of_app. right. by left. }
    destruct (decimals md), (total_supply md); try done;
      (destruct (wallet_classifier.read_metadata md) as [ [d tsd] | ]; [ | done ]);
      rewrite Hteam; by destruct (wallet_classifier.timing_step _ _ _) as [ [? ?] ? ].
  - intros w. rewrite !aggregate_raw_lookup. cbn [dict_get].
    assert (reference.owner_total (hs1 ++ h :: hs2)%list w
            = reference.owner_total (hs1 ++ hs2)%list w) as ->; [ | done ].
    unfold reference.owner_total. rewrite !fold_right_app. cbn [fold_right].
    assert (reference.contribution w h = 0) as ->; [ | done ].
    unfold reference.contribution. rewrite Hinv. by destruct (owner h).
Qed.

Lemma unconvertible_amount_detector_drops_team_analyzer_skips_witness :
  wallet_classifier.team
    (wallet_classifier.classify_wallets
       (examples.holding_env examples.token_6 examples.holders_invalid)
       examples.MINT) = [].
Proof.
  refine (proj1 (unconvertible_amount_detector_drops_team_analyzer_skips
                   (examples.holding_env examples.token_6 examples.holders_invalid)
                   examples.MINT
                   [ {| owner := Some examples.WALLET_A;
                        amount := IntOk 600000000000 |} ] []
                   {| owner := Some examples.WALLET_B; amount := IntInvalid |} _ _)).
  - reflexivity.
  - intros pages. reflexivity.
Defined.

(** ** Balance differences of the event extractor *)

Section parser_properties.
Import transaction_parser.

Lemma record_deltas_lookup pre_map post_map changes key :
  record_deltas pre_map post_map changes !! key =
  if bool_decide (key ∈ (dom pre_map ∪ dom post_map : gset (string * string)))
  then if Z.eqb (default 0 (post_map !! key) - default 0 (pre_map !! key)) 0
       then changes !! key
       else Some (default 0 (post_map !! key) - default 0 (pre_map !! key))
  else changes !! key.
Proof.
  unfold record_deltas.
  generalize (dom pre_map ∪ dom post_map : gset (string * string)).
  intros X.
  assert (H : forall k,
             (k ∈ X ->
              set_fold
                (fun key acc =>
                   let pre_amt := default 0 (pre_map !! key) in
                   let post_amt := default 0 (post_map !! key) in
                   let delta := post_amt - pre_amt in
                   if Z.eqb delta 0 then acc else <[key := delta]> acc)
                changes X !! k =
              if Z.eqb (default 0 (post_map !! k) - default 0 (pre_map !! k)) 0
              then changes !! k
              else Some (default 0 (post_map !! k) - default 0 (pre_map !! k))) /\
             (k ∉ X ->
              set_fold
                (fun key acc =>
                   let pre_amt := default 0 (pre_map !! key) in
                   let post_amt := default 0 (post_map !! key) in
                   let delta := post_amt - pre_amt in
                   if Z.eqb delta 0 then acc else <[key := delta]> acc)
                changes X !! k = changes !! k)).
  { apply (set_fold_ind_L
             (fun r (Y : gset (string * string)) =>
                forall k,
                  (k ∈ Y ->
                   r !! k =
                   if Z.eqb (default 0 (post_map !! k) - default 0 (pre_map !! k)) 0
                   then changes !! k
                   else Some (default 0 (post_map !! k) - default 0 (pre_map !! k))) /\
                  (k ∉ Y -> r !! k = changes !! k))).
    - intros k. split; [|reflexivity]. intros Hk. apply elem_of_empty in Hk. destruct Hk.
    - intros x Y r Hx IH k. cbv zeta.
      destruct (decide (k = x)) as [->|Hne].
      + split; [|intros Hn; exfalso; apply Hn; set_solver].
        intros _. destruct (Z.eqb _ 0) eqn:E.
        * apply (IH x). exact Hx.
        * rewrite lookup_insert_eq. reflexivity.
      + assert (Hr : (if Z.eqb (default 0 (post_map !! x) - default 0 (pre_map !! x)) 0
                      then r
                      else <[x := default 0 (post_map !! x) - default 0 (pre_map !! x)]> r)
                     !! k = r !! k).
        { destruct (Z.eqb _ 0); [reflexivity|].
          rewrite lookup_insert_ne by congruence. reflexivity. }
        rewrite Hr. split.
        * intros Hk. apply (IH k). set_solver.
        * intros Hk. apply (IH k). set_solver. }
  case_bool_decide as Hk; apply (H key); exact Hk.
Qed.

(** The map of all non-zero differences. *)
Lemma record_deltas_empty pre_map post_map key d :
  record_deltas pre_map post_map ∅ !! key = Some d <->
  d <> 0 /\ d = default 0 (post_map !! key) - default 0 (pre_map !! key).
Proof.
  rewrite record_deltas_lookup, lookup_empty.
  case_bool_decide as Hk.
  - destruct (Z.eqb _ 0) eqn:E.
    + apply Z.eqb_eq in E. split; [discriminate|]. intros [? ?]. lia.
    + apply Z.eqb_neq in E. split.
      * intros [= <-]. split; [exact E | reflexivity].
      * intros [_ ->]. reflexivity.
  - split; [discriminate|]. intros [Hd ->]. exfalso. apply Hd.
    rewrite !not_elem_of_union, !not_elem_of_dom in Hk.
    destruct Hk as [-> ->]. reflexivity.
Qed.

Lemma record_deltas_idem pre_map post_map :
  record_deltas pre_map post_map (record_deltas pre_map post_map ∅)
  = record_deltas pre_map post_map ∅.
Proof.
  apply map_eq. intros key.
  rewrite (record_deltas_lookup _ _ (record_deltas pre_map post_map ∅)).
  case_bool_decide as Hk; [|reflexivity].
  destruct (Z.eqb _ 0) eqn:E; [reflexivity|].
  symmetry. apply record_deltas_empty. apply Z.eqb_neq in E. split; [exact E|reflexivity].
Qed.

(** What the first loop indexes. *)
Lemma index_balances_lookup l : forall acc r idx mt,
  index_balances l acc = Some r ->
  (is_Some (r !! (idx, mt)) <->
   is_Some (acc !! (idx, mt)) \/
   exists b, b ∈ l /\ accountIndex b = Some idx /\ mint b = Some mt /\ is_Some (owner b)).
Proof.
  induction l as [|b l IH]; intros acc r idx mt H; simpl in H.
  - injection H as <-. split; [auto|]. intros [?|(b & Hb & _)]; [assumption|].
    apply elem_of_nil in Hb. destruct Hb.
  - destruct (int_amount (amount b)) as [raw|] eqn:Ea; [|discriminate].
    destruct (accountIndex b) as [i|] eqn:Ei;
      [destruct (mint b) as [mt'|] eqn:Em;
       [destruct (owner b) as [ow|] eqn:Eo|]|];
      rewrite (IH _ _ idx mt H); clear IH H.
    + destruct (decide ((i, mt') = (idx, mt))) as [Heq|Hne].
      * injection Heq as -> ->. rewrite lookup_insert_eq. split.
        -- intros _. right. exists b. rewrite Eo.
           split_and!; [apply elem_of_cons; auto| | |eauto]; assumption.
        -- intros _. left. eauto.
      * rewrite lookup_insert_ne by exact Hne. split.
        -- intros [?|(b' & Hb' & ?)]; [auto|].
           right. exists b'. split; [apply elem_of_cons; auto|assumption].
        -- intros [?|(b' & Hb' & Hi & Hm & Ho)]; [auto|].
           apply elem_of_cons in Hb' as [->|Hb'].
           ++ exfalso. apply Hne. congruence.
           ++ right. exists b'. auto.
    + split.
      * intros [?|(b' & Hb' & ?)]; [auto|].
        right. exists b'. split; [apply elem_of_cons; auto|assumption].
      * intros [?|(b' & Hb' & Hi & Hm & Ho)]; [auto|].
        apply elem_of_cons in Hb' as [->|Hb'].
        -- rewrite Eo in Ho. destruct Ho as [? [=]].
        -- right. exists b'. auto.
    + split.
      * intros [?|(b' & Hb' & ?)]; [auto|].
        right. exists b'. split; [apply elem_of_cons; auto|assumption].
      * intros [?|(b' & Hb' & Hi & Hm & Ho)]; [auto|].
        apply elem_of_cons in Hb' as [->|Hb'].
        -- congruence.
        -- right. exists b'. auto.
    + split.
      * intros [?|(b' & Hb' & ?)]; [auto|].
        right. exists b'. split; [apply elem_of_cons; auto|assumption].
      * intros [?|(b' & Hb' & Hi & Hm & Ho)]; [auto|].
        apply elem_of_cons in Hb' as [->|Hb'].
        -- congruence.
        -- right. exists b'. auto.
Qed.

(** The first loop raises exactly on an amount that does not convert. *)
Lemma index_balances_raises l : forall acc,
  index_balances l acc = None <-> exists b, b ∈ l /\ amount b = IntInvalid.
Proof.
  induction l as [|b l IH]; intros acc; simpl.
  - split; [discriminate|]. intros (b & Hb & _). apply elem_of_nil in Hb. destruct Hb.
  - destruct (amount b) eqn:Ea; simpl.
    + destruct (accountIndex b), (mint b), (owner b); rewrite IH; split;
        try (intros (b' & Hb' & HI); exists b'; split; [apply elem_of_cons; auto|exact HI]);
        intros (b' & Hb' & HI); apply elem_of_cons in Hb' as [->|Hb'];
        try congruence; exists b'; auto.
    + split; [|reflexivity]. intros _. exists b. split; [apply elem_of_cons; auto|exact Ea].
    + destruct (accountIndex b), (mint b), (owner b); rewrite IH; split;
        try (intros (b' & Hb' & HI); exists b'; split; [apply elem_of_cons; auto|exact HI]);
        intros (b' & Hb' & HI); apply elem_of_cons in Hb' as [->|Hb'];
        try congruence; exists b'; auto.
Qed.

(** The loop over the post-balances leaves the differences empty or
    records all of them. *)
Lemma diff_loop pre post by_idx l : forall changes,
  (changes = ∅ \/ changes = record_deltas (balance_map pre) (balance_map post) ∅) ->
  let triggered :=
    exists bal idx mt, bal ∈ l /\ accountIndex bal = Some idx /\ mint bal = Some mt /\
                       is_Some (by_idx !! (idx, mt)) in
  (triggered /\
   fold_left (diff_iteration pre post by_idx) l changes =
   record_deltas (balance_map pre) (balance_map post) ∅)
  \/ (~ triggered /\ fold_left (diff_iteration pre post by_idx) l changes = changes).
Proof.
  induction l as [|bal l IH]; intros changes Hc; cbv zeta.
  - right. split; [|reflexivity]. intros (b & ? & ? & Hb & _). apply elem_of_nil in Hb. exact Hb.
  - simpl fold_left.
    assert (Hstep : diff_iteration pre post by_idx changes bal = changes /\
                    ~ (exists idx mt, accountIndex bal = Some idx /\ mint bal = Some mt /\
                                      is_Some (by_idx !! (idx, mt)))
                    \/ diff_iteration pre post by_idx changes bal =
                       record_deltas (balance_map pre) (balance_map post) ∅ /\
                       (exists idx mt, accountIndex bal = Some idx /\ mint bal = Some mt /\
                                       is_Some (by_idx !! (idx, mt)))).
    { unfold diff_iteration.
      destruct (accountIndex bal) as [idx|] eqn:Ei;
        [destruct (mint bal) as [mt|] eqn:Em;
         [destruct (by_idx !! (idx, mt)) eqn:El|]|].
      - right. split.
        + destruct Hc as [-> | ->]; [reflexivity|apply record_deltas_idem].
        + exists idx, mt. rewrite El. eauto.
      - left. split; [reflexivity|]. intros (i & m' & [= <-] & [= <-] & Hs).
        rewrite El in Hs. destruct Hs as [? [=]].
      - left. split; [reflexivity|]. intros (i & m' & _ & [=] & _).
      - left. split; [reflexivity|]. intros (i & m' & [=] & _). }
    destruct Hstep as [[-> Hno] | [-> (idx & mt & Hi & Hm & Hs)]].
    + destruct (IH changes Hc) as [[(b & idx & mt & Hb & Hrest) H]|[Hn H]].
      * left. split; [|exact H]. exists b, idx, mt. split; [apply elem_of_cons; auto|exact Hrest].
      * right. split; [|exact H].
        intros (b & idx & mt & Hb & Hi & Hm & Hs).
        apply elem_of_cons in Hb as [->|Hb].
        -- apply Hno. eauto.
        -- apply Hn. exists b, idx, mt. auto.
    + left. split.
      * exists bal, idx, mt. split; [apply elem_of_cons; auto|auto].
      * destruct (IH (record_deltas (balance_map pre) (balance_map post) ∅)) as [[_ H]|[_ H]];
          [right; reflexivity | exact H | exact H].
Qed.

(** The changes are the entries of a map that is empty or holds all the
    non-zero differences. *)
Lemma calculate_balance_changes_map m changes :
  _calculate_balance_changes m = Returned changes ->
  exists cm : gmap (string * string) Z,
    changes = map (fun kv => {| wallet := fst (fst kv);
                                change_mint := snd (fst kv);
                                raw_change := snd kv |}) (map_to_list cm) /\
    forall key d,
      cm !! key = Some d <->
      reference.diff_runs m /\ d <> 0 /\ d = reference.delta m key.
Proof.
  unfold _calculate_balance_changes. cbv zeta.
  destruct (index_balances (preTokenBalances m) ∅) as [by_idx|] eqn:E1; [|discriminate].
  destruct (index_balances (postTokenBalances m) by_idx) as [r|] eqn:E2; [|discriminate].
  intros [= <-]. eexists. split; [reflexivity|].
  intros key d.
  assert (Htrig :
            (exists bal idx mt, bal ∈ postTokenBalances m /\ accountIndex bal = Some idx /\
                                mint bal = Some mt /\ is_Some (r !! (idx, mt)))
            <-> reference.diff_runs m).
  { unfold reference.diff_runs. split.
    - intros (bal & idx & mt & Hb & Hi & Hm & Hs).
      apply (index_balances_lookup _ _ _ idx mt E2) in Hs.
      destruct Hs as [Hs|(b & Hin & Hbi & Hbm & Hbo)].
      + apply (index_balances_lookup _ _ _ idx mt E1) in Hs.
        destruct Hs as [Hs|(b & Hin & Hbi & Hbm & Hbo)].
        * rewrite lookup_empty in Hs. destruct Hs as [? [=]].
        * exists bal, idx, mt, b. split_and!; try assumption.
          apply elem_of_app. left. exact Hin.
      + exists bal, idx, mt, b. split_and!; try assumption.
        apply elem_of_app. right. exact Hin.
    - intros (bal & idx & mt & b & Hb & Hi & Hm & Hin & Hbi & Hbm & Hbo).
      exists bal, idx, mt. split_and!; try assumption.
      apply (index_balances_lookup _ _ _ idx mt E2).
      apply elem_of_app in Hin as [Hin|Hin].
      + left. apply (index_balances_lookup _ _ _ idx mt E1). right. exists b. auto.
      + right. exists b. auto. }
  destruct (diff_loop (preTokenBalances m) (postTokenBalances m) r (postTokenBalances m) ∅)
    as [[Ht ->]|[Hn ->]]; [left; reflexivity| |].
  - rewrite record_deltas_empty. unfold reference.delta.
    apply Htrig in Ht. tauto.
  - rewrite lookup_empty. split; [discriminate|].
    intros [Hr _]. exfalso. apply Hn, Htrig, Hr.
Qed.

(** Membership in the list of changes. *)
Lemma balance_changes_elem m changes :
  _calculate_balance_changes m = Returned changes ->
  forall w mt d,
    {| wallet := w; change_mint := mt; raw_change := d |} ∈ changes <->
    reference.diff_runs m /\ d <> 0 /\ d = reference.delta m (w, mt).
Proof.
  intros H.
  destruct (calculate_balance_changes_map m changes H) as (cm & -> & Hcm).
  intros w mt d. rewrite <- (Hcm (w, mt) d), <- elem_of_map_to_list.
  rewrite list_elem_of_fmap. split.
  - intros ([[w' mt'] d'] & [= -> -> ->] & Hin). exact Hin.
  - intros Hin. exists ((w, mt), d). split; [reflexivity|exact Hin].
Qed.

(** X7.  When the balance computation returns, no (wallet, mint) pair is
    reported twice, and a change is reported exactly when the difference loop
    runs and the change is the non-zero difference, for that pair, between
    the map of the post-balances and the map of the pre-balances. *)
Theorem balance_changes_are_the_nonzero_differences :
  forall (m : meta_data) (changes : list token_change),
    _calculate_balance_changes m = Returned changes ->
    NoDup (map (fun c => (wallet c, change_mint c)) changes) /\
    forall w mt d,
      {| wallet := w; change_mint := mt; raw_change := d |} ∈ changes <->
      reference.diff_runs m /\ d <> 0 /\ d = reference.delta m (w, mt).
Proof.
  intros m changes H. split; [ | exact (balance_changes_elem m changes H) ].
  destruct (calculate_balance_changes_map m changes H) as (cm & -> & _).
  rewrite map_map. cbn [wallet change_mint].
  assert (Heq : map (fun x : string * string * Z => (fst (fst x), snd (fst x)))
                  (map_to_list cm) = (map_to_list cm).*1).
  { apply map_ext. intros [[? ?] ?]. reflexivity. }
  rewrite Heq. apply NoDup_fst_map_to_list.
Qed.

Lemma balance_changes_are_the_nonzero_differences_witness :
  exists changes,
    _calculate_balance_changes (meta examples.sell_all) = Returned changes /\
    NoDup (map (fun c => (wallet c, change_mint c)) changes).
Proof.
  eexists. split; [ vm_compute; reflexivity | ].
  refine (proj1 (balance_changes_are_the_nonzero_differences
                   (meta examples.sell_all) _ _)).
  vm_compute. reflexivity.
Defined.

(** X9.  One amount that does not convert to an integer, in any entry of
    the pre- or post-balances (with or without owner, mint or account index),
    makes the balance computation raise; for a transaction with a signature
    and a block time the extractor then returns its error dictionary, not an
    event. *)
Theorem unconvertible_amount_fails_the_extraction :
  forall (tx : tx_data) (sig : string) (rest : list (option string)) (t : Z)
         (b : token_balance),
    err (meta tx) = false ->
    signatures tx = Some (Some sig :: rest) ->
    truthy (Some sig) = true ->
    blockTime tx = Some t ->
    b ∈ (preTokenBalances (meta tx) ++ postTokenBalances (meta tx))%list ->
    amount b = IntInvalid ->
    _calculate_balance_changes (meta tx) = Raised /\
    parse_transaction_for_event tx = ParsingFailed.
Proof.
  intros tx sig rest t b Herr Hsig Htr Hbt Hin Hinv.
  assert (H : _calculate_balance_changes (meta tx) = Raised).
  { unfold _calculate_balance_changes. cbv zeta.
    destruct (index_balances (preTokenBalances (meta tx)) ∅) as [by_idx|] eqn:E1;
      [|reflexivity].
    destruct (index_balances (postTokenBalances (meta tx)) by_idx) as [r|] eqn:E2;
      [|reflexivity].
    exfalso. apply elem_of_app in Hin as [Hin|Hin].
    - assert (Hn : index_balances (preTokenBalances (meta tx)) ∅ = None)
        by (apply index_balances_raises; eauto).
      congruence.
    - assert (Hn : index_balances (postTokenBalances (meta tx)) by_idx = None)
        by (apply index_balances_raises; eauto).
      congruence. }
  split; [exact H|].
  unfold parse_transaction_for_event. rewrite Herr, Hsig, Hbt, Htr, H. reflexivity.
Qed.

Lemma unconvertible_amount_fails_the_extraction_witness :
  parse_transaction_for_event examples.unreadable_amount = ParsingFailed.
Proof.
  refine (proj2 (unconvertible_amount_fails_the_extraction examples.unreadable_amount
                   examples.SIGNATURE [] 1700000000
                   {| accountIndex := Some 3; mint := None; owner := None;
                      amount := IntInvalid |} _ _ _ _ _ _)); try reflexivity.
  apply elem_of_app. right.
  do 2 apply list_elem_of_further. apply list_elem_of_here.
Defined.

Lemma involved_wallets_elem (l : list token_change) (w : string) :
  w ∈ elements (list_to_set (map wallet l) : gset string) <->
  exists c, c ∈ l /\ wallet c = w.
Proof.
  rewrite elem_of_elements, elem_of_list_to_set, list_elem_of_fmap.
  split; intros (c & H1 & H2); exists c; auto.
Qed.

(** X8.  An event is only produced for a transaction that did not fail,
    with a non-empty first signature and a block time; it has the type
    TOKEN_ACTIVITY, carries the computed changes (at least one), and lists
    without repetition exactly the wallets that have a non-zero balance
    difference for some mint. *)
Theorem event_lists_the_wallets_whose_balance_changed :
  forall (tx : tx_data) (e : event),
    parse_transaction_for_event tx = Event e ->
    err (meta tx) = false /\
    (exists rest, signatures tx = Some (Some (signature e) :: rest)) /\
    signature e <> EmptyString /\
    blockTime tx = Some (timestamp e) /\
    type e = "TOKEN_ACTIVITY" /\
    token_changes e <> [] /\
    _calculate_balance_changes (meta tx) = Returned (token_changes e) /\
    NoDup (involved_wallets e) /\
    forall w,
      w ∈ involved_wallets e <->
      exists mt d, d <> 0 /\ d = reference.delta (meta tx) (w, mt).
Proof.
  intros tx e. unfold parse_transaction_for_event.
  destruct (err (meta tx)) eqn:Herr; [discriminate|].
  destruct (signatures tx) as [[|[sig|] rest]|] eqn:Hsig; try discriminate.
  destruct (blockTime tx) as [t|] eqn:Hbt; [|discriminate].
  destruct (truthy (Some sig)) eqn:Htr; [|discriminate].
  destruct (_calculate_balance_changes (meta tx)) as [|changes] eqn:Hc; [discriminate|].
  destruct changes as [|c0 changes]; [discriminate|].
  intros [= <-]. cbn [signature timestamp type token_changes involved_wallets].
  pose proof (balance_changes_elem _ _ Hc) as Hch.
  split_and!; try reflexivity; try discriminate.
  - exists rest. reflexivity.
  - intros ->. discriminate Htr.
  - apply NoDup_elements.
  - intros w.
    etransitivity; [apply (involved_wallets_elem (c0 :: changes) w)|]. split.
    + intros ([w' mt d] & Hin & <-). apply Hch in Hin as (_ & Hd & Hdelta).
      exists mt, d. auto.
    + intros (mt & d & Hd & Hdelta).
      exists {| wallet := w; change_mint := mt; raw_change := d |}.
      split; [|reflexivity]. apply Hch. split_and!; try assumption.
      assert (Hc0 : c0 ∈ c0 :: changes) by (apply elem_of_cons; auto).
      destruct c0 as [w0 mt0 d0]. apply Hch in Hc0. tauto.
Qed.

Lemma event_lists_the_wallets_whose_balance_changed_witness :
  exists e,
    parse_transaction_for_event examples.sell_all = Event e /\
    type e = "TOKEN_ACTIVITY".
Proof.
  eexists. split; [ vm_compute; reflexivity | ].
  refine (proj1 (proj2 (proj2 (proj2 (proj2
            (event_lists_the_wallets_whose_balance_changed examples.sell_all _ _)))))).
  vm_compute. reflexivity.
Defined.

End parser_properties.

(** ** Delivery by the alert dispatcher *)

Section dispatcher_properties.
Import notification_system.

Lemma send_without_bot ok n s :
  bot s = false -> send_telegram_notification ok n s = s.
Proof. intros H. unfold send_telegram_notification. by rewrite H. Qed.

Lemma step_without_bot s a :
  bot s = false -> a <> SetBot ->
  bot (step s a) = false /\ sent (step s a) = sent s.
Proof.
  intros Hb Ha. destruct a as [ | | | now n | ok ]; cbn [step].
  - unfold start. by destruct (running s).
  - unfold stop. by destruct (running s).
  - done.
  - unfold queue_notification.
    destruct (negb (running s)); [ done | ].
    by destruct (maxsize <=? length (notification_queue s))%nat.
  - unfold process_one.
    destruct (processor_alive s && running s); [ | done ].
    destruct (notification_queue s) as [ | [ n | ] rest ]; try done.
    by rewrite send_without_bot.
Qed.

(** X10.  As long as no bot has been injected, nothing is handed to
    Telegram, whatever is started, stopped, queued or processed; and the
    processor still takes a queued notification off the queue, so that
    notification is lost. *)
Theorem nothing_is_sent_without_a_bot :
  forall (s : state) (actions : list action),
    bot s = false ->
    Forall (fun a => a <> SetBot) actions ->
    sent (run s actions) = sent s /\
    forall ok n rest,
      running (run s actions) = true ->
      processor_alive (run s actions) = true ->
      notification_queue (run s actions) = Some n :: rest ->
      notification_queue (process_one ok (run s actions)) = rest /\
      sent (process_one ok (run s actions)) = sent s.
Proof.
  intros s actions Hb Hall.
  assert (bot (run s actions) = false /\ sent (run s actions) = sent s) as [Hb' Hs'].
  { unfold run. revert s Hb.
    induction Hall as [ | a actions Ha Hall IH ]; intros s Hb; [ done | ].
    cbn [fold_left].
    destruct (step_without_bot s a Hb Ha) as [Hb1 Hs1].
    destruct (IH _ Hb1) as [Hb2 Hs2]. split; [ done | congruence ]. }
  split; [ done | ].
  intros ok n rest Hr Ha Hq. unfold process_one.
  rewrite Ha, Hr, Hq. cbn [andb]. rewrite send_without_bot by done.
  done.
Qed.

Lemma nothing_is_sent_without_a_bot_witness :
  sent (run examples.botless [ProcessOne true]) = [] /\
  notification_queue (run examples.botless [ProcessOne true]) = [].
Proof.
  destruct (nothing_is_sent_without_a_bot examples.botless [] eq_refl (Forall_nil_2 _))
    as [_ H].
  destruct (H true (stamp 1700000000 examples.alert) [] eq_refl eq_refl eq_refl)
    as [Hq Hs].
  split; [ exact Hs | exact Hq ].
Defined.

Lemma process_one_sendable ok n rest s :
  running s = true -> processor_alive s = true -> bot s = true ->
  notification_queue s = Some n :: rest ->
  process_one ok s =
  {| running := true; notification_queue := rest; processor_alive := true;
     bot := true;
     sent := (sent s ++ if reference.sendable n then [(n, ok)] else [])%list |}.
Proof.
  intros Hr Ha Hb Hq. unfold process_one. rewrite Ha, Hr, Hq. cbn [andb].
  unfold send_telegram_notification, reference.sendable.
  cbn [bot negb running notification_queue processor_alive sent]. rewrite Hb. cbn [negb].
  destruct (chat_id n) as [ c | ]; [ | by rewrite app_nil_r ].
  destruct (content n) as [ text | ]; [ | by rewrite app_nil_r ].
  destruct (negb (c =? 0) && truthy (Some text)); [ done | by rewrite app_nil_r ].
Qed.

(** X11.  A running dispatcher with a bot sends the queued notifications
    in the order in which they were queued: after as many iterations as there
    are notifications at the head of the queue, the send attempts are those
    notifications, in order, each with the outcome of its attempt, except the
    ones without chat id or content, which are dropped without an attempt and
    without holding up the others. *)
Theorem notifications_are_sent_in_queue_order :
  forall (s : state) (ns : list notification) (rest : list (option notification))
         (oks : list bool),
    running s = true -> processor_alive s = true -> bot s = true ->
    notification_queue s = (map Some ns ++ rest)%list ->
    length oks = length ns ->
    let s' := run s (map ProcessOne oks) in
    notification_queue s' = rest /\
    sent s' = (sent s ++ filter (fun p => reference.sendable (fst p) = true) (zip ns oks))%list /\
    running s' = true /\ processor_alive s' = true /\ bot s' = true.
Proof.
  intros s ns. unfold run. revert s.
  induction ns as [ | n ns IH ]; intros s rest oks Hr Ha Hb Hq Hlen.
  - destruct oks; [ | done ]. cbn. cbn in Hq. by rewrite app_nil_r.
  - destruct oks as [ | ok oks ]; [ done | ]. cbn [map fold_left step].
    cbn [map app] in Hq.
    rewrite (process_one_sendable ok n _ s Hr Ha Hb Hq).
    edestruct (IH {| running := true; notification_queue := (map Some ns ++ rest)%list;
                     processor_alive := true; bot := true;
                     sent := (sent s ++ if reference.sendable n then [(n, ok)] else [])%list |}
                 rest oks) as (H1 & H2 & H3 & H4 & H5); try done.
    + cbn in Hlen. lia.
    + rewrite H1, H2. split_and!; try done.
      cbn [sent zip zip_with]. rewrite filter_cons. cbn [fst].
      destruct (reference.sendable n).
      * rewrite decide_True by done. by rewrite <- app_assoc.
      * rewrite decide_False by done. by rewrite app_nil_r.
Qed.

Lemma notifications_are_sent_in_queue_order_witness :
  sent (run examples.loaded [ProcessOne true; ProcessOne false])
  = [ (stamp 1700000000 examples.alert, true);
      (stamp 1700000001 examples.alert, false) ].
Proof.
  refine (proj1 (proj2 (notifications_are_sent_in_queue_order examples.loaded
            [stamp 1700000000 examples.alert; stamp 1700000001 examples.alert]
            [] [true; false] _ _ _ _ _))); reflexivity.
Defined.

Lemma step_dead_processor s a :
  running s = true -> processor_alive s = false -> a <> Stop ->
  running (step s a) = true /\ processor_alive (step s a) = false /\
  sent (step s a) = sent s.
Proof.
  intros Hr Ha Hne. destruct a as [ | | | now n | ok ]; cbn [step].
  - unfold start. by rewrite Hr.
  - done.
  - done.
  - unfold queue_notification. rewrite Hr. cbn [negb].
    by destruct (maxsize <=? length (notification_queue s))%nat.
  - unfold process_one. rewrite Ha. done.
Qed.

(** X12.  Once the processor has ended while the running flag is still
    set (it read a sentinel left in the queue by an earlier stop), nothing is
    sent any more: [start] does nothing because the flag is set, and
    [queue_notification] keeps accepting notifications that nobody reads.
    Only a [stop] followed by a [start] changes that. *)
Theorem ended_processor_is_not_restarted :
  forall (s : state) (actions : list action),
    running s = true -> processor_alive s = false ->
    Forall (fun a => a <> Stop) actions ->
    sent (run s actions) = sent s /\
    processor_alive (run s actions) = false /\
    running (run s actions) = true.
Proof.
  intros s actions Hr Ha Hall. unfold run. revert s Hr Ha.
  induction Hall as [ | a actions Hne Hall IH ]; intros s Hr Ha; [ done | ].
  cbn [fold_left].
  destruct (step_dead_processor s a Hr Ha Hne) as (Hr1 & Ha1 & Hs1).
  destruct (IH _ Hr1 Ha1) as (Hs2 & Ha2 & Hr2). split_and!; congruence.
Qed.

Lemma ended_processor_is_not_restarted_witness :
  sent (run examples.restarted
          [Queue 1700000100 examples.alert; Start; ProcessOne true])
  = sent examples.restarted.
Proof.
  refine (proj1 (ended_processor_is_not_restarted examples.restarted
                   [Queue 1700000100 examples.alert; Start; ProcessOne true] _ _ _)).
  - reflexivity.
  - reflexivity.
  - repeat constructor; discriminate.
Defined.

End dispatcher_properties.

(** ** Store tasks and the rows of the state table *)

Lemma store_tasks_elem mint c m w t :
  (m, w, t) ∈ wallet_analyzer.store_tasks mint c <->
  m = mint /\ wallet_analyzer.cls_type c w = Some t.
Proof.
  unfold wallet_analyzer.store_tasks. cbv zeta.
  rewrite list_elem_of_omap. split.
  - intros (x & _ & Hx). destruct (wallet_analyzer.cls_type c x) eqn:E; [ | done ].
    by injection Hx as <- <- <-.
  - intros [-> Ht]. exists w. rewrite Ht. split; [ | done ].
    apply elem_of_elements, elem_of_list_to_set.
    unfold wallet_analyzer.cls_type in Ht.
    rewrite !elem_of_app.
    repeat case_bool_decide; try done; tauto.
Qed.

Lemma store_tasks_wallets_NoDup mint c :
  NoDup (map (fun t : wallet_analyzer.store_task => snd (fst t))
           (wallet_analyzer.store_tasks mint c)).
Proof.
  unfold wallet_analyzer.store_tasks. cbv zeta.
  generalize (NoDup_elements
                (list_to_set (wallet_analyzer.creator c ++ wallet_analyzer.team c ++
                              wallet_analyzer.insider c ++ wallet_analyzer.sniper c)
                 : gset string)).
  generalize (elements
                (list_to_set (wallet_analyzer.creator c ++ wallet_analyzer.team c ++
                              wallet_analyzer.insider c ++ wallet_analyzer.sniper c)
                 : gset string)).
  intros l. induction l as [ | x l IH ]; intros Hnd; [ constructor | ].
  apply NoDup_cons in Hnd as [Hx Hnd]. cbn [omap list_omap].
  destruct (wallet_analyzer.cls_type c x) as [ t | ]; [ | by apply IH ].
  cbn [map fst snd]. apply NoDup_cons. split; [ | by apply IH ].
  intros Hin. apply Hx.
  apply list_elem_of_fmap in Hin as ([[m w] t'] & -> & Hin). cbn [fst snd].
  apply list_elem_of_omap in Hin as (y & Hy & Hf).
  destruct (wallet_analyzer.cls_type c y); [ | done ].
  by injection Hf as _ <- _.
Qed.

(** X13.  A classification run launches one store task per classified
    wallet and no other: every task is for the mint of the run, no wallet has
    two tasks, a wallet of the team list is stored as team and a wallet of
    the creator list as creator. *)
Theorem each_classified_wallet_gets_one_store_task :
  forall (svc : wallet_analyzer.services) (mint : string),
    let c := fst (wallet_analyzer._calculate_classifications svc mint) in
    let tasks := snd (wallet_analyzer._calculate_classifications svc mint) in
    NoDup (map (fun t : wallet_analyzer.store_task => snd (fst t)) tasks) /\
    forall m w t,
      (m, w, t) ∈ tasks <->
      m = mint /\
      ((w ∈ wallet_analyzer.team c /\ t = "team") \/
       (w ∈ wallet_analyzer.creator c /\ t = "creator")).
Proof.
  intros svc mint. cbv zeta.
  destruct (wallet_analyzer.read_metadata (wallet_analyzer._get_metadata svc mint))
    as [ [ [md d] tsd ] | ] eqn:E.
  - unfold wallet_analyzer._calculate_classifications. rewrite E.
    destruct (wallet_analyzer.team_step _ _ _ _ _) as [found cl'] eqn:Et.
    apply team_step_disjoint in Et as [Hnd Hdis].
    cbn [fst snd]. split; [ apply store_tasks_wallets_NoDup | ].
    intros m w t. rewrite store_tasks_elem.
    unfold wallet_analyzer.cls_type.
    cbn [wallet_analyzer.sniper wallet_analyzer.insider wallet_analyzer.team
         wallet_analyzer.creator].
    rewrite !(bool_decide_eq_false_2 (w ∈ [])) by (intros H; by apply elem_of_nil in H).
    split.
    + intros [-> Ht]. split; [ done | ].
      repeat case_bool_decide; try done; injection Ht as <-; tauto.
    + intros [-> [ [Hw ->] | [Hw ->] ] ]; (split; [ done | ]).
      * by rewrite bool_decide_eq_true_2.
      * rewrite bool_decide_eq_false_2.
        -- by rewrite bool_decide_eq_true_2.
        -- intros Hf. apply Hdis in Hf as [Hf _]. apply Hf.
           by apply elem_of_elements.
  - rewrite (calculate_classifications_aborted svc mint E). cbn.
    split; [ constructor | ].
    intros m w t. split.
    + intros H. by apply elem_of_nil in H.
    + intros [_ [ [H _] | [H _] ] ]; by apply elem_of_nil in H.
Qed.

Lemma matches_spec mint wallet row :
  wallet_analyzer.matches mint wallet row = true <->
  wallet_analyzer.mint_address row = mint /\ wallet_analyzer.wallet_address row = wallet.
Proof.
  unfold wallet_analyzer.matches.
  rewrite andb_true_iff, !String.eqb_eq. done.
Qed.

Lemma store_initial_unique svc cond mint wallet cls w :
  wallet_analyzer.select_ok cond = true ->
  reference.unique_rows (wallet_analyzer.table w) ->
  reference.unique_rows
    (wallet_analyzer.table
       (wallet_analyzer.store_initial_wallet_state svc cond mint wallet cls w)) /\
  exists added,
    wallet_analyzer.table
      (wallet_analyzer.store_initial_wallet_state svc cond mint wallet cls w)
    = (wallet_analyzer.table w ++ added)%list /\
    Forall (fun row => 0 < wallet_analyzer.initial_raw_balance row) added.
Proof.
  intros Hsel Hu.
  destruct (store_initial_cases svc cond mint wallet cls w)
    as [ -> | (b & _ & Hb & _ & Hex & ->) ].
  - split; [ done | ]. exists []. by rewrite app_nil_r.
  - cbn [wallet_analyzer.table]. split.
    + intros m' w'. rewrite count_rows_app, count_rows_singleton.
      destruct (wallet_analyzer.matches m' w' _) eqn:Em.
      * apply matches_spec in Em as [Hm Hw]. cbn in Hm, Hw. subst m' w'.
        unfold wallet_analyzer._check_state_exists in Hex. rewrite Hsel in Hex.
        cbn [andb] in Hex. apply Nat.ltb_ge in Hex. lia.
      * specialize (Hu m' w'). lia.
    + eexists [_]. split; [ reflexivity | ]. by repeat constructor.
Qed.

Lemma run_store_tasks_unique svc cond tasks : forall w,
  wallet_analyzer.select_ok cond = true ->
  reference.unique_rows (wallet_analyzer.table w) ->
  reference.unique_rows (wallet_analyzer.table (tracker.run_store_tasks svc cond tasks w)) /\
  exists added,
    wallet_analyzer.table (tracker.run_store_tasks svc cond tasks w)
    = (wallet_analyzer.table w ++ added)%list /\
    Forall (fun row => 0 < wallet_analyzer.initial_raw_balance row) added.
Proof.
  unfold tracker.run_store_tasks.
  induction tasks as [ | t tasks IH ]; intros w Hsel Hu; cbn [fold_left].
  - split; [ done | ]. exists []. by rewrite app_nil_r.
  - destruct (store_initial_unique svc cond (fst (fst t)) (snd (fst t)) (snd t) w Hsel Hu)
      as (Hu1 & added1 & Ht1 & Hp1).
    destruct (IH _ Hsel Hu1) as (Hu2 & added2 & Ht2 & Hp2).
    split; [ done | ]. exists (added1 ++ added2)%list.
    split; [ by rewrite Ht2, Ht1, app_assoc | by apply Forall_app ].
Qed.

(** X14.  When the operations run one after another and the existence
    check of each of them gets an answer from the store, a state table without
    duplicates stays without duplicates: no (mint, wallet) pair ever has two
    rows.  Every row that is added records a positive initial balance. *)
Theorem state_rows_stay_unique_while_the_existence_check_works :
  forall (svc : wallet_analyzer.services) (ops : list tracker.operation)
         (w : wallet_analyzer.world),
    reference.unique_rows (wallet_analyzer.table w) ->
    Forall (fun o => reference.select_works o = true) ops ->
    reference.unique_rows (wallet_analyzer.table (tracker.run svc w ops)) /\
    exists added,
      wallet_analyzer.table (tracker.run svc w ops)
      = (wallet_analyzer.table w ++ added)%list /\
      Forall (fun row => 0 < wallet_analyzer.initial_raw_balance row) added.
Proof.
  intros svc ops w Hu Hall. unfold tracker.run. revert w Hu.
  induction Hall as [ | o ops Ho Hall IH ]; intros w Hu; cbn [fold_left].
  - split; [ done | ]. exists []. by rewrite app_nil_r.
  - assert (reference.unique_rows (wallet_analyzer.table (tracker.step svc w o)) /\
            exists added,
              wallet_analyzer.table (tracker.step svc w o)
              = (wallet_analyzer.table w ++ added)%list /\
              Forall (fun row => 0 < wallet_analyzer.initial_raw_balance row) added)
      as (Hu1 & added1 & Ht1 & Hp1).
    { destruct o as [ cond mint | cond mint wallet cls | cond tx ];
        cbn [tracker.step reference.select_works] in *.
      - by apply run_store_tasks_unique.
      - by apply store_initial_unique.
      - rewrite process_realtime_table. split; [ done | ].
        exists []. by rewrite app_nil_r. }
    destruct (IH _ Hu1) as (Hu2 & added2 & Ht2 & Hp2).
    split; [ done | ]. exists (added1 ++ added2)%list.
    split; [ by rewrite Ht2, Ht1, app_assoc | by apply Forall_app ].
Qed.

Lemma state_rows_stay_unique_while_the_existence_check_works_witness :
  reference.unique_rows
    (wallet_analyzer.table
       (tracker.run (examples.alerting 1000) (examples.world_0 true)
          [ tracker.StoreInitial (examples.fair 1699999000)
              examples.MINT examples.WALLET_A "team";
            tracker.StoreInitial (examples.fair 1699999500)
              examples.MINT examples.WALLET_A "team" ])).
Proof.
  refine (proj1 (state_rows_stay_unique_while_the_existence_check_works
                   (examples.alerting 1000) _ (examples.world_0 true) _ _)).
  - intros mint wallet. cbn. lia.
  - repeat constructor.
Defined.

(** ** Alerts of the real-time processing *)

(** X15.  A streamed transaction that is handled while the dispatcher is
    stopped queues nothing; its marker is written all the same, so a second
    handling while the marker is alive is suppressed even if the dispatcher
    has been started in between: the alerts of that transaction are lost. *)
Theorem alerts_are_lost_while_the_dispatcher_is_stopped :
  forall (svc : wallet_analyzer.services) (cond cond' : wallet_analyzer.conditions)
         (tx : transaction_parser.tx_data) (w : wallet_analyzer.world)
         (sig : string) (rest : list (option string)),
    transaction_parser.signatures tx = Some (Some sig :: rest) ->
    truthy (Some sig) = true ->
    notification_system.running (wallet_analyzer.notifier w) = false ->
    wallet_analyzer.redis_up cond = true ->
    wallet_analyzer.redis_up cond' = true ->
    wallet_analyzer._redis_exists cond w
      (wallet_analyzer.PROCESSED_REALTIME_TX_PREFIX svc +:+ sig) = false ->
    wallet_analyzer.now cond' <
      wallet_analyzer.now cond + Z.min 60 (wallet_analyzer.PROCESSED_TX_TTL svc) ->
    let first := wallet_analyzer.process_realtime_transaction_simple_alert svc cond tx w in
    let later := reference.dispatcher_started (fst first) in
    wallet_analyzer.notifier (fst first) = wallet_analyzer.notifier w /\
    wallet_analyzer.process_realtime_transaction_simple_alert svc cond' tx later
    = (later, [wallet_analyzer.redis_exists
                 (wallet_analyzer.PROCESSED_REALTIME_TX_PREFIX svc +:+ sig)]).
Proof.
  intros svc cond cond' tx w sig rest Hsig Htr Hrun Hup Hup' Hex Hnow first later.
  split; [ by apply process_realtime_stopped | ].
  destruct (process_realtime_first_sighting svc cond tx w sig rest Hsig Htr Hup Hex)
    as (_ & v & expires & Hlook & Hexp).
  apply (process_realtime_suppressed svc cond' tx later sig rest Hsig Htr).
  unfold wallet_analyzer._redis_exists. rewrite Hup'. cbn [andb].
  unfold later, reference.dispatcher_started. cbn [wallet_analyzer.redis].
  unfold first. cbv zeta in Hlook. rewrite Hlook. apply Z.ltb_lt. lia.
Qed.

Lemma alerts_are_lost_while_the_dispatcher_is_stopped_witness :
  let first :=
    wallet_analyzer.process_realtime_transaction_simple_alert
      (examples.alerting 0) (examples.fair 1700000000) examples.sell_all
      (examples.world_0 false) in
  wallet_analyzer.notifier (fst first) = notification_system.init.
Proof.
  refine (proj1 (alerts_are_lost_while_the_dispatcher_is_stopped
                   (examples.alerting 0) (examples.fair 1700000000)
                   (examples.fair 1700000030) examples.sell_all (examples.world_0 false)
                   examples.SIGNATURE [] _ _ _ _ _ _ _)).
  - reflexivity.
  - reflexivity.
  - reflexivity.
  - reflexivity.
  - reflexivity.
  - reflexivity.
  - vm_compute. reflexivity.
Defined.

(** With Redis unavailable the effects of a handling do not depend on the
    stores. *)
Lemma process_realtime_redis_down svc cond tx w w' :
  wallet_analyzer.redis_up cond = false ->
  snd (wallet_analyzer.process_realtime_transaction_simple_alert svc cond tx w)
  = snd (wallet_analyzer.process_realtime_transaction_simple_alert svc cond tx w') /\
  wallet_analyzer.redis
    (fst (wallet_analyzer.process_realtime_transaction_simple_alert svc cond tx w))
  = wallet_analyzer.redis w.
Proof.
  intros Hup.
  unfold wallet_analyzer.process_realtime_transaction_simple_alert,
    wallet_analyzer._redis_exists, wallet_analyzer._redis_setex.
  rewrite Hup. cbn [andb].
  case_split_process; cbn [fst snd wallet_analyzer.queue_all wallet_analyzer.redis]; done.
Qed.

Lemma process_realtime_effects_clock svc cond cond' tx w :
  wallet_analyzer.redis_up cond = false ->
  wallet_analyzer.redis_up cond' = false ->
  snd (wallet_analyzer.process_realtime_transaction_simple_alert svc cond tx w)
  = snd (wallet_analyzer.process_realtime_transaction_simple_alert svc cond' tx w).
Proof.
  intros Hup Hup'.
  unfold wallet_analyzer.process_realtime_transaction_simple_alert,
    wallet_analyzer._redis_exists, wallet_analyzer._redis_setex.
  rewrite Hup, Hup'. cbn [andb].
  case_split_process; cbn [fst snd]; done.
Qed.

(** X16.  While Redis does not answer, duplicate suppression is off: a
    second handling of the same transaction has the same effects as the
    first, alerts included, and the Redis store is left as it was. *)
Theorem redis_outage_disables_duplicate_suppression :
  forall (svc : wallet_analyzer.services) (cond cond' : wallet_analyzer.conditions)
         (tx : transaction_parser.tx_data) (w : wallet_analyzer.world),
    wallet_analyzer.redis_up cond = false ->
    wallet_analyzer.redis_up cond' = false ->
    let first := wallet_analyzer.process_realtime_transaction_simple_alert svc cond tx w in
    let second :=
      wallet_analyzer.process_realtime_transaction_simple_alert svc cond' tx (fst first) in
    snd second = snd first /\
    wallet_analyzer.redis (fst second) = wallet_analyzer.redis w.
Proof.
  intros svc cond cond' tx w Hup Hup' first second. subst first second. split.
  - rewrite (process_realtime_effects_clock svc cond' cond tx _ Hup' Hup).
    apply process_realtime_redis_down. exact Hup.
  - destruct (process_realtime_redis_down svc cond' tx
                (fst (wallet_analyzer.process_realtime_transaction_simple_alert
                        svc cond tx w)) w Hup') as [_ ->].
    by destruct (process_realtime_redis_down svc cond tx w w Hup) as [_ ->].
Qed.

Lemma redis_outage_disables_duplicate_suppression_witness :
  let first :=
    wallet_analyzer.process_realtime_transaction_simple_alert
      (examples.alerting 0) (examples.redis_down 1700000000) examples.sell_all
      (examples.world_0 true) in
  let second :=
    wallet_analyzer.process_realtime_transaction_simple_alert
      (examples.alerting 0) (examples.redis_down 1700000001) examples.sell_all
      (fst first) in
  snd second = snd first.
Proof.
  refine (proj1 (redis_outage_disables_duplicate_suppression
                   (examples.alerting 0) (examples.redis_down 1700000000)
                   (examples.redis_down 1700000001) examples.sell_all
                   (examples.world_0 true) _ _)); reflexivity.
Defined.

Lemma fold_insert_lookup (t : string) (wl : list string) : forall (m : gmap string string) w t',
  fold_left (fun acc w => <[w := t]> acc) wl m !! w = Some t' ->
  (w ∈ wl /\ t' = t) \/ m !! w = Some t'.
Proof.
  induction wl as [ | x wl IH ]; intros m w t' H; cbn [fold_left] in H.
  - by right.
  - apply IH in H as [ [Hin ->] | H ].
    + left. split; [ by right | done ].
    + destruct (decide (x = w)) as [ -> | Hne ].
      * rewrite lookup_insert_eq in H. injection H as <-. left. split; [ by left | done ].
      * rewrite lookup_insert_ne in H by done. by right.
Qed.

Lemma wallet_type_map_Some c w t :
  wallet_analyzer.wallet_type_map c !! w = Some t ->
  (w ∈ wallet_analyzer.sniper c /\ t = "sniper") \/
  (w ∈ wallet_analyzer.insider c /\ t = "insider") \/
  (w ∈ wallet_analyzer.team c /\ t = "team") \/
  (w ∈ wallet_analyzer.creator c /\ t = "creator").
Proof.
  unfold wallet_analyzer.wallet_type_map. cbv zeta. intros H.
  apply fold_insert_lookup in H as [ H | H ]; [ tauto | ].
  apply fold_insert_lookup in H as [ H | H ]; [ tauto | ].
  apply fold_insert_lookup in H as [ H | H ]; [ tauto | ].
  apply fold_insert_lookup in H as [ H | H ]; [ tauto | ].
  by rewrite lookup_empty in H.
Qed.

(** X17.  Every alert queued by the handling of a streamed transaction is
    for a wallet that acted in the transaction and is in one of the four
    lists of the token's classification, goes to a chat that subscribes to
    the token, names the token, and has the type of that list followed by
    [_activity_alert]. *)
Theorem every_alert_is_for_a_classified_wallet_and_a_subscriber :
  forall (svc : wallet_analyzer.services) (cond : wallet_analyzer.conditions)
         (tx : transaction_parser.tx_data) (w : wallet_analyzer.world)
         (n : notification_system.notification),
    wallet_analyzer.queue_notification n
      ∈ snd (wallet_analyzer.process_realtime_transaction_simple_alert svc cond tx w) ->
    exists sig involved_mint wallet_actions c wallet action t chat,
      (exists rest, transaction_parser.signatures tx = Some (Some sig :: rest)) /\
      wallet_analyzer.extract_mint_from_tx svc tx = wallet_analyzer.Parsed (Some involved_mint) /\
      wallet_analyzer.detect_wallet_actions svc tx = wallet_analyzer.Parsed wallet_actions /\
      wallet_analyzer.get_classified_wallets svc involved_mint = Returned (Some c) /\
      (wallet, action) ∈ wallet_actions /\
      ((wallet ∈ wallet_analyzer.sniper c /\ t = "sniper") \/
       (wallet ∈ wallet_analyzer.insider c /\ t = "insider") \/
       (wallet ∈ wallet_analyzer.team c /\ t = "team") \/
       (wallet ∈ wallet_analyzer.creator c /\ t = "creator")) /\
      chat ∈ wallet_analyzer.get_subscribers_for_token svc involved_mint /\
      n = {| notification_system.chat_id := Some chat;
             notification_system.token_address := Some involved_mint;
             notification_system.type := t +:+ "_activity_alert";
             notification_system.content :=
               Some (wallet_analyzer.alert_content svc t wallet action involved_mint sig);
             notification_system.queued_at := None |}.
Proof.
  intros svc cond tx w n.
  unfold wallet_analyzer.process_realtime_transaction_simple_alert.
  assert (forall key ttl v l,
            wallet_analyzer.queue_notification n
              ∈ (wallet_analyzer.redis_exists key :: wallet_analyzer.redis_setex key ttl v :: l)
            -> wallet_analyzer.queue_notification n ∈ l) as Hskip.
  { intros key ttl v l H.
    apply elem_of_cons in H as [ H | H ]; [ done | ].
    apply elem_of_cons in H as [ H | H ]; [ done | done ]. }
  case_split_process; cbn [fst snd app];
    intros Hin;
    try (by apply elem_of_nil in Hin);
    try (apply elem_of_cons in Hin as [ Hin | Hin ]; [ done | ];
         by apply elem_of_nil in Hin);
    try (apply Hskip in Hin);
    try (by apply elem_of_nil in Hin);
    try (apply elem_of_cons in Hin as [ Hin | Hin ]; [ done | ];
         by apply elem_of_nil in Hin).
  apply list_elem_of_fmap in Hin as (n' & [= ->] & Hin).
  unfold wallet_analyzer.alerts_for in Hin.
  apply list_elem_of_In, in_flat_map in Hin as ([wallet action] & Hwa & Hin).
  cbn [fst snd] in Hin.
  destruct (wallet_analyzer.wallet_type_map _ !! wallet) as [ t | ] eqn:Ht; [ | done ].
  destruct (truthy (Some t)); [ | done ].
  apply in_map_iff in Hin as (chat & <- & Hchat).
  apply wallet_type_map_Some in Ht.
  eexists _, _, _, _, wallet, action, t, chat.
  split_and!; try done; try (by eexists); try (by apply list_elem_of_In).
Qed.

Lemma every_alert_is_for_a_classified_wallet_and_a_subscriber_witness :
  exists t chat,
    notification_system.type examples.alert = t +:+ "_activity_alert" /\
    notification_system.chat_id examples.alert = Some chat /\
    chat ∈ wallet_analyzer.get_subscribers_for_token (examples.alerting 0) examples.MINT.
Proof.
  destruct (every_alert_is_for_a_classified_wallet_and_a_subscriber
              (examples.alerting 0) (examples.fair 1700000000) examples.sell_all
              (examples.world_0 true) examples.alert)
    as (sig & m & was & c & wallet & action & t & chat & _ & Hm & _ & _ & _ & _ & Hchat & Hn).
  - replace (snd (wallet_analyzer.process_realtime_transaction_simple_alert
                    (examples.alerting 0) (examples.fair 1700000000) examples.sell_all
                    (examples.world_0 true)))
      with [ wallet_analyzer.redis_exists ("processed_rt_tx:" +:+ examples.SIGNATURE);
             wallet_analyzer.redis_setex ("processed_rt_tx:" +:+ examples.SIGNATURE)
               86400 "processed";
             wallet_analyzer.queue_notification examples.alert ]
      by (vm_compute; reflexivity).
    do 2 apply list_elem_of_further. apply list_elem_of_here.
  - injection Hm as <-. exists t, chat. rewrite Hn. done.
Defined.

(** ** Updates of the stream subscription *)

(** X18.  A manager as [__init__] builds it never connects: [connect]
    reads the attribute [rpc_wss_url], which nothing sets, so every attempt
    fails, the socket stays closed and no frame is ever written, whatever
    calls are made on the manager. *)
Theorem manager_as_constructed_never_connects :
  forall (api_key : string) (ops : list session.operation)
         (cond : websocket_manager.conditions),
    let m := session.run (websocket_manager.init api_key) ops in
    websocket_manager.websocket_open m = false /\
    websocket_manager.outbox m = [] /\
    snd (websocket_manager.connect cond m) = false.
Proof.
  intros api_key ops cond m.
  assert (websocket_manager.rpc_wss_url m = None /\
          websocket_manager.websocket_open m = false /\
          websocket_manager.outbox m = []) as (Hurl & Hopen & Hout).
  { subst m. unfold session.run.
    assert (forall m0,
              websocket_manager.rpc_wss_url m0 = None ->
              websocket_manager.websocket_open m0 = false ->
              websocket_manager.outbox m0 = [] ->
              websocket_manager.rpc_wss_url (fold_left session.step ops m0) = None /\
              websocket_manager.websocket_open (fold_left session.step ops m0) = false /\
              websocket_manager.outbox (fold_left session.step ops m0) = []) as Hinv.
    { induction ops as [ | o ops IH ]; intros m0 H1 H2 H3; [ done | ].
      cbn [fold_left].
      destruct (session_step_never_connects m0 o H1 H2) as (H1' & H2' & H3').
      apply IH; congruence. }
    by apply Hinv. }
  split_and!; try done.
  unfold websocket_manager.connect. rewrite Hopen.
  cbn [websocket_manager.with_details websocket_manager.rpc_wss_url].
  by rewrite Hurl.
Qed.

(** X19.  On an open socket with working writes and an intended set
    within the limit of 45,000 accounts, one update makes the active filter
    equal to the intended set, and further updates send nothing. *)
Theorem filter_update_settles_within_capacity :
  forall (cond : websocket_manager.conditions) (m : websocket_manager.manager),
    websocket_manager.websocket_open m = true ->
    websocket_manager.send_ok cond = true ->
    (size (websocket_manager.intended_accounts_to_monitor m)
     <= Z.to_nat websocket_manager.MAX_ACCOUNTS_PER_SUBSCRIPTION)%nat ->
    let m' := websocket_manager._update_helius_subscription cond m in
    websocket_manager.active_filter_accounts
      (websocket_manager.helius_subscription_details m')
    = websocket_manager.intended_accounts_to_monitor m /\
    forall cond', websocket_manager._update_helius_subscription cond' m' = m'.
Proof.
  intros cond m Hopen Hsend Hsize m'.
  assert (websocket_manager.active_filter_accounts
            (websocket_manager.helius_subscription_details m')
          = websocket_manager.intended_accounts_to_monitor m) as Hact.
  { subst m'. unfold websocket_manager._update_helius_subscription.
    rewrite Hopen, Hsend. cbn [negb].
    case_bool_decide as Heq; [ done | ].
    case_bool_decide as Hemp; [ by rewrite Hemp | ].
    cbn. by apply take_elements_set. }
  split; [ exact Hact | ].
  intros cond'. apply update_noop. subst m'. by rewrite update_intended, Hact.
Qed.

Lemma filter_update_settles_within_capacity_witness :
  websocket_manager._update_helius_subscription examples.online
    (websocket_manager._update_helius_subscription examples.online
       (examples.unsubscribed {[ examples.MINT ]}))
  = websocket_manager._update_helius_subscription examples.online
      (examples.unsubscribed {[ examples.MINT ]}).
Proof.
  refine (proj2 (filter_update_settles_within_capacity examples.online
                   (examples.unsubscribed {[ examples.MINT ]}) _ _ _) examples.online).
  - reflexivity.
  - reflexivity.
  - cbn [examples.unsubscribed websocket_manager.intended_accounts_to_monitor].
    rewrite size_singleton. unfold websocket_manager.MAX_ACCOUNTS_PER_SUBSCRIPTION. lia.
Defined.

(** X20.  With more than 45,000 intended accounts the update never
    settles: the active filter is the truncated set, which differs from the
    intended set, so the next update sends the same truncated request again
    although nothing has changed. *)
Theorem beyond_capacity_every_update_sends_again :
  forall (cond cond' : websocket_manager.conditions) (m : websocket_manager.manager),
    websocket_manager.websocket_open m = true ->
    websocket_manager.send_ok cond = true ->
    websocket_manager.send_ok cond' = true ->
    (Z.to_nat websocket_manager.MAX_ACCOUNTS_PER_SUBSCRIPTION
     < size (websocket_manager.intended_accounts_to_monitor m))%nat ->
    (size (websocket_manager.active_filter_accounts
             (websocket_manager.helius_subscription_details m))
     <= Z.to_nat websocket_manager.MAX_ACCOUNTS_PER_SUBSCRIPTION)%nat ->
    let accounts :=
      take (Z.to_nat websocket_manager.MAX_ACCOUNTS_PER_SUBSCRIPTION)
        (elements (websocket_manager.intended_accounts_to_monitor m)) in
    let m1 := websocket_manager._update_helius_subscription cond m in
    let m2 := websocket_manager._update_helius_subscription cond' m1 in
    websocket_manager.outbox m2
    = (websocket_manager.outbox m
       ++ [ websocket_manager.transactionSubscribe
              ("sub_tx_main_" +:+ pretty (websocket_manager.now cond)) accounts;
            websocket_manager.transactionSubscribe
              ("sub_tx_main_" +:+ pretty (websocket_manager.now cond')) accounts ])%list /\
    (size (websocket_manager.active_filter_accounts
             (websocket_manager.helius_subscription_details m2))
     = Z.to_nat websocket_manager.MAX_ACCOUNTS_PER_SUBSCRIPTION)%nat.
Proof.
  intros cond cond' m Hopen Hsend Hsend' Hbig Hact accounts m1 m2.
  assert (forall m0,
            websocket_manager.websocket_open m0 = true ->
            (Z.to_nat websocket_manager.MAX_ACCOUNTS_PER_SUBSCRIPTION
             < size (websocket_manager.intended_accounts_to_monitor m0))%nat ->
            (size (websocket_manager.active_filter_accounts
                     (websocket_manager.helius_subscription_details m0))
             <= Z.to_nat websocket_manager.MAX_ACCOUNTS_PER_SUBSCRIPTION)%nat ->
            websocket_manager.intended_accounts_to_monitor m0 <> ∅ /\
            websocket_manager.intended_accounts_to_monitor m0
            <> websocket_manager.active_filter_accounts
                 (websocket_manager.helius_subscription_details m0)) as Hdiff.
  { intros m0 _ Hb Ha. split.
    - intros He. rewrite He, size_empty in Hb. lia.
    - intros He. rewrite <- He in Ha. lia. }
  destruct (Hdiff m Hopen Hbig Hact) as [Hne Hneq].
  destruct (update_sends_truncated_set cond m Hopen Hsend Hne Hneq) as (Ho1 & Ha1 & _).
  fold m1 in Ho1, Ha1. fold accounts in Ho1, Ha1.
  assert (websocket_manager.websocket_open m1 = true) as Hopen1.
  { subst m1. unfold websocket_manager._update_helius_subscription.
    rewrite Hopen, Hsend. cbn [negb].
    rewrite (bool_decide_eq_false_2 _ Hneq), (bool_decide_eq_false_2 _ Hne). done. }
  assert (websocket_manager.intended_accounts_to_monitor m1
          = websocket_manager.intended_accounts_to_monitor m) as Hint1
    by apply update_intended.
  assert (size (websocket_manager.active_filter_accounts
                  (websocket_manager.helius_subscription_details m1))
          = Z.to_nat websocket_manager.MAX_ACCOUNTS_PER_SUBSCRIPTION) as Hsz1.
  { rewrite Ha1. unfold accounts.
    destruct (take_elements_set (websocket_manager.intended_accounts_to_monitor m)
                (Z.to_nat websocket_manager.MAX_ACCOUNTS_PER_SUBSCRIPTION))
      as (_ & _ & _ & ->). lia. }
  destruct (Hdiff m1 Hopen1) as [Hne1 Hneq1]; [ by rewrite Hint1 | lia | ].
  destruct (update_sends_truncated_set cond' m1 Hopen1 Hsend' Hne1 Hneq1)
    as (Ho2 & Ha2 & _).
  fold m2 in Ho2, Ha2. rewrite Hint1 in Ho2, Ha2. fold accounts in Ho2, Ha2.
  split.
  - rewrite Ho2, Ho1, <- app_assoc. done.
  - rewrite Ha2, <- Ha1. exact Hsz1.
Qed.

Lemma beyond_capacity_every_update_sends_again_witness :
  length
    (websocket_manager.outbox
       (websocket_manager._update_helius_subscription examples.online
          (websocket_manager._update_helius_subscription examples.online
             (examples.unsubscribed (examples.accounts 45001)))))
  = 2%nat.
Proof.
  assert ((Z.to_nat websocket_manager.MAX_ACCOUNTS_PER_SUBSCRIPTION
           < size (websocket_manager.intended_accounts_to_monitor
                     (examples.unsubscribed (examples.accounts 45001))))%nat) as Hbig.
  { cbn [examples.unsubscribed websocket_manager.intended_accounts_to_monitor].
    rewrite accounts_size by lia.
    unfold websocket_manager.MAX_ACCOUNTS_PER_SUBSCRIPTION. lia. }
  assert ((size (websocket_manager.active_filter_accounts
                   (websocket_manager.helius_subscription_details
                      (examples.unsubscribed (examples.accounts 45001))))
           <= Z.to_nat websocket_manager.MAX_ACCOUNTS_PER_SUBSCRIPTION)%nat) as Hact.
  { cbn [examples.unsubscribed websocket_manager.helius_subscription_details
         websocket_manager.cleared websocket_manager.active_filter_accounts].
    rewrite size_empty. lia. }
  rewrite (proj1 (beyond_capacity_every_update_sends_again examples.online examples.online
                    (examples.unsubscribed (examples.accounts 45001))
                    eq_refl eq_refl eq_refl Hbig Hact)).
  rewrite length_app. reflexivity.
Defined.

(** X21.  When the write of a subscribe request fails, nothing is sent
    and the active filter is put back, while the local request id keeps the
    id of the request that was not sent; the next update with a working write
    sends the request for the intended set. *)
Theorem failed_subscribe_is_retried_by_the_next_update :
  forall (cond cond' : websocket_manager.conditions) (m : websocket_manager.manager),
    websocket_manager.websocket_open m = true ->
    websocket_manager.send_ok cond = false ->
    websocket_manager.send_ok cond' = true ->
    websocket_manager.intended_accounts_to_monitor m <> ∅ ->
    websocket_manager.intended_accounts_to_monitor m
      <> websocket_manager.active_filter_accounts
           (websocket_manager.helius_subscription_details m) ->
    let accounts :=
      take (Z.to_nat websocket_manager.MAX_ACCOUNTS_PER_SUBSCRIPTION)
        (elements (websocket_manager.intended_accounts_to_monitor m)) in
    let m1 := websocket_manager._update_helius_subscription cond m in
    let m2 := websocket_manager._update_helius_subscription cond' m1 in
    websocket_manager.outbox m1 = websocket_manager.outbox m /\
    websocket_manager.active_filter_accounts
      (websocket_manager.helius_subscription_details m1)
    = websocket_manager.active_filter_accounts
        (websocket_manager.helius_subscription_details m) /\
    websocket_manager.local_request_id
      (websocket_manager.helius_subscription_details m1)
    = Some ("sub_tx_main_" +:+ pretty (websocket_manager.now cond)) /\
    websocket_manager.outbox m2
    = (websocket_manager.outbox m
       ++ [ websocket_manager.transactionSubscribe
              ("sub_tx_main_" +:+ pretty (websocket_manager.now cond')) accounts ])%list.
Proof.
  intros cond cond' m Hopen Hsend Hsend' Hne Hneq accounts m1 m2.
  assert (m1 =
          websocket_manager.with_active
            (websocket_manager.active_filter_accounts
               (websocket_manager.helius_subscription_details m))
            (websocket_manager.with_details
               {| websocket_manager.helius_id :=
                    websocket_manager.helius_id
                      (websocket_manager.helius_subscription_details m);
                  websocket_manager.local_request_id :=
                    Some ("sub_tx_main_" +:+ pretty (websocket_manager.now cond));
                  websocket_manager.active_filter_accounts := list_to_set accounts |} m))
    as Hm1.
  { subst m1. unfold websocket_manager._update_helius_subscription.
    rewrite Hopen, Hsend. cbn [negb].
    rewrite (bool_decide_eq_false_2 _ Hneq), (bool_decide_eq_false_2 _ Hne). done. }
  split_and!; try (rewrite Hm1; done).
  assert (websocket_manager.websocket_open m1 = true) as Hopen1 by (by rewrite Hm1).
  assert (websocket_manager.intended_accounts_to_monitor m1 <> ∅) as Hne1
    by (by rewrite Hm1).
  assert (websocket_manager.intended_accounts_to_monitor m1
          <> websocket_manager.active_filter_accounts
               (websocket_manager.helius_subscription_details m1)) as Hneq1
    by (by rewrite Hm1).
  destruct (update_sends_truncated_set cond' m1 Hopen1 Hsend' Hne1 Hneq1) as (Ho2 & _).
  fold m2 in Ho2. rewrite Ho2. rewrite Hm1. done.
Qed.

Lemma failed_subscribe_is_retried_by_the_next_update_witness :
  websocket_manager.outbox
    (websocket_manager._update_helius_subscription examples.write_fails
       (examples.unsubscribed {[ examples.MINT ]})) = [].
Proof.
  refine (proj1 (failed_subscribe_is_retried_by_the_next_update
                   examples.write_fails examples.online
                   (examples.unsubscribed {[ examples.MINT ]}) _ _ _ _ _)).
  - reflexivity.
  - reflexivity.
  - reflexivity.
  - cbn. intros H. assert (examples.MINT ∈ (∅ : gset string)) as Hin
      by (rewrite <- H; by apply elem_of_singleton).
    by apply elem_of_empty in Hin.
  - cbn. intros H. assert (examples.MINT ∈ (∅ : gset string)) as Hin
      by (rewrite <- H; by apply elem_of_singleton).
    by apply elem_of_empty in Hin.
Defined.

(** X22.  When the intended set has become empty, the update clears the
    active filter at once and keeps the upstream subscription id; it writes
    an unsubscribe frame only if that id is set and the write succeeds, and
    no later update tries again. *)
Theorem emptied_filter_is_cleared_without_waiting_for_the_unsubscribe :
  forall (cond : websocket_manager.conditions) (m : websocket_manager.manager),
    websocket_manager.websocket_open m = true ->
    websocket_manager.intended_accounts_to_monitor m = ∅ ->
    websocket_manager.active_filter_accounts
      (websocket_manager.helius_subscription_details m) <> ∅ ->
    let m' := websocket_manager._update_helius_subscription cond m in
    let h := websocket_manager.helius_id (websocket_manager.helius_subscription_details m) in
    websocket_manager.active_filter_accounts
      (websocket_manager.helius_subscription_details m') = ∅ /\
    websocket_manager.helius_id (websocket_manager.helius_subscription_details m') = h /\
    websocket_manager.outbox m'
    = (websocket_manager.outbox m
       ++ match h with
          | Some i =>
              if websocket_manager.id_truthy h && websocket_manager.send_ok cond
              then [ websocket_manager.transactionUnsubscribe
                       ("unsub_tx_" +:+ pretty i +:+ "_"
                        +:+ pretty (websocket_manager.now cond)) i ]
              else []
          | None => []
          end)%list /\
    forall cond', websocket_manager._update_helius_subscription cond' m' = m'.
Proof.
  intros cond m Hopen Hint Hact m' h.
  assert (websocket_manager.intended_accounts_to_monitor m
          <> websocket_manager.active_filter_accounts
               (websocket_manager.helius_subscription_details m)) as Hneq
    by (rewrite Hint; congruence).
  assert (m' =
          websocket_manager.with_active ∅
            (if websocket_manager.id_truthy h
             then websocket_manager.unsubscribe_current_transaction_subscription cond m
             else m)) as Hm'.
  { subst m'. unfold websocket_manager._update_helius_subscription.
    rewrite Hopen. cbn [negb].
    rewrite (bool_decide_eq_false_2 _ Hneq), (bool_decide_eq_true_2 _ Hint). done. }
  assert (websocket_manager.active_filter_accounts
            (websocket_manager.helius_subscription_details m') = ∅) as Hact' by (by rewrite Hm').
  split_and!.
  - exact Hact'.
  - subst m'. apply update_helius_id.
  - rewrite Hm'. subst h.
    unfold websocket_manager.unsubscribe_current_transaction_subscription.
    rewrite Hopen. cbn [negb].
    destruct (websocket_manager.helius_id _) as [ i | ];
      [ | cbn; by rewrite app_nil_r ].
    destruct (websocket_manager.id_truthy (Some i)); cbn [andb].
    + destruct (websocket_manager.send_ok cond); cbn; [ done | by rewrite app_nil_r ].
    + cbn. by rewrite app_nil_r.
  - intros cond'. apply update_noop.
    rewrite Hact'. subst m'. by rewrite update_intended.
Qed.

Lemma emptied_filter_is_cleared_without_waiting_for_the_unsubscribe_witness :
  websocket_manager.active_filter_accounts
    (websocket_manager.helius_subscription_details
       (websocket_manager._update_helius_subscription examples.write_fails
          examples.emptied)) = ∅.
Proof.
  refine (proj1 (emptied_filter_is_cleared_without_waiting_for_the_unsubscribe
                   examples.write_fails examples.emptied _ _ _)).
  - reflexivity.
  - reflexivity.
  - cbn. intros H. assert (examples.MINT ∈ (∅ : gset string)) as Hin
      by (rewrite <- H; by apply elem_of_singleton).
    by apply elem_of_empty in Hin.
Defined.

(** ** The paginated holder fetch *)

Lemma fetch_pages_spec rpc n : forall page acc,
  exists k : nat,
    (k <= n)%nat /\
    (forall i : nat, (i < k)%nat -> reference.page_filled rpc (page + Z.of_nat i)) /\
    ((helius.fetch_pages rpc n page acc
      = Some (acc ++ flat_map (fun i : nat =>
                                 match rpc (page + Z.of_nat i) with
                                 | helius.TokenAccounts l => l
                                 | _ => []
                                 end) (seq 0 k))%list /\
      (k = n \/ rpc (page + Z.of_nat k) = helius.NoTokenAccounts \/
       rpc (page + Z.of_nat k) = helius.TokenAccounts [])) \/
     (helius.fetch_pages rpc n page acc = None /\ (k < n)%nat /\
      rpc (page + Z.of_nat k) = helius.RpcRaised)).
Proof.
  induction n as [ | n IH ]; intros page acc.
  - exists 0%nat. split_and!; [ lia | intros i Hi; lia | ].
    left. cbn. rewrite app_nil_r. auto.
  - cbn [helius.fetch_pages].
    destruct (rpc page) as [ | | [ | h l ] ] eqn:E.
    + exists 0%nat. split_and!; [ lia | intros i Hi; lia | ].
      right. rewrite Z.add_0_r. split_and!; [ done | lia | done ].
    + exists 0%nat. split_and!; [ lia | intros i Hi; lia | ].
      left. cbn. rewrite app_nil_r, Z.add_0_r. auto.
    + exists 0%nat. split_and!; [ lia | intros i Hi; lia | ].
      left. cbn. rewrite app_nil_r, Z.add_0_r. auto.
    + destruct (IH (page + 1) (acc ++ h :: l)%list) as (k & Hk & Hfill & Hres).
      exists (S k). split_and!.
      * lia.
      * intros i Hi. destruct i as [ | i ].
        -- rewrite Z.add_0_r. exists (h :: l). by rewrite E.
        -- replace (page + Z.of_nat (S i)) with (page + 1 + Z.of_nat i) by lia.
           apply Hfill. lia.
      * assert (flat_map (fun i : nat =>
                            match rpc (page + Z.of_nat i) with
                            | helius.TokenAccounts l0 => l0
                            | _ => []
                            end) (seq 0 (S k))
                = ((h :: l) ++ flat_map (fun i : nat =>
                                           match rpc (page + 1 + Z.of_nat i) with
                                           | helius.TokenAccounts l0 => l0
                                           | _ => []
                                           end) (seq 0 k))%list) as ->.
        { cbn [seq flat_map]. rewrite Z.add_0_r, E. f_equal.
          rewrite <- seq_shift, flat_map_concat_map, map_map, <- flat_map_concat_map.
          apply flat_map_ext. intros i.
          by replace (page + Z.of_nat (S i)) with (page + 1 + Z.of_nat i) by lia. }
        replace (page + Z.of_nat (S k)) with (page + 1 + Z.of_nat k) by lia.
        destruct Hres as [ [-> Hend] | (-> & Hlt & Hr) ].
        -- left. split; [ by rewrite <- app_assoc | ].
           destruct Hend as [ -> | Hend ]; [ by left | by right ].
        -- right. split_and!; [ done | lia | done ].
Qed.

(** X23.  The paginated holder fetch asks for the pages 1, 2, ... in
    order and for no page beyond [max_pages].  It returns the accounts of the
    pages before the first page that is empty or has no account list (or of
    all [max_pages] pages), in order; if a request raises before that, it
    returns [None] and the pages already fetched are dropped. *)
Theorem paginated_fetch_returns_the_pages_before_the_first_gap :
  forall (rpc : string -> Z -> helius.page_result) (mint : string) (max_pages : Z),
  exists k : nat,
    Z.of_nat k <= Z.max 0 max_pages /\
    (forall i : nat, (i < k)%nat -> reference.page_filled (rpc mint) (1 + Z.of_nat i)) /\
    ((helius.get_token_holders_paginated rpc mint max_pages
      = Returned (Some (reference.first_pages (rpc mint) k)) /\
      (Z.of_nat k = Z.max 0 max_pages \/
       rpc mint (1 + Z.of_nat k) = helius.NoTokenAccounts \/
       rpc mint (1 + Z.of_nat k) = helius.TokenAccounts [])) \/
     (helius.get_token_holders_paginated rpc mint max_pages = Returned None /\
      Z.of_nat k < max_pages /\
      rpc mint (1 + Z.of_nat k) = helius.RpcRaised)).
Proof.
  intros rpc mint max_pages.
  destruct (fetch_pages_spec (rpc mint) (Z.to_nat max_pages) 1 [])
    as (k & Hk & Hfill & Hres).
  exists k. split_and!; [ lia | exact Hfill | ].
  unfold helius.get_token_holders_paginated, reference.first_pages.
  destruct Hres as [ [-> Hend] | (-> & Hlt & Hr) ].
  - left. split; [ done | ].
    destruct Hend as [ -> | Hend ]; [ left; lia | by right ].
  - right. split_and!; [ done | lia | done ].
Qed.

(** X24.  If no page holds more than [limit_per_page] accounts, the
    paginated holder fetch returns at most [max_pages * limit_per_page]
    accounts. *)
Theorem paginated_fetch_is_bounded_by_pages_times_limit :
  forall (rpc : string -> Z -> helius.page_result) (mint : string)
         (max_pages limit_per_page : Z) (holders : list holder),
    0 <= limit_per_page ->
    (forall page fetched_accounts,
       rpc mint page = helius.TokenAccounts fetched_accounts ->
       Z.of_nat (length fetched_accounts) <= limit_per_page) ->
    helius.get_token_holders_paginated rpc mint max_pages = Returned (Some holders) ->
    Z.of_nat (length holders) <= Z.max 0 max_pages * limit_per_page.
Proof.
  intros rpc mint max_pages limit holders Hlim Hpage H.
  destruct (fetch_pages_spec (rpc mint) (Z.to_nat max_pages) 1 [])
    as (k & Hk & _ & Hres).
  unfold helius.get_token_holders_paginated in H.
  destruct Hres as [ [Hsome _] | (Hnone & _) ]; [ | congruence ].
  rewrite Hsome in H.
  assert (holders = flat_map (fun i : nat =>
                                match rpc mint (1 + Z.of_nat i) with
                                | helius.TokenAccounts l => l
                                | _ => []
                                end) (seq 0 k)) as -> by (cbn [app] in H; congruence).
  assert (forall js : list nat,
            Z.of_nat (length (flat_map (fun i : nat =>
                                          match rpc mint (1 + Z.of_nat i) with
                                          | helius.TokenAccounts l => l
                                          | _ => []
                                          end) js))
            <= Z.of_nat (length js) * limit) as Hsum.
  { induction js as [ | j js IH ]; [ cbn; lia | ].
    cbn [flat_map]. rewrite length_app, Nat2Z.inj_add. cbn [length].
    rewrite Nat2Z.inj_succ.
    assert (Z.of_nat (length (match rpc mint (1 + Z.of_nat j) with
                              | helius.TokenAccounts l => l
                              | _ => []
                              end)) <= limit) as Hj.
    { destruct (rpc mint (1 + Z.of_nat j)) as [ | | l ] eqn:E; [ cbn; lia | cbn; lia | ].
      by apply (Hpage (1 + Z.of_nat j)). }
    lia. }
  specialize (Hsum (seq 0 k)). rewrite length_seq in Hsum. nia.
Qed.

Lemma paginated_fetch_is_bounded_by_pages_times_limit_witness :
  Z.of_nat (length examples.holders_6) <= Z.max 0 6 * 3.
Proof.
  refine (paginated_fetch_is_bounded_by_pages_times_limit examples.two_pages
            examples.MINT 6 3 examples.holders_6 _ _ _).
  - lia.
  - intros page l. unfold examples.two_pages.
    destruct (Z.eqb page 1); [ intros [= <-]; cbn; lia | ].
    destruct (Z.eqb page 2); intros [= <-]; cbn; lia.
  - reflexivity.
Defined.

(** ** Shortened addresses *)

Lemma string_append_cons (a : Ascii.ascii) (s1 s2 : string) :
  String a s1 +:+ s2 = String a (s1 +:+ s2).
Proof. reflexivity. Qed.

Lemma string_length_append (s1 s2 : string) :
  String.length (s1 +:+ s2) = (String.length s1 + String.length s2)%nat.
Proof.
  induction s1 as [ | a s1 IH ]; [ done | ].
  rewrite string_append_cons. cbn [String.length]. by rewrite IH.
Qed.

Lemma substring_length (s : string) : forall n m : nat,
  (n + m <= String.length s)%nat -> String.length (String.substring n m s) = m.
Proof.
  induction s as [ | a s IH ]; intros n m H; cbn in H.
  - assert (n = 0%nat) as -> by lia. assert (m = 0%nat) as -> by lia. done.
  - destruct n as [ | n ]; cbn [String.substring].
    + destruct m as [ | m ]; [ done | ]. cbn [String.length]. f_equal. apply IH. lia.
    + apply IH. lia.
Qed.

Lemma substring_0_append (s1 s2 : string) :
  String.substring 0 (String.length s1) (s1 +:+ s2) = s1.
Proof.
  induction s1 as [ | a s1 IH ].
  - by destruct s2.
  - rewrite string_append_cons. cbn [String.length String.substring]. by rewrite IH.
Qed.

Lemma substring_skip_append (s1 s2 : string) (m : nat) :
  String.substring (String.length s1) m (s1 +:+ s2) = String.substring 0 m s2.
Proof.
  induction s1 as [ | a s1 IH ]; [ done | ].
  rewrite string_append_cons. cbn [String.length String.substring Nat.add]. exact IH.
Qed.

Lemma substring_skip_more (s1 s2 : string) (n m : nat) :
  String.substring (String.length s1 + n)%nat m (s1 +:+ s2) = String.substring n m s2.
Proof.
  induction s1 as [ | a s1 IH ]; [ done | ].
  rewrite string_append_cons. cbn [String.length String.substring Nat.add]. exact IH.
Qed.

Lemma substring_0_all (s : string) : String.substring 0 (String.length s) s = s.
Proof.
  induction s as [ | a s IH ]; [ done | ].
  cbn [String.length String.substring]. by rewrite IH.
Qed.

(** X25.  For a positive [chars] and an address longer than twice
    [chars], [shorten_address] gives the first [chars] characters, three
    dots, and the last [chars] characters: a string of [2 * chars + 3]
    characters, which is longer than the address when the address has
    [2 * chars + 1] or [2 * chars + 2] characters. *)
Theorem shortened_address_keeps_both_ends :
  forall (address : string) (chars : Z),
    0 < chars ->
    chars * 2 < Z.of_nat (String.length address) ->
    let c := Z.to_nat chars in
    let r := formatting.shorten_address (Some address) chars in
    String.length r = (2 * c + 3)%nat /\
    String.substring 0 c r = String.substring 0 c address /\
    String.substring c 3 r = "..." /\
    String.substring (c + 3)%nat c r = String.substring (String.length address - c)%nat c address.
Proof.
  intros address chars Hpos Hlong c r.
  assert (r = String.substring 0 c address +:+ "..." +:+
              String.substring (String.length address - c)%nat c address) as Hr.
  { subst r c. unfold formatting.shorten_address.
    rewrite (proj2 (Z.leb_gt chars 0)) by lia.
    by rewrite (proj2 (Z.leb_gt _ _)) by lia. }
  assert (String.length (String.substring 0 c address) = c) as Hp
    by (apply substring_length; lia).
  assert (String.length (String.substring (String.length address - c)%nat c address) = c) as Hs
    by (apply substring_length; lia).
  rewrite Hr. clear Hr r.
  set (P := String.substring 0 c address) in *.
  set (S := String.substring (String.length address - c)%nat c address) in *.
  split_and!.
  - rewrite !string_length_append, Hp, Hs. cbn. lia.
  - rewrite <- Hp at 1. apply substring_0_append.
  - replace c with (String.length P + 0)%nat at 1 by lia.
    rewrite substring_skip_more. apply (substring_0_append "..." S).
  - replace (c + 3)%nat with (String.length P + 3)%nat by lia.
    rewrite substring_skip_more.
    change 3%nat with (String.length "..." + 0)%nat.
    rewrite (substring_skip_more "..." S 0 c).
    rewrite <- Hs at 1. apply substring_0_all.
Qed.

Lemma shortened_address_keeps_both_ends_witness :
  String.length (formatting.shorten_address (Some "ABCDEFGHIJK") 5) = 13%nat.
Proof.
  refine (proj1 (shortened_address_keeps_both_ends "ABCDEFGHIJK" 5 _ _)).
  - lia.
  - cbn. lia.
Defined.
